(** * np_services: device lifecycle, disk preflight and data discovery

    A shallow embedding of [np_services/utils.py] and of the proxy classes of
    [np_services/proxies.py], and the properties of the specification that
    they decide.

    Conventions of the embedding.
    - Python numbers that carry seconds ([time.time()], [st_ctime], ...)
      are exact rationals ([Q]), with the exact comparisons and [int()].
      A [datetime] argument stands for its timestamp.
    - The disk preflight computes with Python floats: a float is the
      exact value of a binary64 number (or an infinity), and a product, a
      quotient and [round(_, 1)] return the float nearest to their exact
      result, ties to even.
    - Every method is a state transformer over a [World]: the clock, the
      commands delivered to the device, the log and the class attributes the
      methods assign.  What the process cannot control (the state a device
      reports, the files on disk, free space) is read from an [Env], as a
      function of the clock and of the commands delivered so far.  The
      clock moves in [time.sleep] only.
    - [ensure_config()] is embedded from the source ([cls_ensure_config]);
      the methods call it through the [Env], so that a property that holds
      whatever [ensure_config()] does is stated once for every machine,
      and a property that depends on its body is stated for the machines
      that run it ([runs_source_config]).
    - The classes are taken after [initialize()]: [cls.proxy] exists, so
      [get_proxy()] returns it, and a call through the proxy is delivered.
    - A raised exception is an outcome, and the world reached when it was
      raised is kept (Python does not roll assignments back).
    - [while] loops take fuel; [Hang] is the outcome of a loop that used all
      of it, so "for every fuel the outcome is [Hang]" says that the Python
      loop does not end. *)

From Stdlib Require Import ZArith QArith Qround Qabs Qpower Lqa Lia.
From Stdlib Require Import Bool List String Ascii.
From Stdlib Require Import Permutation Sorted.
Import ListNotations.

Local Open Scope string_scope.
Local Open Scope Z_scope.

(** ** Strings and paths *)

Module Str.

Definition chars (s : string) : list ascii := list_ascii_of_string s.

Fixpoint prefix_of (p s : list ascii) : bool :=
  match p, s with
  | [], _ => true
  | _ :: _, [] => false
  | a :: p', b :: s' => Ascii.eqb a b && prefix_of p' s'
  end.

(** [sub in s] on Python strings. *)
Fixpoint contains_chars (sub s : list ascii) : bool :=
  prefix_of sub s ||
  match s with
  | [] => false
  | _ :: s' => contains_chars sub s'
  end.

Definition contains (sub s : string) : bool :=
  contains_chars (chars sub) (chars s).

(** [fnmatch] on the patterns made of plain characters, [?] and [*], with
    the case kept: the patterns this repository passes to [Path.glob]
    ("*", "*.h5", "*.pkl", "*.mp4", "*.json", ".bmp", "*" followed by
    [raw_suffix]).  Character classes in brackets are outside of it. *)
Fixpoint glob_chars (pat : list ascii) : list ascii -> bool :=
  match pat with
  | [] => fun s => match s with [] => true | _ :: _ => false end
  | c :: pat' =>
      if Ascii.eqb c "*" then
        fix star (s : list ascii) : bool :=
          glob_chars pat' s ||
          match s with
          | [] => false
          | _ :: s' => star s'
          end
      else if Ascii.eqb c "?" then
        fun s => match s with [] => false | _ :: s' => glob_chars pat' s' end
      else
        fun s =>
          match s with
          | [] => false
          | d :: s' => Ascii.eqb c d && glob_chars pat' s'
          end
  end.

Definition fnmatch (name pat : string) : bool :=
  glob_chars (chars pat) (chars name).

(** Splits off the text after the last dot: [rsplit_dot "a.b.c"] is
    [Some ("a.b", "c")]. *)
Fixpoint rsplit_dot (s : list ascii) : option (list ascii * list ascii) :=
  match s with
  | [] => None
  | c :: s' =>
      match rsplit_dot s' with
      | Some (stem, ext) => Some (c :: stem, ext)
      | None => if Ascii.eqb c "." then Some ([], s') else None
      end
  end.

End Str.

Definition Path := list string.

Module PurePath.

Definition name (p : Path) : string := last p "".

Definition parent (p : Path) : Path := removelast p.

(** [PurePath.suffix]: the text from the last dot of the final component,
    when that dot is neither its first nor its last character. *)
Definition suffix (p : Path) : string :=
  match Str.rsplit_dot (Str.chars (name p)) with
  | Some (_ :: _ as stem, (_ :: _) as ext) =>
      string_of_list_ascii ("."%char :: ext)
  | _ => ""
  end.

Definition path_eqb (p q : Path) : bool :=
  if list_eq_dec string_dec p q then true else false.

Fixpoint split_slash (acc : list ascii) (s : list ascii) : list string :=
  match s with
  | [] => match acc with [] => [] | _ => [string_of_list_ascii (rev acc)] end
  | c :: s' =>
      if Ascii.eqb c "/" then
        match acc with
        | [] => split_slash [] s'
        | _ => string_of_list_ascii (rev acc) :: split_slash [] s'
        end
      else split_slash (c :: acc) s'
  end.

(** [p / s]: a segment that starts with a slash is absolute and replaces
    [p]; the root is kept as the component "/". *)
Definition joinpath (p : Path) (s : string) : Path :=
  let parts := split_slash [] (Str.chars s) in
  if Str.prefix_of ["/"%char] (Str.chars s) then "/" :: parts
  else (p ++ parts)%list.

End PurePath.

(** ** Exceptions *)

Inductive ExcClass : Type :=
| BaseException | KeyboardInterrupt | Exception
| AssertionError | AttributeError | IndexError | TypeError | ValueError
| OSError | FileNotFoundError | PermissionError | ConnectionError
| ZroError | TestError
| FileExistsError | NotADirectoryError | OverflowError.

Definition ExcClass_eqb (a b : ExcClass) : bool :=
  match a, b with
  | BaseException, BaseException | KeyboardInterrupt, KeyboardInterrupt
  | Exception, Exception | AssertionError, AssertionError
  | AttributeError, AttributeError | IndexError, IndexError
  | TypeError, TypeError | ValueError, ValueError | OSError, OSError
  | FileNotFoundError, FileNotFoundError | PermissionError, PermissionError
  | ConnectionError, ConnectionError | ZroError, ZroError
  | TestError, TestError | FileExistsError, FileExistsError
  | NotADirectoryError, NotADirectoryError
  | OverflowError, OverflowError => true
  | _, _ => false
  end.

(** The base class of each exception class ([ZroError] and [TestError] are
    the repository's own subclasses of [Exception]; [ArithmeticError],
    between [OverflowError] and [Exception], is caught nowhere and is left
    out). *)
Definition base (c : ExcClass) : option ExcClass :=
  match c with
  | BaseException => None
  | KeyboardInterrupt | Exception => Some BaseException
  | FileNotFoundError | PermissionError | ConnectionError
  | FileExistsError | NotADirectoryError => Some OSError
  | _ => Some Exception
  end.

Fixpoint issubclass_upto (depth : nat) (c d : ExcClass) : bool :=
  ExcClass_eqb c d ||
  match depth, base c with
  | S n, Some b => issubclass_upto n b d
  | _, _ => false
  end.

Definition issubclass (c d : ExcClass) : bool := issubclass_upto 3 c d.

Record Exc : Type := mkExc { exc_class : ExcClass; exc_msg : string }.

(** [isinstance(exc, classes)] for a tuple of classes. *)
Definition isinstance_any (e : Exc) (classes : list ExcClass) : bool :=
  existsb (issubclass (exc_class e)) classes.

(** ** Numbers *)

(** [int(x)] on a float: truncation toward zero. *)
Definition py_int (x : Q) : Z := Z.quot (Qnum x) (Zpos (Qden x)).

(** Nearest integer, ties to the even one. *)
Definition round_half_even (x : Q) : Z :=
  let n := Qfloor x in
  let r := (x - inject_Z n)%Q in
  match (r ?= 1 # 2)%Q with
  | Lt => n
  | Gt => n + 1
  | Eq => if Z.even n then n else n + 1
  end.

(** The decimal step of [round(x, 1)]: the multiple of one tenth nearest
    to the exact value of [x], ties to the even digit. *)
Definition nearest_tenth (x : Q) : Q :=
  Qmake (round_half_even (10 * x)%Q) 10.

(** ** Python floats *)

(** The largest [k] with [2^k <= x], for a positive [x]. *)
Definition floor_log2 (x : Q) : Z :=
  if Qle_bool 1 x then Z.log2 (Qfloor x)
  else - Z.log2_up (Qceiling (/ x)).

(** The exponent of the unit in the last place of the binary64 numbers
    around a positive [x]: 52 below its leading bit, and never below that
    of the subnormal numbers. *)
Definition ulp_exponent (x : Q) : Z := Z.max (floor_log2 x - 52) (-1074).

(** The binary64 number nearest to a positive [x], ties to the even
    mantissa; the value may be [2^1024], which stands for an overflow. *)
Definition nearest_double (x : Q) : Q :=
  (inject_Z (round_half_even (x / 2 ^ ulp_exponent x))
   * 2 ^ ulp_exponent x)%Q.

(** A Python float that is not a NaN: a finite binary64 number, as its
    exact value, or an infinity.  The two zeros are one value. *)
Inductive Float : Type :=
| Finite (q : Q)
| Infinite (negative : bool).

(** The float nearest to a rational: what an arithmetic operation on
    floats returns for its exact result. *)
Definition to_double (x : Q) : Float :=
  match (x ?= 0)%Q with
  | Eq => Finite 0
  | Gt =>
      let y := nearest_double x in
      if Qle_bool (2 ^ 1024) y then Infinite false else Finite (Qred y)
  | Lt =>
      let y := nearest_double (- x) in
      if Qle_bool (2 ^ 1024) y then Infinite true else Finite (Qred (- y))
  end.

(** [x * y] on floats *)
Definition float_mul (x y : Q) : Float := to_double (x * y).

(** [x / y] on floats, for a divisor that is not zero *)
Definition float_div (x y : Q) : Float := to_double (x / y).

(** [round(x, 1)] on a float: the decimal with one digit nearest to the
    exact value of [x], ties to the even digit, read back as a float (the
    string that [float.__round__] prints and parses); an infinity is
    returned as it is. *)
Definition float_round1 (x : Float) : Float :=
  match x with
  | Finite q => to_double (nearest_tenth q)
  | Infinite s => Infinite s
  end.

(** [x == 0.0] *)
Definition float_is_zero (x : Float) : bool :=
  match x with
  | Finite q => Qeq_bool q 0
  | Infinite _ => false
  end.

(** [x > y] *)
Definition float_gt (x y : Float) : bool :=
  match x, y with
  | Finite p, Finite q => negb (Qle_bool p q)
  | Finite _, Infinite s => s
  | Infinite s, Finite _ => negb s
  | Infinite s, Infinite t => negb s && t
  end.



(** ** Devices, files and the world *)

(** What a device reports through [get_state()]: the two-element tuple
    [ProxyState], or the mapping older services returned. *)
Inductive State : Type :=
| StateTuple (coarse detail : string)
| StateMap (items : list (string * string)).

(** One entry of MVR's camera status. *)
Record Camera : Type := mkCamera {
  aux_label : bool;                        (* re_aux matches its label *)
  is_open : bool;
  is_streaming : bool;
  is_recording : bool
}.

(** Messages MVR leaves on the socket that the proxy classes look for. *)
Inductive Broadcast : Type :=
| snapshot_converted | snapshot_failed | other_message.

(** What the connector of the MVR classes sees. *)
Record MvrLink : Type := mkMvrLink {
  host_online : bool;                      (* utils.is_online(cls.host) *)
  mvr_connected : bool;                    (* proxy._mvr_connected *)
  camera_status : option (list Camera)     (* None: no status response *)
}.

(** Commands that reach the device. *)
Inductive Cmd : Type :=
| proxy_start | proxy_stop
| proxy_start_script | proxy_start_session
| ssh_call
| mvr_take_snapshot | mvr_start_record | mvr_stop_record.

Record DirEntry : Type := mkEntry {
  e_path : Path;
  e_is_dir : bool;
  st_ctime : Q;
  st_mtime : Q;
  st_size : Z
}.

Inductive Level : Type := DEBUG | INFO | WARNING | ERROR.

Record World : Type := mkWorld {
  clock : Q;                                (* time.time() *)
  sent : list Cmd;                          (* oldest first *)
  log : list (Level * string);              (* oldest first *)
  inbox_read : nat;                         (* messages already read() *)
  disk_usage_calls : list Path;
  (* class attributes *)
  gb_per_hr : Q;
  min_rec_hr : Q;
  pretest_duration_sec : Q;
  data_root : option Path;
  data_files : option (list Path);
  exc : option Exc;
  latest_start : option Q;                  (* None: no such attribute *)
  (* the module's CONFIG, by class name: the value of the key "data" in
     the entry of the class; None without an entry, Some None for an entry
     without the key *)
  CONFIG : string -> option (option string);
  made_dirs : list DirEntry                 (* directories mkdir made *)
}.

Inductive Outcome (A : Type) : Type :=
| Return (a : A)
| Raise (e : Exc)
| Hang.

Arguments Return {A} a.
Arguments Raise {A} e.
Arguments Hang {A}.

Definition M (A : Type) : Type := World -> Outcome A * World.

Definition ret {A} (a : A) : M A := fun w => (Return a, w).

Definition bind {A B} (m : M A) (k : A -> M B) : M B :=
  fun w =>
    match m w with
    | (Return a, w') => k a w'
    | (Raise e, w') => (Raise e, w')
    | (Hang, w') => (Hang, w')
    end.

Declare Scope py_scope.
Delimit Scope py_scope with py.
Notation "x <- m ;; k" := (bind m (fun x => k))
  (at level 100, m at next level, right associativity) : py_scope.
Notation "m ;; k" := (bind m (fun _ => k))
  (at level 100, right associativity) : py_scope.
Local Open Scope py_scope.

Definition raise {A} (c : ExcClass) (msg : string) : M A :=
  fun w => (Raise (mkExc c msg), w).

Definition gets {A} (f : World -> A) : M A := fun w => (Return (f w), w).

Definition modify (f : World -> World) : M unit := fun w => (Return tt, f w).

Definition with_clock (t : Q) (w : World) : World :=
  mkWorld t (sent w) (log w) (inbox_read w) (disk_usage_calls w)
    (gb_per_hr w) (min_rec_hr w) (pretest_duration_sec w) (data_root w)
    (data_files w) (exc w) (latest_start w) (CONFIG w) (made_dirs w).

Definition with_sent (l : list Cmd) (w : World) : World :=
  mkWorld (clock w) l (log w) (inbox_read w) (disk_usage_calls w)
    (gb_per_hr w) (min_rec_hr w) (pretest_duration_sec w) (data_root w)
    (data_files w) (exc w) (latest_start w) (CONFIG w) (made_dirs w).

Definition with_log (l : list (Level * string)) (w : World) : World :=
  mkWorld (clock w) (sent w) l (inbox_read w) (disk_usage_calls w)
    (gb_per_hr w) (min_rec_hr w) (pretest_duration_sec w) (data_root w)
    (data_files w) (exc w) (latest_start w) (CONFIG w) (made_dirs w).

Definition with_inbox_read (n : nat) (w : World) : World :=
  mkWorld (clock w) (sent w) (log w) n (disk_usage_calls w)
    (gb_per_hr w) (min_rec_hr w) (pretest_duration_sec w) (data_root w)
    (data_files w) (exc w) (latest_start w) (CONFIG w) (made_dirs w).

Definition with_disk_usage_calls (l : list Path) (w : World) : World :=
  mkWorld (clock w) (sent w) (log w) (inbox_read w) l
    (gb_per_hr w) (min_rec_hr w) (pretest_duration_sec w) (data_root w)
    (data_files w) (exc w) (latest_start w) (CONFIG w) (made_dirs w).

Definition with_data_files (l : option (list Path)) (w : World) : World :=
  mkWorld (clock w) (sent w) (log w) (inbox_read w) (disk_usage_calls w)
    (gb_per_hr w) (min_rec_hr w) (pretest_duration_sec w) (data_root w)
    l (exc w) (latest_start w) (CONFIG w) (made_dirs w).

Definition with_exc (e : option Exc) (w : World) : World :=
  mkWorld (clock w) (sent w) (log w) (inbox_read w) (disk_usage_calls w)
    (gb_per_hr w) (min_rec_hr w) (pretest_duration_sec w) (data_root w)
    (data_files w) e (latest_start w) (CONFIG w) (made_dirs w).

Definition with_latest_start (t : option Q) (w : World) : World :=
  mkWorld (clock w) (sent w) (log w) (inbox_read w) (disk_usage_calls w)
    (gb_per_hr w) (min_rec_hr w) (pretest_duration_sec w) (data_root w)
    (data_files w) (exc w) t (CONFIG w) (made_dirs w).

Definition with_data_root (r : option Path) (w : World) : World :=
  mkWorld (clock w) (sent w) (log w) (inbox_read w) (disk_usage_calls w)
    (gb_per_hr w) (min_rec_hr w) (pretest_duration_sec w) r
    (data_files w) (exc w) (latest_start w) (CONFIG w) (made_dirs w).

Definition with_CONFIG (cfg : string -> option (option string)) (w : World)
  : World :=
  mkWorld (clock w) (sent w) (log w) (inbox_read w) (disk_usage_calls w)
    (gb_per_hr w) (min_rec_hr w) (pretest_duration_sec w) (data_root w)
    (data_files w) (exc w) (latest_start w) cfg (made_dirs w).

Definition with_made_dirs (l : list DirEntry) (w : World) : World :=
  mkWorld (clock w) (sent w) (log w) (inbox_read w) (disk_usage_calls w)
    (gb_per_hr w) (min_rec_hr w) (pretest_duration_sec w) (data_root w)
    (data_files w) (exc w) (latest_start w) (CONFIG w) l.

(** [logger.<level>(msg)] *)
Definition logger (lvl : Level) (msg : string) : M unit :=
  modify (fun w => with_log (log w ++ [(lvl, msg)]) w).

(** [time.time()] *)
Definition time_time : M Q := gets clock.

(** [time.sleep(secs)]: a negative length is a [ValueError]. *)
Definition time_sleep (secs : Q) : M unit :=
  if Qle_bool 0 secs
  then modify (fun w => with_clock (clock w + secs)%Q w)
  else raise ValueError "sleep length must be non-negative".

(** Delivery of a command to the device. *)
Definition send (c : Cmd) : M unit :=
  modify (fun w => with_sent (sent w ++ [c]) w).

(** [while cond: body] *)
Fixpoint while (fuel : nat) (cond : M bool) (body : M unit) : M unit :=
  match fuel with
  | O => fun w => (Hang, w)
  | S n =>
      b <- cond ;;
      if b then (body ;; while n cond body) else ret tt
  end.

(** [with contextlib.suppress(Exception): body] *)
Definition contextlib_suppress (classes : list ExcClass) (body : M unit)
  : M unit :=
  fun w =>
    match body w with
    | (Raise e, w') =>
        if isinstance_any e classes then (Return tt, w') else (Raise e, w')
    | r => r
    end.

Fixpoint mapM {A B} (f : A -> M B) (l : list A) : M (list B) :=
  match l with
  | [] => ret []
  | x :: l' => y <- f x ;; ys <- mapM f l' ;; ret (y :: ys)
  end.

Fixpoint filterM {A} (f : A -> M bool) (l : list A) : M (list A) :=
  match l with
  | [] => ret []
  | x :: l' =>
      b <- f x ;; xs <- filterM f l' ;; ret (if b then x :: xs else xs)
  end.

(** ** The proxy classes *)

Inductive Cls : Type :=
| Proxy | CamstimSyncShared
| Sync | Phidget | Camstim | ScriptCamstim | SessionCamstim | NoCamstim
| MouseDirector | Cam3d
| MVR | ImageMVR | VideoMVR.

(** The class attribute [started_state] as method resolution finds it;
    [None] where no class on the way declares a value. *)
Definition started_state (c : Cls) : option (list string) :=
  match c with
  | Sync | VideoMVR => Some ["BUSY"; "RECORDING"]
  | Camstim | ScriptCamstim | SessionCamstim | NoCamstim =>
      Some ["BUSY"; "Script in progress."]
  | Cam3d => Some ["READY"; "CAMERAS_OPEN,CAMERAS_ACQUIRING"]
  | _ => None
  end.

Definition raw_suffix (c : Cls) : option string :=
  match c with
  | Sync => Some ".sync"
  | VideoMVR => Some ".mp4"
  | _ => None
  end.

(** Whether [cls.start], [cls.is_ready_to_start] and [cls.stop] resolve:
    [CamstimSyncShared] defines the three and every class but the abstract
    [Proxy] inherits from it. *)
Definition inherits_shared (c : Cls) : bool :=
  match c with
  | Proxy => false
  | _ => true
  end.

(** Whether [cls.finalize] resolves. *)
Definition has_finalize (c : Cls) : bool :=
  match c with
  | Sync | Camstim | ScriptCamstim | SessionCamstim | NoCamstim
  | ImageMVR | VideoMVR => true
  | _ => false
  end.

(** Modelled from the spec: the runtime-checkable protocols of
    [np_services/protocols.py], which is not among the sources.  By section
    4.1 [Startable] asks for [is_ready_to_start()] and [start()],
    [Stoppable] for [stop()] and [Finalizable] for [finalize()];
    [isinstance(cls, P)] holds when the class has the members of [P]. *)
Definition Startable (c : Cls) : bool := inherits_shared c.
Definition Stoppable (c : Cls) : bool := inherits_shared c.
Definition Finalizable (c : Cls) : bool := has_finalize c.

(** The MVR family answers [get_state] and [is_ready_to_start] from the
    camera status rather than from a zro proxy. *)
Definition is_mvr (c : Cls) : bool :=
  match c with
  | MVR | ImageMVR | VideoMVR => true
  | _ => false
  end.

(** [cls.__name__] *)
Definition class_name (c : Cls) : string :=
  match c with
  | Proxy => "Proxy"
  | CamstimSyncShared => "CamstimSyncShared"
  | Sync => "Sync"
  | Phidget => "Phidget"
  | Camstim => "Camstim"
  | ScriptCamstim => "ScriptCamstim"
  | SessionCamstim => "SessionCamstim"
  | NoCamstim => "NoCamstim"
  | MouseDirector => "MouseDirector"
  | Cam3d => "Cam3d"
  | MVR => "MVR"
  | ImageMVR => "ImageMVR"
  | VideoMVR => "VideoMVR"
  end.

(** The class whose [ensure_config] a class runs: [Sync] and [Camstim]
    define their own, the other classes inherit the one of [Proxy]. *)
Definition config_class (c : Cls) : Cls :=
  match c with
  | Sync => Sync
  | Camstim | ScriptCamstim | SessionCamstim | NoCamstim => Camstim
  | _ => Proxy
  end.

(** ** Operations on the reported state *)

(** [len(state)] *)
Definition state_len (s : State) : nat :=
  match s with
  | StateTuple _ _ => 2
  | StateMap items => List.length items
  end.

(** [msg in state]: an element of the tuple, a key of the mapping. *)
Definition state_has (msg : string) (s : State) : bool :=
  match s with
  | StateTuple coarse detail => String.eqb msg coarse || String.eqb msg detail
  | StateMap items => existsb (fun kv => String.eqb msg (fst kv)) items
  end.

(** [state.get("message", "")] *)
Fixpoint dict_get (key : string) (items : list (string * string))
  (default : string) : string :=
  match items with
  | [] => default
  | (k, v) :: rest => if String.eqb k key then v else dict_get key rest default
  end.

(** ** Sorting by a key: [sorted(xs, key=f)], stable *)

Fixpoint insert_by {A} (key : A -> Q) (x : A) (l : list A) : list A :=
  match l with
  | [] => [x]
  | y :: l' =>
      if Qle_bool (key x) (key y) then x :: y :: l'
      else y :: insert_by key x l'
  end.

Definition sorted_by {A} (key : A -> Q) (l : list A) : list A :=
  fold_right (insert_by key) [] l.

(** [max(xs, key=f)]: the first element with the largest key; [None]
    stands for the [ValueError] of an empty sequence. *)
Fixpoint max_by {A} (key : A -> Q) (l : list A) : option A :=
  match l with
  | [] => None
  | x :: l' =>
      match max_by key l' with
      | None => Some x
      | Some y => if Qle_bool (key y) (key x) then Some x else Some y
      end
  end.

(** ** The environment *)

(** What the process reads from outside, as functions of the time and of
    the commands delivered so far.  [ensure_config] is what a call of
    [cls.ensure_config()] does on this machine; the bodies the source
    gives it are embedded below as [cls_ensure_config], and a machine
    [runs_source_config] when the two agree, while the properties that do
    not depend on the body are stated for every machine. *)
Record Env : Type := mkEnv {
  proxy_state : Q -> list Cmd -> State;
  mvr_link : Q -> list Cmd -> MvrLink;
  mvr_inbox : Q -> list Cmd -> list Broadcast;
  listing : Q -> list Cmd -> list DirEntry;
  disk_free : Path -> ExcClass + Z;         (* shutil.disk_usage(path).free *)
  platform : string;                        (* sys.platform *)
  local_drive : Path -> Path;               (* the local form of a UNC path *)
  ensure_config : Cls -> M unit
}.

(** What [ensure_config] meets on the rig, besides the module's [CONFIG]:
    the host of each class, the path that [pathlib] makes of a host and a
    relative path, and the errors of the file system that the process can
    neither foresee nor avoid. *)
Record Site : Type := mkSite {
  cls_host : Cls -> string;                 (* cls.host *)
  (* pathlib.Path(f"//{host}/{relative_path}") *)
  unc_root : string -> string -> Path;
  (* the error root.exists() raises, when it raises *)
  exists_raises : Path -> option ExcClass;
  (* the error os.mkdir(path) raises on a path that is free and whose
     parent is a directory, when it raises *)
  mkdir_raises : Path -> option ExcClass;
  dir_size : Z                              (* st_size of a new directory *)
}.

(** ** utils.py *)

Section Services.

Variable env : Env.

(** [math.log10] on positive integers (a float in Python); only the
    length of a sleep depends on it. *)
Variable log10 : Z -> Q.

(** The directory entries as they are now: the directories this process
    made, and what the machine shows. *)
Definition snapshot (w : World) : list DirEntry :=
  made_dirs w ++ listing env (clock w) (sent w).

Definition entry_at (p : Path) (fs : list DirEntry) : option DirEntry :=
  find (fun e => PurePath.path_eqb (e_path e) p) fs.

(** [path.stat()] *)
Definition stat (p : Path) : M DirEntry :=
  fs <- gets snapshot ;;
  match entry_at p fs with
  | Some e => ret e
  | None => raise FileNotFoundError "No such file or directory"
  end.

(** [path.is_dir()] *)
Definition is_dir (p : Path) : M bool :=
  fs <- gets snapshot ;;
  ret match entry_at p fs with
      | Some e => e_is_dir e
      | None => false
      end.

(** [path.glob(pattern)] for a pattern of one component: the entries of
    the directory whose name matches, in directory order. *)
Definition glob_in (p : Path) (pattern : string) (fs : list DirEntry)
  : list Path :=
  map e_path
    (filter (fun e =>
               PurePath.path_eqb (PurePath.parent (e_path e)) p &&
               Str.fnmatch (PurePath.name (e_path e)) pattern) fs).

Definition path_glob (p : Path) (pattern : string) : M (list Path) :=
  fs <- gets snapshot ;; ret (glob_in p pattern fs).

(** [stop_on_error(obj, reraise)] around [body]. *)
Definition stop_on_error (stop : Cls -> M unit) (obj : Cls)
  (reraise_ : bool) (body : M unit) : M unit :=
  if negb (Stoppable obj) then raise TypeError "does not support stop()"
  else
    fun w =>
      match body w with
      | (Raise exc_, w1) =>
          if issubclass (exc_class exc_) Exception then
            let handler :=
              contextlib_suppress [Exception]
                (modify (with_exc (Some exc_)) ;;
                 logger INFO "interrupted by error:" ;;
                 stop obj) in
            match handler w1 with
            | (Return _, w2) =>
                if reraise_ then (Raise exc_, w2) else (Return tt, w2)
            | r => r
            end
          else (Raise exc_, w1)
      | r => r
      end.

(** [suppress] with its positional [exceptions], around [body]: the
    [finally] clause returns, which ends the generator whatever is in
    flight. *)
Definition suppress (exceptions : list ExcClass) (body : M unit) : M unit :=
  fun w =>
    match body w with
    | (Return _, w1) => (Return tt, w1)
    | (Raise exc_, w1) =>
        let caught :=
          match exceptions with
          | [] => [Exception]
          | _ :: _ => exceptions
          end in
        if isinstance_any exc_ caught then
          match
            contextlib_suppress [Exception]
              (logger ERROR
                 "Error suppressed: continuing despite raised exception") w1
          with
          | (Hang, w2) => (Hang, w2)
          | (_, w2) => (Return tt, w2)
          end
        else (Return tt, w1)
    | (Hang, w1) => (Hang, w1)
    end.

(** [unc_to_local(path)] *)
Definition unc_to_local (path : Path) : Path :=
  if negb (Str.contains "win" (platform env)) then path
  else local_drive env path.

(** [shutil.disk_usage(path).free] *)
Definition disk_usage_free (path : Path) : M Z :=
  modify (fun w => with_disk_usage_calls (disk_usage_calls w ++ [path]) w) ;;
  match disk_free env path with
  | inl c => raise c "disk_usage"
  | inr free => ret free
  end.

(** An int that meets a float in an arithmetic operation: the float
    nearest to it, or [OverflowError] beyond the range of the floats. *)
Definition float_of_int (n : Z) : M Q :=
  match to_double (inject_Z n) with
  | Finite q => ret q
  | Infinite _ => raise OverflowError "int too large to convert to float"
  end.

(** [free_gb(path)]; [pathlib.Path(None)] is a [TypeError]. *)
Definition free_gb (path : option Path) : M Float :=
  match path with
  | None => raise TypeError "expected str, bytes or os.PathLike object"
  | Some p =>
      let p := unc_to_local p in
      free <- disk_usage_free p ;;
      x <- float_of_int free ;;
      ret (float_round1 (float_div x 1000000000))
  end.

(** [not end] for [end: Optional[float]] *)
Definition falsy (x : option Q) : bool :=
  match x with
  | None => true
  | Some v => Qeq_bool v 0
  end.

(** [ctime = lambda x: x.stat().st_ctime] *)
Definition ctime (x : Path) : M Q := e <- stat x ;; ret (st_ctime e).

(** [sorted(files, key=key)] with the key computed once per element. *)
Definition sorted_key (key : Path -> M Q) (files : list Path)
  : M (list Path) :=
  keyed <- mapM (fun f => k <- key f ;; ret (f, k)) files ;;
  ret (map fst (sorted_by snd keyed)).

(** [get_files_created_between(path, glob, start, end)] with [start] and
    [end] already timestamps. *)
Definition get_files_created_between (path : Path) (glob : string)
  (start : Q) (end_ : option Q) : M (list Path) :=
  d <- is_dir path ;;
  let path := if d then path else PurePath.parent path in
  now <- time_time ;;
  let end_ := if falsy end_ then now
              else match end_ with Some v => v | None => now end in
  found <- path_glob path glob ;;
  files <- filterM
             (fun file =>
                c <- ctime file ;;
                ret (Qle_bool (inject_Z (py_int start)) c && Qle_bool c end_))
             found ;;
  sorted_key ctime files.

(** [math.log10(n)] for an integer [n] *)
Definition math_log10 (n : Z) : M Q :=
  if n <=? 0 then raise ValueError "math domain error" else ret (log10 n).

(** [is_file_growing(path)] *)
Definition is_file_growing (path : Path) : M bool :=
  st <- stat path ;;
  let size_0 := st_size st in
  (if String.eqb ".sync" (PurePath.suffix path)
   then (l <- math_log10 size_0 ;; time_sleep (2 * l)%Q)
   else (l <- math_log10 size_0 ;; time_sleep ((1 # 2) * l)%Q)) ;;
  st' <- stat path ;;
  if st_size st' =? size_0 then ret false else ret true.

(** ** proxies.py: state and readiness *)

(** [cls.get_proxy().read()] on MVR's socket: what arrived since the last
    read; reading empties the buffer. *)
Definition mvr_read : M (list Broadcast) :=
  fun w =>
    let arrived := mvr_inbox env (clock w) (sent w) in
    (Return (skipn (inbox_read w) arrived),
     with_inbox_read (List.length arrived) w).

(** Whether [cls.get_cameras()] keeps a camera: the auxiliary one for
    [ImageMVR], all the others for [VideoMVR]. *)
Definition get_cameras_keeps (c : Cls) (cam : Camera) : bool :=
  match c with
  | ImageMVR => aux_label cam
  | VideoMVR => negb (aux_label cam)
  | _ => true
  end.

(** [MVR.get_camera_status()]: empties the buffer, asks, and takes the
    last answer with a non-empty value. *)
Definition get_camera_status (c : Cls) : M (list Camera) :=
  mvr_read ;;
  link <- gets (fun w => mvr_link env (clock w) (sent w)) ;;
  mvr_read ;;
  match camera_status link with
  | Some (cam :: cams) => ret (filter (get_cameras_keeps c) (cam :: cams))
  | _ =>
      logger ERROR "Could not get camera status" ;;
      raise ConnectionError "Could not get camera status"
  end.

(** [MVR.is_connected()] *)
Definition MVR_is_connected (c : Cls) : M bool :=
  link <- gets (fun w => mvr_link env (clock w) (sent w)) ;;
  if negb (host_online link) then
    modify (with_exc (Some (mkExc ConnectionError "No response"))) ;;
    ret false
  else if negb (mvr_connected link) then
    modify (with_exc (Some (mkExc ConnectionError "MVR likely not running"))) ;;
    ret false
  else
    fun w =>
      match get_camera_status c w with
      | (Raise e, w') =>
          if issubclass (exc_class e) ConnectionError
          then (Return false, with_exc (Some e) w')
          else (Raise e, w')
      | (Return _, w') => (Return true, w')
      | (Hang, w') => (Hang, w')
      end.

(** [MVR.get_cameras_recording(status)] *)
Definition get_cameras_recording (c : Cls) (status : option (list Camera))
  : M (list Camera) :=
  match status with
  | Some (cam :: cams) => ret (filter is_recording (cam :: cams))
  | _ => cams <- get_camera_status c ;; ret (filter is_recording cams)
  end.

(** [MVR.get_state()] *)
Definition MVR_get_state (c : Cls) : M State :=
  connected <- MVR_is_connected c ;;
  if negb connected then ret (StateTuple "" "MVR_CLOSED")
  else
    status <- get_camera_status c ;;
    if existsb (fun cam => negb (is_open cam)) status
    then ret (StateTuple "" "CAMERA_CLOSED")
    else if existsb (fun cam => negb (is_streaming cam)) status
    then ret (StateTuple "" "CAMERA_NOT_STREAMING")
    else
      recording <- get_cameras_recording c (Some status) ;;
      match recording with
      | _ :: _ => ret (StateTuple "BUSY" "RECORDING")
      | [] => ret (StateTuple "READY" "")
      end.

(** [cls.get_state()] *)
Definition get_state (c : Cls) : M State :=
  if is_mvr c then MVR_get_state c
  else gets (fun w => proxy_state env (clock w) (sent w)).

(** [CamstimSyncShared.is_started()] *)
Definition CamstimSyncShared_is_started (c : Cls) : M bool :=
  state <- get_state c ;;
  if Nat.eqb (state_len state) 0 then ret false
  else
    match started_state c with
    | None => raise AttributeError "started_state"
    | Some msgs => ret (forallb (fun msg => state_has msg state) msgs)
    end.

(** [ImageMVR.is_started()] *)
Fixpoint first_snapshot_result (msgs : list Broadcast) : bool :=
  match msgs with
  | [] => false
  | snapshot_converted :: _ => true
  | snapshot_failed :: _ => false
  | other_message :: rest => first_snapshot_result rest
  end.

Definition ImageMVR_is_started : M bool :=
  msgs <- mvr_read ;; ret (first_snapshot_result msgs).

(** [VideoMVR.is_started()] *)
Definition VideoMVR_is_started : M bool :=
  state <- get_state VideoMVR ;;
  if negb (Nat.eqb (state_len state) 0) &&
     match started_state VideoMVR with
     | Some msgs => forallb (fun msg => state_has msg state) msgs
     | None => false
     end
  then ret true
  else ret false.

(** [cls.is_started()] *)
Definition is_started (c : Cls) : M bool :=
  match c with
  | Proxy => raise AttributeError "is_started"
  | ImageMVR => ImageMVR_is_started
  | VideoMVR => VideoMVR_is_started
  | _ => CamstimSyncShared_is_started c
  end.

(** [CamstimSyncShared.is_ready_to_start()] *)
Definition CamstimSyncShared_is_ready_to_start (c : Cls) : M bool :=
  started <- is_started c ;;
  if started then ret false
  else
    state <- get_state c ;;
    match state with
    | StateMap items => ret (String.eqb (dict_get "message" items "") "READY")
    | StateTuple _ _ => ret (state_has "READY" state)
    end.

(** [MVR.is_ready_to_start()] *)
Definition MVR_is_ready_to_start (c : Cls) : M bool :=
  started <- is_started c ;;
  if started then ret false
  else
    status <- get_camera_status c ;;
    ret (forallb
           (fun cam =>
              is_open cam && is_streaming cam && negb (is_recording cam))
           status).

(** [cls.is_ready_to_start()] *)
Definition is_ready_to_start (c : Cls) : M bool :=
  match c with
  | Proxy => raise AttributeError "is_ready_to_start"
  | MVR | ImageMVR | VideoMVR => MVR_is_ready_to_start c
  | _ => CamstimSyncShared_is_ready_to_start c
  end.

(** ** proxies.py: start and stop *)

(** [CamstimSyncShared.stop()], [ImageMVR.stop()], [VideoMVR.stop()] *)
Definition stop (c : Cls) : M unit :=
  match c with
  | Proxy => raise AttributeError "stop"
  | ImageMVR => ret tt
  | VideoMVR => send mvr_stop_record
  | _ => logger DEBUG "Stopping" ;; send proxy_stop
  end.

(** [CamstimSyncShared.start()] *)
Definition CamstimSyncShared_start (c : Cls) : M unit :=
  logger DEBUG "Starting" ;;
  started <- is_started c ;;
  if started then
    logger WARNING "already started - should be stopped manually"
  else
    ready <- is_ready_to_start c ;;
    if negb ready then
      get_state c ;;
      logger ERROR "not ready to start" ;;
      get_state c ;;
      raise AssertionError "not ready to start"
    else
      now <- time_time ;;
      modify (with_latest_start (Some now)) ;;
      send proxy_start.

(** [ScriptCamstim.start()] *)
Definition ScriptCamstim_start : M unit :=
  now <- time_time ;;
  modify (with_latest_start (Some now)) ;;
  send proxy_start_script.

(** [SessionCamstim.start()] *)
Definition SessionCamstim_start : M unit :=
  now <- time_time ;;
  modify (with_latest_start (Some now)) ;;
  send proxy_start_session.

(** [NoCamstim.start()] *)
Definition NoCamstim_start : M unit :=
  started <- is_started NoCamstim ;;
  if started then logger WARNING "already started"
  else
    logger DEBUG "Starting remote file" ;;
    now <- time_time ;;
    modify (with_latest_start (Some now)) ;;
    send ssh_call.

(** [ImageMVR.start()] *)
Definition ImageMVR_start : M unit :=
  ready <- is_ready_to_start ImageMVR ;;
  if negb ready then
    get_state ImageMVR ;;
    logger ERROR "not ready to start" ;;
    get_state ImageMVR ;;
    raise AssertionError "not ready to start"
  else
    now <- time_time ;;
    modify (with_latest_start (Some now)) ;;
    send mvr_take_snapshot.

(** [VideoMVR.start()] *)
Definition VideoMVR_start : M unit :=
  now <- time_time ;;
  modify (with_latest_start (Some now)) ;;
  send mvr_start_record.

(** [cls.start()] *)
Definition start (c : Cls) : M unit :=
  match c with
  | Proxy => raise AttributeError "start"
  | ScriptCamstim => ScriptCamstim_start
  | SessionCamstim => SessionCamstim_start
  | NoCamstim => NoCamstim_start
  | ImageMVR => ImageMVR_start
  | VideoMVR => VideoMVR_start
  | _ => CamstimSyncShared_start c
  end.

(** ** proxies.py: data discovery and the disk preflight *)

(** [max(files, key=lambda x: x.stat().st_mtime)] *)
Definition max_mtime (files : list Path) : M Path :=
  keyed <- mapM (fun f => e <- stat f ;; ret (f, st_mtime e)) files ;;
  match max_by snd keyed with
  | Some fk => ret (fst fk)
  | None => raise ValueError "max() arg is an empty sequence"
  end.

(** [Proxy.get_latest_data(glob, subfolders)]; the outer [None] is the
    value returned without a data root. *)
Definition get_latest_data (c : Cls) (glob : option string)
  (subfolders : string) : M (option (list Path)) :=
  ensure_config env c ;;
  root <- gets data_root ;;
  match root with
  | None => ret None
  | Some root =>
      let subfolders := if String.eqb subfolders "/" then "" else subfolders in
      let default :=
        match raw_suffix c with
        | Some sfx => "*" ++ sfx
        | None => "*"
        end in
      let glob :=
        match glob with
        | None | Some "" => default
        | Some g => g
        end in
      since <- gets latest_start ;;
      match since with
      | None =>
          files <- get_files_created_between
                     (PurePath.joinpath root subfolders) glob 0 None ;;
          newest <- max_mtime files ;;
          ret (Some [newest])
      | Some t =>
          files <- get_files_created_between
                     (PurePath.joinpath root subfolders) glob t None ;;
          ret (Some files)
      end
  end.

(** *** ensure_config

    The three bodies of [ensure_config] in the source ([Proxy], [Sync],
    [Camstim]) are the same text up to their last statement.  The classes
    are taken with the attributes [host], [port], [timeout],
    [serialization], [pretest_duration_sec], [gb_per_hr] and [min_rec_hr]
    present, so the assignments under [if not hasattr(...)] are passed
    over; of [CONFIG] only the key "data" is then read. *)

Variable site : Site.

(** [config = CONFIG.get(__class__.__name__, {})] followed by
    [config.update] with the entries of [CONFIG.get(cls.__name__, {})],
    for the key "data".
    An entry that [CONFIG] holds for the defining class is the very dict
    that is updated, so what one class wrote there the next one reads;
    without such an entry the dict is a fresh one. *)
Definition merged_config (defining calling : string) : M (option string) :=
  cfg <- gets CONFIG ;;
  let own := match cfg calling with
             | Some (Some v) => Some v
             | _ => None
             end in
  match cfg defining with
  | Some d =>
      match own with
      | Some v =>
          (if match d with
              | Some v0 => String.eqb v0 v
              | None => false
              end
           then ret tt
           else modify (with_CONFIG
                          (fun name => if String.eqb name defining
                                       then Some (Some v) else cfg name))) ;;
          ret (Some v)
      | None => ret d
      end
  | None => ret own
  end.

(** [not cls.data_root or cls.host not in cls.data_root.parts] *)
Definition data_root_unset (h : string) (root : option Path) : bool :=
  match root with
  | None => true
  | Some r => negb (existsb (String.eqb h) r)
  end.

(** [os.mkdir(p)] *)
Definition os_mkdir (p : Path) : M unit :=
  fs <- gets snapshot ;;
  match entry_at p fs with
  | Some _ => raise FileExistsError "File exists"
  | None =>
      match entry_at (PurePath.parent p) fs with
      | None => raise FileNotFoundError "No such file or directory"
      | Some d =>
          if negb (e_is_dir d) then raise NotADirectoryError "Not a directory"
          else
            match mkdir_raises site p with
            | Some cl => raise cl "mkdir"
            | None =>
                now <- time_time ;;
                modify (fun w =>
                          with_made_dirs
                            (made_dirs w
                             ++ [mkEntry p true now now (dir_size site)])
                            w)
            end
      end
  end.

(** What [Path.mkdir] does with an [OSError] of [os.mkdir] when
    [exist_ok] is true: it passes if the path is a directory. *)
Definition unless_is_dir (p : Path) (e : Exc) : M unit :=
  d <- is_dir p ;;
  if d then ret tt else fun w => (Raise e, w).

(** [p.mkdir(parents=False, exist_ok=True)] *)
Definition mkdir_exist_ok (p : Path) : M unit :=
  fun w =>
    match os_mkdir p w with
    | (Raise e, w1) =>
        if issubclass (exc_class e) FileNotFoundError then (Raise e, w1)
        else if issubclass (exc_class e) OSError then unless_is_dir p e w1
        else (Raise e, w1)
    | r => r
    end.

(** [p.mkdir(parents=True, exist_ok=True)]; the fuel bounds the climb to
    the parents, which ends at the path that is its own parent. *)
Fixpoint mkdir_parents (fuel : nat) (p : Path) : M unit :=
  fun w =>
    match os_mkdir p w with
    | (Raise e, w1) =>
        if issubclass (exc_class e) FileNotFoundError then
          if PurePath.path_eqb (PurePath.parent p) p then (Raise e, w1)
          else
            match fuel with
            | O => (Raise e, w1)
            | S n =>
                (mkdir_parents n (PurePath.parent p) ;; mkdir_exist_ok p) w1
            end
        else if issubclass (exc_class e) OSError then unless_is_dir p e w1
        else (Raise e, w1)
    | r => r
    end.

(** The body the three [ensure_config] share.  [defining] is the class
    that [__class__] names; [guarded] tells whether the last statement
    asks [cls.data_root is not None] before it calls [mkdir]. *)
Definition ensure_config_body (defining : Cls) (guarded : bool) (c : Cls)
  : M unit :=
  data <- merged_config (class_name defining) (class_name c) ;;
  root <- gets data_root ;;
  (if data_root_unset (cls_host site c) root then
     match data with
     | Some relative_path =>
         if String.eqb relative_path "" then ret tt
         else
           let root := unc_root site (cls_host site c) relative_path in
           match exists_raises site root with
           | Some cl =>
               if issubclass cl OSError then
                 modify (with_exc (Some (mkExc cl "exists"))) ;;
                 logger ERROR "Error accessing data path" ;;
                 raise FileNotFoundError "data path is not accessible"
               else raise cl "exists"
           | None => modify (with_data_root (Some root))
           end
     | None => ret tt
     end
   else ret tt) ;;
  root <- gets data_root ;;
  match root with
  | None =>
      if guarded then ret tt
      else raise AttributeError "'NoneType' object has no attribute 'mkdir'"
  | Some r => mkdir_parents (S (List.length r)) r
  end.

(** [Proxy.ensure_config()] *)
Definition Proxy_ensure_config (c : Cls) : M unit :=
  ensure_config_body Proxy false c.

(** [Sync.ensure_config()] *)
Definition Sync_ensure_config (c : Cls) : M unit :=
  ensure_config_body Sync false c.

(** [Camstim.ensure_config()] *)
Definition Camstim_ensure_config (c : Cls) : M unit :=
  ensure_config_body Camstim true c.

(** [cls.ensure_config()] as the source defines it. *)
Definition cls_ensure_config (c : Cls) : M unit :=
  match config_class c with
  | Sync => Sync_ensure_config c
  | Camstim => Camstim_ensure_config c
  | _ => Proxy_ensure_config c
  end.

(** [Proxy.get_required_disk_gb()].  The attributes [min_rec_hr] and
    [gb_per_hr] are floats (an int of the configuration counts as the
    float of its value). *)
Definition get_required_disk_gb (c : Cls) : M Float :=
  ensure_config env c ;;
  if negb (Startable c) then ret (Finite 0)
  else
    hours <- gets min_rec_hr ;;
    rate <- gets gb_per_hr ;;
    ret (float_round1 (float_mul hours rate)).

(** [Proxy.is_disk_space_ok()] *)
Definition is_disk_space_ok (c : Cls) : M bool :=
  required <- get_required_disk_gb c ;;
  if float_is_zero required then ret true
  else
    root <- gets data_root ;;
    fun w =>
      match free_gb root w with
      | (Raise e, w1) =>
          if issubclass (exc_class e) FileNotFoundError then
            (modify (with_exc (Some e)) ;;
             logger ERROR "data path not accessible" ;;
             ret false) w1
          else (Raise e, w1)
      | (Return free, w1) =>
          (logger DEBUG "free disk space" ;;
           ret (float_gt free required)) w1
      | (Hang, w1) => (Hang, w1)
      end.

(** ** proxies.py: finalize and verify *)

(** [if not cls.data_files: cls.data_files = []] *)
Definition reset_data_files : M unit :=
  modify (fun w =>
            match data_files w with
            | Some (_ :: _) => w
            | _ => with_data_files (Some []) w
            end).

(** [cls.data_files.extend(new)]: [None] has no [extend], and extending
    by [None] is a [TypeError]. *)
Definition data_files_extend (new : option (list Path)) : M unit :=
  old <- gets data_files ;;
  match old, new with
  | None, _ =>
      raise AttributeError "'NoneType' object has no attribute 'extend'"
  | Some _, None => raise TypeError "'NoneType' object is not iterable"
  | Some old, Some files =>
      modify (with_data_files (Some (old ++ files)%list))
  end.

(** [Sync.finalize()] with [pattern] "*.h5" and [Camstim.finalize()] with
    "*.pkl"; the two bodies differ in the pattern and the log level. *)
Definition shared_finalize (c : Cls) (lvl : Level) (pattern : string)
  (fuel : nat) : M unit :=
  logger lvl "Finalizing" ;;
  started <- is_started c ;;
  (if started then stop c else ret tt) ;;
  while fuel
    (ready <- is_ready_to_start c ;; ret (negb ready))
    (logger DEBUG "Waiting to finish processing" ;; time_sleep 1) ;;
  reset_data_files ;;
  new <- get_latest_data c (Some pattern) "" ;;
  data_files_extend new ;;
  logger lvl "processing finished".

Definition Sync_finalize (fuel : nat) : M unit :=
  shared_finalize Sync DEBUG "*.h5" fuel.

Definition Camstim_finalize (c : Cls) (fuel : nat) : M unit :=
  shared_finalize c INFO "*.pkl" fuel.

(** [timedout = lambda: time.time() > t0 + limit] *)
Definition timedout (t0 limit : Q) : M bool :=
  now <- time_time ;; ret (negb (Qle_bool now (t0 + limit))).

Definition truthy (files : option (list Path)) : bool :=
  match files with
  | Some (_ :: _) => true
  | _ => false
  end.

(** [ImageMVR.finalize()], for the class as declared: [label] is only
    annotated, so [hasattr(cls, "label")] is false and nothing is renamed. *)
Definition ImageMVR_finalize (fuel : nat) : M unit :=
  logger DEBUG "Finalizing" ;;
  t0 <- time_time ;;
  while fuel
    (started <- is_started ImageMVR ;;
     busy <-
       (if started then ret true
        else
          ready <- is_ready_to_start ImageMVR ;;
          if negb ready then ret true
          else
            any <- get_latest_data ImageMVR (Some "*") "" ;;
            if negb (truthy any) then ret true
            else
              bmp <- get_latest_data ImageMVR (Some ".bmp") "" ;;
              ret (truthy bmp)) ;;
     if busy then (late <- timedout t0 10 ;; ret (negb late))
     else ret false)
    (logger DEBUG "Waiting to finish processing" ;; time_sleep 1) ;;
  late <- timedout t0 10 ;;
  if late then logger WARNING "Timed out waiting to finish processing"
  else
    reset_data_files ;;
    new <- get_latest_data ImageMVR (Some "*") "" ;;
    data_files_extend new ;;
    logger DEBUG "processing finished".

(** [VideoMVR.finalize()]; [hasattr(cls, "data_files")] always holds
    ([Proxy] gives the attribute the value [None]). *)
Definition VideoMVR_finalize (fuel : nat) : M unit :=
  logger DEBUG "Finalizing" ;;
  started <- is_started VideoMVR ;;
  (if started then stop VideoMVR else ret tt) ;;
  t0 <- time_time ;;
  while fuel
    (ready <- is_ready_to_start VideoMVR ;;
     if negb ready then (late <- timedout t0 30 ;; ret (negb late))
     else ret false)
    (logger DEBUG "Waiting to finish processing" ;; time_sleep 1) ;;
  late <- timedout t0 30 ;;
  if late then logger WARNING "Timed out waiting to finish processing"
  else
    old <- gets data_files ;;
    match old with
    | None => raise AttributeError "'NoneType' object has no attribute 'extend'"
    | Some old =>
        mp4 <- get_latest_data VideoMVR (Some "*.mp4") "" ;;
        json <- get_latest_data VideoMVR (Some "*.json") "" ;;
        match mp4, json with
        | Some a, Some b =>
            modify (with_data_files (Some (old ++ a ++ b)%list)) ;;
            logger DEBUG "processing finished"
        | _, _ => raise TypeError "unsupported operand type(s) for +"
        end
    end.

(** [cls.finalize()] *)
Definition finalize (c : Cls) (fuel : nat) : M unit :=
  match c with
  | Sync => Sync_finalize fuel
  | Camstim | ScriptCamstim | SessionCamstim | NoCamstim =>
      Camstim_finalize c fuel
  | ImageMVR => ImageMVR_finalize fuel
  | VideoMVR => VideoMVR_finalize fuel
  | _ => raise AttributeError "finalize"
  end.

(** [CamstimSyncShared.verify()] *)
Definition CamstimSyncShared_verify (c : Cls) : M unit :=
  started <- is_started c ;;
  if negb started then
    get_state c ;;
    logger WARNING "Cannot verify if not started" ;;
    get_state c ;;
    raise AssertionError "not started"
  else ret tt.

(** [files[-1]] *)
Definition last_item (files : option (list Path)) : M Path :=
  match files with
  | None => raise TypeError "'NoneType' object is not subscriptable"
  | Some [] => raise IndexError "list index out of range"
  | Some (f :: fs) => ret (last fs f)
  end.

(** [Sync.verify()] *)
Definition Sync_verify : M unit :=
  CamstimSyncShared_verify Sync ;;
  root <- gets data_root ;;
  growing <-
    match root with
    | None => ret true
    | Some _ =>
        files <- get_latest_data Sync None "" ;;
        latest <- last_item files ;;
        is_file_growing latest
    end ;;
  if negb growing then
    files <- get_latest_data Sync None "" ;;
    last_item files ;;
    raise AssertionError "latest data file is not increasing in size"
  else logger DEBUG "latest data file is increasing in size".

(** [VideoMVR.verify()] *)
Definition VideoMVR_verify : M unit :=
  started <- is_started VideoMVR ;;
  if negb started then
    get_state VideoMVR ;;
    logger WARNING "Cannot verify if not started" ;;
    get_state VideoMVR ;;
    raise AssertionError "not started"
  else
    since <- gets latest_start ;;
    now <- time_time ;;
    pause <- gets pretest_duration_sec ;;
    match since with
    | None => raise AttributeError "latest_start"
    | Some t =>
        (if negb (Qle_bool (now - pause) t) then time_sleep pause
         else ret tt) ;;
        files <- get_latest_data VideoMVR None "" ;;
        match files with
        | Some (f :: fs) =>
            recording <- get_cameras_recording VideoMVR None ;;
            if Nat.ltb (List.length (f :: fs)) (List.length recording) then
              raise AssertionError "files do not match the number of cameras"
            else logger DEBUG "verified: cameras recording to disk"
        | _ => raise AssertionError "files do not match the number of cameras"
        end
    end.

(** [cls.verify()] *)
Definition verify (c : Cls) : M unit :=
  match c with
  | Proxy => raise AttributeError "verify"
  | Sync => Sync_verify
  | NoCamstim => logger WARNING "No verification implemented"
  | ImageMVR => ret tt
  | VideoMVR => VideoMVR_verify
  | _ => CamstimSyncShared_verify c
  end.

(** The guarded block of [CamstimSyncShared.pretest()]:
    [with utils.stop_on_error(cls): start; sleep(1); verify; sleep(...)]. *)
Definition pretest_recording (c : Cls) : M unit :=
  stop_on_error stop c true
    (start c ;;
     time_sleep 1 ;;
     verify c ;;
     pause <- gets pretest_duration_sec ;;
     time_sleep pause).

(** The run of [ScriptCamstim.pretest()], between its [test()] and its
    second [initialize()]: [start; while not ready: sleep(10); finalize]. *)
Definition ScriptCamstim_pretest_run (fuel : nat) : M unit :=
  start ScriptCamstim ;;
  while fuel
    (ready <- is_ready_to_start ScriptCamstim ;; ret (negb ready))
    (logger DEBUG "Waiting to finish processing" ;; time_sleep 10) ;;
  finalize ScriptCamstim fuel.

End Services.

(** ** proxies.py: test() and the validation of Sync *)

(** What a zro class learns about its link: whether the host answers the
    ping of [utils.is_online], and the error [proxy.uptime] raises, if it
    raises one. *)
Record ZroLink : Type := mkZroLink {
  zro_online : bool;
  zro_uptime : option ExcClass
}.

Section Checks.

Variable env : Env.
Variable zro_link : Q -> list Cmd -> ZroLink.

(** Whether [import h5py] succeeds. *)
Variable h5py_installed : bool.

(** [cls.get_config()["line_labels"]]: the configuration the sync device
    reports, evaluated by [Sync.get_config]; it lies outside the core. *)
Variable line_labels : M unit.

(** [Proxy.is_connected()] *)
Definition Proxy_is_connected (c : Cls) : M bool :=
  link <- gets (fun w => zro_link (clock w) (sent w)) ;;
  if negb (zro_online link) then
    modify (with_exc (Some (mkExc ConnectionError "No response"))) ;;
    ret false
  else
    match zro_uptime link with
    | Some cl =>
        if issubclass cl ZroError then
          modify (with_exc (Some (mkExc cl "uptime"))) ;;
          logger ERROR "proxy connection failed" ;;
          ret false
        else raise cl "uptime"
    | None =>
        fun w =>
          match get_state env c w with
          | (Raise e, w') =>
              if issubclass (exc_class e) ZroError then
                (modify (with_exc (Some e)) ;;
                 logger ERROR "proxy connection failed" ;;
                 ret false) w'
              else (Raise e, w')
          | (Return _, w') => (Return true, w')
          | (Hang, w') => (Hang, w')
          end
    end.

(** [cls.is_connected()] *)
Definition is_connected (c : Cls) : M bool :=
  match c with
  | MVR | ImageMVR | VideoMVR => MVR_is_connected env c
  | _ => Proxy_is_connected c
  end.

(** [Proxy.test()], as every class but [NoCamstim] runs it. *)
Definition Proxy_test (c : Cls) : M unit :=
  logger DEBUG "Testing proxy" ;;
  connected <- is_connected c ;;
  if negb connected then raise TestError "not connected"
  else
    logger DEBUG "proxy connection confirmed" ;;
    get_required_disk_gb env c ;;
    ok <- is_disk_space_ok env c ;;
    if negb ok then raise TestError "free disk space doesn't meet minimum"
    else logger DEBUG "tested successfully".

(** [ScriptCamstim.pretest()] from its [cls.test()] to its
    [cls.finalize()]: [test; start; while not ready: sleep(10); finalize].
    What comes before (the stage parameters read from MTrain and the first
    [initialize()]) and the second [initialize()] after it are left out. *)
Definition ScriptCamstim_pretest (fuel : nat) : M unit :=
  Proxy_test ScriptCamstim ;;
  ScriptCamstim_pretest_run env fuel.

(** [Sync.min_validation(data)]; [data] is [None] when [validate] found no
    file to give it. *)
Definition Sync_min_validation (data : option Path) : M unit :=
  match data with
  | None => raise AttributeError "'NoneType' object has no attribute 'stat'"
  | Some p =>
      st <- stat env p ;;
      if st_size st =? 0 then raise AssertionError "Empty file"
      else if negb (String.eqb (PurePath.suffix p) ".h5") then
        raise FileNotFoundError
          "Expected .sync to be converted to .h5 after recording stopped"
      else logger DEBUG "minimal validation passed"
  end.

(** [Sync.full_validation(data)]: reads the line labels and does nothing
    with them or with [data]. *)
Definition Sync_full_validation (data : option Path) : M unit :=
  line_labels ;; ret tt.

(** [Sync.validate(data)].  The first step yields [None] where the method
    returns early, and the data to validate otherwise. *)
Definition Sync_validate (fuel : nat) (data : option Path) : M unit :=
  logger DEBUG "Validating data" ;;
  chosen <-
    match data with
    | Some p => ret (Some (Some p))
    | None =>
        files <- get_latest_data env Sync (Some "*.h5") "" ;;
        match files with
        | Some (f :: fs) =>
            logger DEBUG "No data file provided: validating most-recent data" ;;
            started <- is_started env Sync ;;
            if started then
              logger WARNING
                "Attempted to validate current data file while recording" ;;
              ret None
            else
              ready <- is_ready_to_start env Sync ;;
              (if negb ready then finalize env Sync fuel else ret tt) ;;
              ret (Some (Some (last fs f)))
        | _ => ret (Some None)
        end
    end ;;
  match chosen with
  | None => ret tt
  | Some data =>
      if h5py_installed then Sync_full_validation data
      else
        logger WARNING "h5py not installed: cannot open Sync data" ;;
        Sync_min_validation data
  end.

End Checks.

(** ** proxies.py: the recorders

    [JsonRecorder] and its subclasses keep a log file of their own and talk
    to no device.  They are taken after [initialize()]: [cls.initialization]
    and [cls.all_files] exist, and [ensure_config()] finds nothing to
    change. *)

(** A value that [json.loads] returns and [json.dumps] takes: [None],
    a bool, an int, a float (with the constant NaN on its own), a str, a
    list, or a dict with keys that are strings, in the order of
    insertion. *)
#[warnings="-register-all"]
Inductive Json : Type :=
| JNull
| JBool (b : bool)
| JInt (n : Z)
| JFloat (x : Float)
| JNaN
| JString (s : string)
| JArray (items : list Json)
| JObject (items : list (string * Json)).

(** [bool(x)] *)
Definition json_truthy (j : Json) : bool :=
  match j with
  | JNull => false
  | JBool b => b
  | JInt n => negb (n =? 0)
  | JFloat x => negb (float_is_zero x)
  | JNaN => true
  | JString s => negb (String.eqb s "")
  | JArray items => match items with [] => false | _ :: _ => true end
  | JObject items => match items with [] => false | _ :: _ => true end
  end.

(** [type(x).__name__] *)
Definition type_name (j : Json) : string :=
  match j with
  | JNull => "NoneType"
  | JBool _ => "bool"
  | JInt _ => "int"
  | JFloat _ | JNaN => "float"
  | JString _ => "str"
  | JArray _ => "list"
  | JObject _ => "dict"
  end.

(** [d[k] = v] on a dict, which keeps the order of insertion. *)
Fixpoint dict_set {V} (k : string) (v : V) (d : list (string * V))
  : list (string * V) :=
  match d with
  | [] => [(k, v)]
  | (k', v') :: d' =>
      if String.eqb k' k then (k', v) :: d' else (k', v') :: dict_set k v d'
  end.

(** [d.get(k)] *)
Fixpoint dict_lookup {V} (k : string) (d : list (string * V)) : option V :=
  match d with
  | [] => None
  | (k', v) :: d' => if String.eqb k' k then Some v else dict_lookup k d'
  end.

(** [k in d] *)
Definition dict_has {V} (k : string) (d : list (string * V)) : bool :=
  match dict_lookup k d with
  | Some _ => true
  | None => false
  end.

(** [d.update(value)] *)
Definition dict_update {V} (d value : list (string * V))
  : list (string * V) :=
  fold_left (fun acc kv => dict_set (fst kv) (snd kv) acc) value d.

(** What a file holds, as [json.loads] sees its bytes: no byte at all; a
    JSON document, taken as the value [json.loads] returns for it (which
    is the value a [json.dumps] that wrote the file was given); text that
    is no JSON document (and not empty); or bytes that are no text in the
    encoding [json.loads] detects. *)
Inductive Content : Type :=
| Blank
| Document (j : Json)
| NotJson
| NotText.

(** What the recorders raise. *)
Inductive Failure : Type :=
| JSONDecodeError
| UnicodeDecodeError
| KeyError (key : string)
| Builtin (e : Exc).

(** The files of a recorder and its class attributes.  A locked path
    cannot be created, truncated, written or touched by this process. *)
Record Shelf : Type := mkShelf {
  disk : list (Path * Content);
  locked : list Path;
  data_csv : option (list (list string));   (* the records of data_name *)
  all_files : list Path;
  cls_exc : option Exc;
  journal : list (Level * string)            (* oldest first *)
}.

Definition R (A : Type) : Type := Shelf -> (A + Failure) * Shelf.

Module JsonRecorder.

Definition pure {A} (a : A) : R A := fun s => (inl a, s).

Definition fail {A} (e : Failure) : R A := fun s => (inr e, s).

Definition throw {A} (c : ExcClass) (msg : string) : R A :=
  fail (Builtin (mkExc c msg)).

Definition andthen {A B} (m : R A) (k : A -> R B) : R B :=
  fun s =>
    match m s with
    | (inl a, s') => k a s'
    | (inr e, s') => (inr e, s')
    end.

Declare Scope rec_scope.
Delimit Scope rec_scope with rec.
Notation "x <- m ;; k" := (andthen m (fun x => k))
  (at level 100, m at next level, right associativity) : rec_scope.
Notation "m ;; k" := (andthen m (fun _ => k))
  (at level 100, right associativity) : rec_scope.
Local Open Scope rec_scope.

Definition with_disk (d : list (Path * Content)) (s : Shelf) : Shelf :=
  mkShelf d (locked s) (data_csv s) (all_files s) (cls_exc s) (journal s).

Definition with_all_files (l : list Path) (s : Shelf) : Shelf :=
  mkShelf (disk s) (locked s) (data_csv s) l (cls_exc s) (journal s).

Definition with_cls_exc (e : option Exc) (s : Shelf) : Shelf :=
  mkShelf (disk s) (locked s) (data_csv s) (all_files s) e (journal s).

Definition with_journal (l : list (Level * string)) (s : Shelf) : Shelf :=
  mkShelf (disk s) (locked s) (data_csv s) (all_files s) (cls_exc s) l.

(** [logger.<level>(msg)] *)
Definition logger (lvl : Level) (msg : string) : R unit :=
  fun s => (inl tt, with_journal (journal s ++ [(lvl, msg)]) s).

Fixpoint content_at (p : Path) (d : list (Path * Content)) : option Content :=
  match d with
  | [] => None
  | (q, c) :: d' => if PurePath.path_eqb q p then Some c else content_at p d'
  end.

Fixpoint put (p : Path) (c : Content) (d : list (Path * Content))
  : list (Path * Content) :=
  match d with
  | [] => [(p, c)]
  | (q, c') :: d' =>
      if PurePath.path_eqb q p then (q, c) :: d' else (q, c') :: put p c d'
  end.

Definition is_locked (p : Path) (s : Shelf) : bool :=
  existsb (PurePath.path_eqb p) (locked s).

(** [path.read_bytes()] *)
Definition read_bytes (p : Path) : R Content :=
  fun s =>
    match content_at p (disk s) with
    | Some c => (inl c, s)
    | None =>
        (inr (Builtin (mkExc FileNotFoundError "No such file or directory")),
         s)
    end.

(** [path.stat().st_size], as a truth value. *)
Definition st_size_nonzero (p : Path) : R bool :=
  c <- read_bytes p ;;
  pure match c with
       | Blank => false
       | _ => true
       end.

(** [path.open("w")]: the file is created or truncated. *)
Definition open_w (p : Path) : R unit :=
  fun s =>
    if is_locked p s then
      (inr (Builtin (mkExc PermissionError "Permission denied")), s)
    else (inl tt, with_disk (put p Blank (disk s)) s).

(** [path.touch()] *)
Definition touch (p : Path) : R unit :=
  fun s =>
    if is_locked p s then
      (inr (Builtin (mkExc PermissionError "Permission denied")), s)
    else
      match content_at p (disk s) with
      | Some _ => (inl tt, s)
      | None => (inl tt, with_disk (put p Blank (disk s)) s)
      end.

(** [path.write_text(json.dumps(data, ...))] *)
Definition write_text (p : Path) (data : Json) : R unit :=
  fun s =>
    if is_locked p s then
      (inr (Builtin (mkExc PermissionError "Permission denied")), s)
    else (inl tt, with_disk (put p (Document data) (disk s)) s).

(** [json.loads(bytes)]: bytes that cannot be decoded to text raise
    [UnicodeDecodeError], which is no [JSONDecodeError]. *)
Definition json_loads (c : Content) : R Json :=
  match c with
  | Document j => pure j
  | Blank | NotJson => fail JSONDecodeError
  | NotText => fail UnicodeDecodeError
  end.

(** [data.update(value)]: only a dict has the method. *)
Definition data_update (data : Json) (value : list (string * Json))
  : R Json :=
  match data with
  | JObject d => pure (JObject (dict_update d value))
  | _ =>
      throw AttributeError
        ("'" ++ type_name data ++ "' object has no attribute 'update'")
  end.

(** [PurePath.stem] *)
Definition stem (p : Path) : string :=
  match Str.rsplit_dot (Str.chars (PurePath.name p)) with
  | Some ((_ :: _) as st, _ :: _) => string_of_list_ascii st
  | _ => PurePath.name p
  end.

(** [path.with_suffix(suffix)] for a suffix that is valid (a dot and no
    separator). *)
Definition with_suffix (p : Path) (suffix : string) : R Path :=
  if String.eqb (PurePath.name p) "" then throw ValueError "has an empty name"
  else pure (PurePath.parent p ++ [(stem p ++ suffix)%string])%list.

(** [cls.get_current_log()] *)
Definition get_current_log : R Path :=
  fun s =>
    match all_files s with
    | [] => (inr (Builtin (mkExc IndexError "list index out of range")), s)
    | p :: l => (inl (last l p), s)
    end.

(** [JsonRecorder.test()] *)
Definition test : R unit :=
  logger DEBUG "JsonRecorder testing" ;;
  fun s =>
    match (p <- get_current_log ;; open_w p) s with
    | (inr (Builtin e), s1) =>
        if issubclass (exc_class e) OSError then
          (inr (Builtin (mkExc TestError "JsonRecorder failed to open log")),
           s1)
        else (inr (Builtin e), s1)
    | r => r
    end.

(** [JsonRecorder.read()] *)
Definition read : R Json :=
  fun s =>
    match (p <- get_current_log ;; c <- read_bytes p ;; json_loads c) s with
    | (inr JSONDecodeError, s1) =>
        (p <- get_current_log ;;
         size <- st_size_nonzero p ;;
         if size then fail JSONDecodeError else pure (JObject [])) s1
    | (inr e, s1) => (inr e, s1)
    | (inl data, s1) => (logger DEBUG "read from log" ;; pure data) s1
    end.

(** [JsonRecorder.write(value)] *)
Definition write (value : list (string * Json)) : R unit :=
  fun s =>
    let finish (data : Json) (file : Path) : R unit :=
      data <- data_update data value ;;
      write_text file data ;;
      logger DEBUG "wrote to log" in
    match read s with
    | (inr JSONDecodeError, s1) =>
        (p <- get_current_log ;;
         file <- with_suffix p ".new.json" ;;
         touch file ;;
         (fun s2 => (inl tt, with_all_files (all_files s2 ++ [file])%list s2)) ;;
         finish (JObject []) file) s1
    | (inr e, s1) => (inr e, s1)
    | (inl data, s1) => (file <- get_current_log ;; finish data file) s1
    end.

(** [JsonRecorder.validate()] *)
Definition validate : R unit :=
  log <- read ;;
  (if negb (json_truthy log) then
     _ <- get_current_log ;;
     (fun s =>
        (inl tt,
         with_cls_exc
           (Some (mkExc TestError "failed to validate because log is empty"))
           s)) ;;
     logger ERROR "failed to validate: log is empty"
   else pure tt) ;;
  logger DEBUG "JsonRecorder validated".

End JsonRecorder.

Module PlatformJson.

(** [s.endswith(suffix)] *)
Definition endswith (s suffix : string) : bool :=
  Str.prefix_of (rev (Str.chars suffix)) (rev (Str.chars s)).

(** [s.replace(old, new)] for an [old] that is not empty: its occurrences
    are replaced from the left, without overlap.  [skip] counts the
    characters of the occurrence just replaced that are still to drop. *)
Fixpoint replace_chars (old new : list ascii) (skip : nat) (s : list ascii)
  : list ascii :=
  match s with
  | [] => []
  | c :: s' =>
      match skip with
      | S k => replace_chars old new k s'
      | O =>
          if Str.prefix_of old s then
            (new ++ replace_chars old new (List.length old - 1)%nat s')%list
          else c :: replace_chars old new 0 s'
      end
  end.

Definition replace (s old new : string) : string :=
  string_of_list_ascii
    (replace_chars (Str.chars old) (Str.chars new) 0 (Str.chars s)).

Definition suffix : string := "_platformD1.json".

(** The validator [PlatformJson.log_name_suffix(v)].  [v.replace(...)]
    builds a new string, which the method does not keep. *)
Definition log_name_suffix (v : string) : string :=
  let v := if negb (endswith v suffix) then v ++ suffix else v in
  let _ := replace v ".json.json" ".json" in
  v.

End PlatformJson.

Module NewScaleCoordinateRecorder.

Import JsonRecorder.
Local Open Scope rec_scope.

Definition data_fieldnames : list string :=
  ["last_moved"; "manipulator"; "x"; "y"; "z";
   "x_virtual"; "y_virtual"; "z_virtual"].

(** A value of a row of [csv.DictReader]: a field of the record, [None]
    for a field name the record is too short for, or the list of the
    fields beyond the last field name. *)
Inductive Cell : Type :=
| Text (s : string)
| Absent
| Rest (l : list string).

(** A row of [csv.DictReader]; the key [None] holds the fields beyond the
    last field name. *)
Definition Row : Type := list (option string * Cell).

Fixpoint DictReader_row (names fields : list string) : Row :=
  match names with
  | [] =>
      match fields with
      | [] => []
      | _ :: _ => [(None, Rest fields)]
      end
  | n :: names' =>
      match fields with
      | [] => (Some n, Absent) :: DictReader_row names' []
      | f :: fields' => (Some n, Text f) :: DictReader_row names' fields'
      end
  end.

(** [list(csv.DictReader(file, fieldnames))] on the records of the file:
    an empty record gives no row. *)
Definition DictReader (names : list string) (records : list (list string))
  : list Row :=
  map (DictReader_row names)
    (filter (fun r => match r with [] => false | _ :: _ => true end) records).

(** [row.pop(key)] *)
Fixpoint pop (key : string) (row : Row) : option (Cell * Row) :=
  match row with
  | [] => None
  | (k, v) :: row' =>
      if match k with
         | Some k => String.eqb k key
         | None => false
         end
      then Some (v, row')
      else match pop key row' with
           | Some (c, rest) => Some (c, (k, v) :: rest)
           | None => None
           end
  end.

Section Coordinates.

(** [str.strip] *)
Variable strip : string -> string.

(** [float(s)] on a string; [None] is its [ValueError]. *)
Variable Float : Type.
Variable float : string -> option Float.

(** The class attributes [label] and [num_probes]. *)
Variable label : string.
Variable num_probes : nat.

Inductive Value : Type :=
| VText (s : string)
| VNum (x : Float).

(** What [coords] maps a key to: the coordinates of a manipulator, or the
    label. *)
Inductive Entry : Type :=
| Coords (d : list (string * Value))
| Label (s : string).

(** [for k, v in row.items(): ...], filling [coords[m]]. *)
Fixpoint fill (items : Row) (acc : list (string * Value))
  : list (string * Value) + Failure :=
  match items with
  | [] => inl acc
  | (k, v) :: rest =>
      match k with
      | None =>
          inr (Builtin
                 (mkExc TypeError
                    "argument of type 'NoneType' is not iterable"))
      | Some k =>
          if Str.contains "virtual" k then fill rest acc
          else
            match v with
            | Text s =>
                let s := strip s in
                let v := match float s with
                         | Some x => VNum x
                         | None => VText s
                         end in
                fill rest (dict_set k v acc)
            | Absent =>
                inr (Builtin
                       (mkExc AttributeError
                          "'NoneType' object has no attribute 'strip'"))
            | Rest _ =>
                inr (Builtin
                       (mkExc AttributeError
                          "'list' object has no attribute 'strip'"))
            end
      end
  end.

(** [for row in reversed(rows): ...], on the rows already reversed. *)
Fixpoint scan (rows : list Row) (coords : list (string * Entry))
  : list (string * Entry) + Failure :=
  match rows with
  | [] => inl coords
  | row :: rest =>
      if Nat.eqb (List.length coords) num_probes then inl coords
      else
        match pop (nth 1 data_fieldnames "") row with
        | None => inr (KeyError (nth 1 data_fieldnames ""))
        | Some (Text s, items) =>
            let m := strip s in
            if dict_has m coords then scan rest coords
            else
              match fill items [] with
              | inl cs => scan rest (dict_set m (Coords cs) coords)
              | inr e => inr e
              end
        | Some (Absent, _) =>
            inr (Builtin
                   (mkExc AttributeError
                      "'NoneType' object has no attribute 'strip'"))
        | Some (Rest _, _) =>
            inr (Builtin
                   (mkExc AttributeError
                      "'list' object has no attribute 'strip'"))
        end
  end.

(** [NewScaleCoordinateRecorder.get_coordinates()] *)
Definition get_coordinates : R (list (string * Entry)) :=
  records <-
    (fun s =>
       match data_csv s with
       | Some records => (inl records, s)
       | None =>
           (inr (Builtin
                   (mkExc FileNotFoundError "No such file or directory")),
            s)
       end) ;;
  let rows := DictReader data_fieldnames records in
  match scan (rev rows) [] with
  | inr e => fail e
  | inl coords =>
      let coords := dict_set "label" (Label label) coords in
      logger DEBUG "retrieved coordinates" ;;
      pure coords
  end.

End Coordinates.

Arguments VText {Float} s.
Arguments VNum {Float} x.
Arguments Coords {Float} d.
Arguments Label {Float} s.

End NewScaleCoordinateRecorder.

(** ** Concrete classes, devices and directories *)

(** The class attributes as the class bodies and the defaults of
    [ensure_config] leave them: [latest_start = 0], [data_files = None],
    [exc = None], 2.0 GB per hour, 3.0 hours, a pretest of 5 seconds. *)
Definition class_defaults (now : Q) (root : option Path) : World :=
  mkWorld now [] [] 0 [] 2 3 5 root None None (Some 0%Q) (fun _ => None) [].

Definition with_profile (rate hours : Q) (w : World) : World :=
  mkWorld (clock w) (sent w) (log w) (inbox_read w) (disk_usage_calls w)
    rate hours (pretest_duration_sec w) (data_root w)
    (data_files w) (exc w) (latest_start w) (CONFIG w) (made_dirs w).

Definition no_cameras : MvrLink := mkMvrLink false false None.

(** A machine whose data disk reports [free] bytes for every path, or the
    error [err] where [free] is [inl err]. *)
Definition disk_env (free : ExcClass + Z) : Env :=
  mkEnv (fun _ _ => StateTuple "READY" "") (fun _ _ => no_cameras)
    (fun _ _ => []) (fun _ _ => []) (fun _ => free) "linux" (fun p => p)
    (fun _ => ret tt).

(** The creation time [x.stat().st_ctime] reads in a listing. *)
Definition ctime_at (fs : list DirEntry) (p : Path) : Q :=
  match entry_at p fs with
  | Some e => st_ctime e
  | None => 0%Q
  end.

(** A data directory that holds [old.h5], created at 1000.25, and
    [new.h5], created at 1001, whatever the time and the commands. *)
Definition two_files : list DirEntry :=
  [ mkEntry ["srv"; "sync"] true 10 10 0;
    mkEntry ["srv"; "sync"; "new.h5"] false 1001 1001 4096;
    mkEntry ["srv"; "sync"; "old.h5"] false
      (100025 # 100) (100025 # 100) 4096 ].

Definition two_files_env : Env :=
  mkEnv (fun _ _ => StateTuple "READY" "") (fun _ _ => no_cameras)
    (fun _ _ => []) (fun _ _ => two_files) (fun _ => inr 0)
    "linux" (fun p => p) (fun _ => ret tt).

(** A machine with a zro device whose reported state is [st] and whose
    directories are [fs], both as functions of the time and the commands. *)
Definition device_env (st : Q -> list Cmd -> State)
  (fs : Q -> list Cmd -> list DirEntry) : Env :=
  mkEnv st (fun _ _ => no_cameras) (fun _ _ => []) fs (fun _ => inr 0)
    "linux" (fun p => p) (fun _ => ret tt).

(** A machine whose MVR reports [link]. *)
Definition mvr_env (link : Q -> list Cmd -> MvrLink) : Env :=
  mkEnv (fun _ _ => StateTuple "" "") link (fun _ _ => []) (fun _ _ => [])
    (fun _ => inr 0) "linux" (fun p => p) (fun _ => ret tt).

(** A stand-in for [math.log10]: the binary logarithm, rounded down, times
    [log10 2]. *)
Definition log10_by_log2 (n : Z) : Q :=
  (inject_Z (Z.log2 n) * (30103 # 100000))%Q.

(** A sync box that behaves: ready until [start] arrives, recording until
    [stop] arrives, and appending to [rec.sync] every second. *)
Definition sync_box_state (t : Q) (cmds : list Cmd) : State :=
  match last cmds proxy_stop with
  | proxy_start => StateTuple "BUSY" "RECORDING"
  | _ => StateTuple "READY" ""
  end.

Definition sync_box_files (t : Q) (cmds : list Cmd) : list DirEntry :=
  [ mkEntry ["srv"; "sync"] true 10 10 0;
    mkEntry ["srv"; "sync"; "rec.sync"] false 1000 t (1000 + Qfloor t) ].

Definition sync_box : Env := device_env sync_box_state sync_box_files.

(** A sync box that records but whose [rec.sync] stays empty. *)
Definition empty_recording : Env :=
  device_env (fun _ _ => StateTuple "BUSY" "RECORDING")
    (fun _ _ =>
       [ mkEntry ["srv"; "sync"] true 10 10 0;
         mkEntry ["srv"; "sync"; "rec.sync"] false 1000 1000 0 ]).

(** An MVR whose one video camera is open, streaming and recording. *)
Definition recording_camera : Camera := mkCamera false true true true.

Definition recording_mvr : Env :=
  mvr_env (fun _ _ => mkMvrLink true true (Some [recording_camera])).

(** [VideoMVR] ten seconds after a [start()] at 1000. *)
Definition video_started : World :=
  with_sent [mvr_start_record]
    (with_latest_start (Some 1000%Q) (class_defaults 1010 None)).

(** A camstim agent that is busy with something other than a script. *)
Definition busy_agent : Env :=
  device_env (fun _ _ => StateTuple "BUSY" "Initializing") (fun _ _ => []).

(** A sync box that stays in ("BUSY", "RECORDING") whatever it is sent. *)
Definition stuck_recording : Env :=
  device_env (fun _ _ => StateTuple "BUSY" "RECORDING") (fun _ _ => []).

(** A camstim agent that runs a script until 1025 and is ready again
    afterwards. *)
Definition scripted_agent : Env :=
  device_env
    (fun t cmds =>
       match last cmds proxy_stop with
       | proxy_start_script =>
           if Qle_bool 1025 t then StateTuple "READY" ""
           else StateTuple "BUSY" "Script in progress."
       | _ => StateTuple "READY" ""
       end)
    (fun _ _ => []).

(** The same agent, with the data root [//srv/stim] on its disk. *)
Definition scripted_agent_with_root : Env :=
  device_env (proxy_state scripted_agent)
    (fun _ _ => [ mkEntry ["srv"; "stim"] true 0 0 0 ]).

(** ** Vocabulary of the statements *)

(** Ascending order of the keys. *)
Definition key_le {A} (key : A -> Q) (a b : A) : Prop :=
  (key a <= key b)%Q.

(** Where [get_files_created_between] looks: [path] itself when it is a
    directory, its parent otherwise. *)
Definition searched (path : Path) (fs : list DirEntry) : Path :=
  match entry_at path fs with
  | Some e => if e_is_dir e then path else PurePath.parent path
  | None => PurePath.parent path
  end.

(** The end of the window: the current time when [end] is absent or 0. *)
Definition window_end (end_ : option Q) (now : Q) : Q :=
  match end_ with
  | Some v => if Qeq_bool v 0 then now else v
  | None => now
  end.

Definition in_window (start hi c : Q) : bool :=
  Qle_bool (inject_Z (py_int start)) c && Qle_bool c hi.

(** The classes that run [CamstimSyncShared.start] against a zro proxy. *)
Definition shared_start (c : Cls) : bool :=
  match c with
  | CamstimSyncShared | Sync | Phidget | Camstim | MouseDirector | Cam3d =>
      true
  | _ => false
  end.

Definition starting (w : World) : World :=
  with_log (log w ++ [(DEBUG, "Starting")]) w.

(** The classes whose state is the one a zro proxy reports and whose
    [is_started] is the inherited one. *)
Definition zro_class (c : Cls) : bool :=
  match c with
  | Proxy | MVR | ImageMVR | VideoMVR => false
  | _ => true
  end.

(** [len(state) and all(msg in state for msg in msgs)] *)
Definition shows_started (msgs : list string) (st : State) : bool :=
  negb (Nat.eqb (state_len st) 0) &&
  forallb (fun msg => state_has msg st) msgs.

(** What [CamstimSyncShared.is_ready_to_start] reads in the state once the
    device is known not to be started. *)
Definition shows_ready (st : State) : bool :=
  match st with
  | StateMap items => String.eqb (dict_get "message" items "") "READY"
  | StateTuple _ _ => state_has "READY" st
  end.

(** A computation that always ends (with a value or an exception) and
    leaves the clock where it was. *)
Definition steady {A} (m : M A) : Prop :=
  forall w : World, fst (m w) <> Hang /\ clock (snd (m w)) = clock w.

Definition halts {A} (m : M A) : Prop := forall w : World, fst (m w) <> Hang.

(** A loop condition that ends, leaves the clock alone, and is not true
    once the clock has passed [deadline]. *)
Definition gives_up_after (deadline : Q) (cond : M bool) : Prop :=
  forall w : World,
    fst (cond w) <> Hang /\
    clock (snd (cond w)) = clock w /\
    ((deadline < clock w)%Q -> fst (cond w) <> Return true).

(** The device stays busy: whatever the time and the commands, the
    coarse state is "BUSY" and the detail is not "READY". *)
Definition never_leaves_busy (env : Env) : Prop :=
  forall (t : Q) (cmds : list Cmd),
  exists detail : string,
    proxy_state env t cmds = StateTuple "BUSY" detail /\
    String.eqb "READY" detail = false.

(** The classes that run the body shared by [Sync.finalize] and
    [Camstim.finalize]. *)
Definition waits_without_deadline (c : Cls) : bool :=
  match c with
  | Sync | Camstim | ScriptCamstim | SessionCamstim | NoCamstim => true
  | _ => false
  end.

(** What a status probe must leave alone: the commands sent, the class
    attributes of the session and the record of disk queries.  (The log,
    the read position of MVR's socket and [cls.exc] are not in it.) *)
Definition kept (w w' : World) : Prop :=
  sent w' = sent w /\
  latest_start w' = latest_start w /\
  data_files w' = data_files w /\
  data_root w' = data_root w /\
  gb_per_hr w' = gb_per_hr w /\
  min_rec_hr w' = min_rec_hr w /\
  pretest_duration_sec w' = pretest_duration_sec w /\
  disk_usage_calls w' = disk_usage_calls w.

Definition readonly {A} (m : M A) : Prop :=
  forall w : World, kept w (snd (m w)).

(** A computation that ends and moves the clock forward by [d] seconds at
    the most. *)
Definition within {A} (d : Q) (m : M A) : Prop :=
  forall w : World,
    fst (m w) <> Hang /\
    (clock w <= clock (snd (m w)))%Q /\
    (clock (snd (m w)) <= clock w + d)%Q.

(** What [cls.stop()] sends. *)
Definition stop_commands (c : Cls) : list Cmd :=
  match c with
  | Proxy | ImageMVR => []
  | VideoMVR => [mvr_stop_record]
  | _ => [proxy_stop]
  end.

(** A glob pattern that [pathlib] takes for one plain name: it holds
    none of the characters "*", "?" and "[" that make a component a
    wildcard, and neither "/" nor the backslash that would split it into
    several components. *)
Definition literal (pattern : string) : Prop :=
  forall ch : ascii,
    In ch (Str.chars pattern) ->
    existsb (Ascii.eqb ch) ["*"; "?"; "["; "/"; "\"]%char = false.

(** A disk that refuses access: [disk_usage] raises [PermissionError]. *)
Definition locked_disk : Env := disk_env (inl PermissionError).

(** A phidget server that reports it is ready. *)
Definition ready_device : Env :=
  device_env (fun _ _ => StateTuple "READY" "") (fun _ _ => []).

(** The machine runs the [ensure_config] that the source gives each
    class, on the rig [site]. *)
Definition runs_source_config (site : Site) (env : Env) : Prop :=
  forall (c : Cls) (w : World),
    ensure_config env c w = cls_ensure_config env site c w.

(** The machine [base] with the [ensure_config] of the source. *)
Definition on_site (site : Site) (base : Env) : Env :=
  mkEnv (proxy_state base) (mvr_link base) (mvr_inbox base) (listing base)
    (disk_free base) (platform base) (local_drive base)
    (cls_ensure_config base site).

(** [CONFIG.get(cls.__name__, {}).get("data")] *)
Definition configured_data (c : Cls) (w : World) : option string :=
  match CONFIG w (class_name c) with
  | Some d => d
  | None => None
  end.

(** [CONFIG] holds no entry for the class, nor for the class whose
    [ensure_config] it runs. *)
Definition no_config (c : Cls) (w : World) : Prop :=
  CONFIG w (class_name c) = None /\
  CONFIG w (class_name (config_class c)) = None.

(** The data root of the class is in place: [cls.data_root] is set, it
    names the host, and it is a directory on the disk; the class defines
    its own [ensure_config], or [CONFIG] has no entry of its own for it. *)
Definition settled (site : Site) (env : Env) (c : Cls) (w : World) : Prop :=
  exists (root : Path) (e : DirEntry),
    data_root w = Some root /\
    existsb (String.eqb (cls_host site c)) root = true /\
    entry_at root (snapshot env w) = Some e /\
    e_is_dir e = true /\
    (config_class c = c \/ CONFIG w (class_name c) = None).

(** [w1] shows [ensure_config] what [w] shows it: the time, the commands
    sent, the directories made, [CONFIG] and the data root. *)
Definition same_site (w w1 : World) : Prop :=
  clock w1 = clock w /\ sent w1 = sent w /\ made_dirs w1 = made_dirs w /\
  CONFIG w1 = CONFIG w /\ data_root w1 = data_root w.

(** A rig on which every class runs on the host [h], and the file system
    raises nothing of its own. *)
Definition plain_site (h : string) : Site :=
  mkSite (fun _ => h)
    (fun host rel => "//" :: host :: PurePath.split_slash [] (Str.chars rel))
    (fun _ => None) (fun _ => None) 4096.

(** A rig on which the network share does not answer: [exists()] raises
    [PermissionError] on every path. *)
Definition shut_site (h : string) : Site :=
  mkSite (fun _ => h)
    (fun host rel => "//" :: host :: PurePath.split_slash [] (Str.chars rel))
    (fun _ => Some PermissionError) (fun _ => None) 4096.

(** Whether the [ensure_config] a class runs asks
    [cls.data_root is not None] before it calls [mkdir]: the one of
    [Camstim] does. *)
Definition mkdir_guarded (c : Cls) : bool :=
  match config_class c with
  | Camstim => true
  | _ => false
  end.

(** The windowed search of [get_files_created_between] from [t] to now. *)
Definition window_files (env : Env) (dir : Path) (pattern : string) (t : Q)
  (w : World) : list Path :=
  sorted_by (ctime_at (snapshot env w))
    (filter
       (fun f => in_window t (clock w) (ctime_at (snapshot env w) f))
       (glob_in (searched dir (snapshot env w)) pattern (snapshot env w))).

(** The pattern [Sync.finalize] and [Camstim.finalize] collect. *)
Definition finalize_pattern (c : Cls) : string :=
  match c with
  | Sync => "*.h5"
  | _ => "*.pkl"
  end.

(** [cls.data_files] read as a list. *)
Definition files_so_far (w : World) : list Path :=
  match data_files w with
  | Some l => l
  | None => []
  end.

(** A ready sync box with the two files of [two_files] in its data root. *)
Definition ready_with_files : Env :=
  device_env (fun _ _ => StateTuple "READY" "") (fun _ _ => two_files).

(** A snapshot directory with [snap.bmp] and a file named [.bmp]. *)
Definition bmp_files : Env :=
  device_env (fun _ _ => StateTuple "READY" "")
    (fun _ _ =>
       [ mkEntry ["srv"; "mvr"] true 10 10 0;
         mkEntry ["srv"; "mvr"; "snap.bmp"] false 1000 1000 4096;
         mkEntry ["srv"; "mvr"; ".bmp"] false 1001 1001 4096 ]).



(** A zro link over which nothing answers the ping. *)
Definition offline : Q -> list Cmd -> ZroLink :=
  fun _ _ => mkZroLink false None.

(** A zro link that answers. *)
Definition online : Q -> list Cmd -> ZroLink :=
  fun _ _ => mkZroLink true None.

(** A data root with an empty [rec.h5] and a [rec.sync] that was not
    converted. *)
Definition unconverted : Env :=
  device_env (fun _ _ => StateTuple "READY" "")
    (fun _ _ =>
       [ mkEntry ["srv"; "sync"] true 10 10 0;
         mkEntry ["srv"; "sync"; "rec.h5"] false 1000 1000 0;
         mkEntry ["srv"; "sync"; "rec.sync"] false 1000 1000 4096 ]).

(** A ready sync box whose data root is an empty directory. *)
Definition empty_sync_dir : Env :=
  device_env (fun _ _ => StateTuple "READY" "")
    (fun _ _ => [ mkEntry ["srv"; "sync"] true 10 10 0 ]).

(** A sync box that records, with one [.h5] file of an earlier run. *)
Definition recording_with_h5 : Env :=
  device_env (fun _ _ => StateTuple "BUSY" "RECORDING")
    (fun _ _ =>
       [ mkEntry ["srv"; "sync"] true 10 10 0;
         mkEntry ["srv"; "sync"; "rec.h5"] false 1000 1000 0 ]).


(** A [strip] for blanks, and a [float] for runs of digits. *)
Fixpoint lstrip_chars (s : list ascii) : list ascii :=
  match s with
  | c :: s' => if Ascii.eqb c " " then lstrip_chars s' else s
  | [] => []
  end.

Definition strip_blanks (s : string) : string :=
  string_of_list_ascii
    (rev (lstrip_chars (rev (lstrip_chars (Str.chars s))))).

Fixpoint digits_value (acc : Z) (s : list ascii) : option Z :=
  match s with
  | [] => Some acc
  | c :: s' =>
      let n := Z.of_nat (nat_of_ascii c) - 48 in
      if (0 <=? n) && (n <=? 9) then digits_value (10 * acc + n) s'
      else None
  end.

Definition float_of_digits (s : string) : option Z :=
  match Str.chars s with
  | [] => None
  | cs => digits_value 0 cs
  end.


(** A shelf whose csv file ends in a record cut short after the [x]
    field. *)
Definition cut_short : Shelf :=
  mkShelf [] []
    (Some [ ["t1"; "A"; "1"; "2"; "3"; "4"; "5"; "6"];
            ["t2"; "B"; "7"] ])
    [] None [].

(** * Properties *)

Local Open Scope list_scope.

(** ** The library functions on small inputs *)

Example suffix_examples :
  PurePath.suffix ["data"; "rec.01.sync"] = ".sync"%string /\
  PurePath.suffix ["data"; ".bmp"] = ""%string /\
  PurePath.suffix ["data"; "rec"] = ""%string.
Proof. repeat split. Qed.

Example fnmatch_examples :
  Str.fnmatch "a.h5" "*.h5" = true /\
  Str.fnmatch "a.h5x" "*.h5" = false /\
  Str.fnmatch "a.bmp" ".bmp" = false /\
  Str.fnmatch "a.bmp" "*" = true.
Proof. repeat split. Qed.

Example joinpath_examples :
  PurePath.joinpath ["srv"; "data"] "" = ["srv"; "data"]%string /\
  PurePath.joinpath ["srv"; "data"] "a/b" = ["srv"; "data"; "a"; "b"]%string /\
  PurePath.joinpath ["srv"; "data"] "/" = ["/"]%string.
Proof. repeat split. Qed.

Example py_int_examples :
  py_int (2001 # 2) = 1000%Z /\ py_int (-3 # 2) = (-1)%Z /\ py_int 7 = 7%Z.
Proof. repeat split. Qed.

Example nearest_tenth_examples :
  nearest_tenth (25 # 100) = 2 # 10 /\ nearest_tenth (35 # 100) = 4 # 10 /\
  nearest_tenth (599 # 100) = 60 # 10 /\ nearest_tenth (-(14 # 100)) = -1 # 10.
Proof. repeat split. Qed.

Example issubclass_examples :
  issubclass FileNotFoundError Exception = true /\
  issubclass PermissionError FileNotFoundError = false /\
  issubclass KeyboardInterrupt Exception = false.
Proof. repeat split. Qed.

(** ** Sequencing *)

Lemma bind_Return {A B} (m : M A) (k : A -> M B) (w w' : World) (a : A) :
  m w = (Return a, w') -> bind m k w = k a w'.
Proof. intro H. unfold bind. now rewrite H. Qed.

Lemma bind_Raise {A B} (m : M A) (k : A -> M B) (w w' : World) (e : Exc) :
  m w = (Raise e, w') -> bind m k w = (Raise e, w').
Proof. intro H. unfold bind. now rewrite H. Qed.

Lemma bind_Hang {A B} (m : M A) (k : A -> M B) (w w' : World) :
  m w = (Hang, w') -> bind m k w = (Hang, w').
Proof. intro H. unfold bind. now rewrite H. Qed.

(** ** Rounding *)

Section Rounding.

Local Open Scope Q_scope.

Lemma round_half_even_cases (x : Q) :
  let n := Qfloor x in
  (x - inject_Z n < 1 # 2 /\ round_half_even x = n) \/
  (1 # 2 < x - inject_Z n /\ round_half_even x = (n + 1)%Z) \/
  (x - inject_Z n == 1 # 2 /\
   (round_half_even x = n \/ round_half_even x = (n + 1)%Z) /\
   Z.even (round_half_even x) = true).
Proof.
  intro n. unfold round_half_even. fold n.
  destruct (x - inject_Z n ?= 1 # 2) eqn:E.
  - right; right. apply Qeq_alt in E. split; [exact E|].
    destruct (Z.even n) eqn:En.
    + split; [now left | exact En].
    + split; [now right|].
      rewrite Z.even_add, En. reflexivity.
  - left. apply Qlt_alt in E. now split.
  - right; left. apply Qgt_alt in E. now split.
Qed.

Lemma floor_bounds (x : Q) :
  inject_Z (Qfloor x) <= x /\ x < inject_Z (Qfloor x) + 1.
Proof.
  split; [apply Qfloor_le|].
  pose proof (Qlt_floor x) as H.
  rewrite inject_Z_plus in H. exact H.
Qed.


Lemma round_half_even_mono (x y : Q) :
  x <= y -> (round_half_even x <= round_half_even y)%Z.
Proof.
  intro Hxy.
  pose proof (Qfloor_resp_le x y Hxy) as Hfl.
  destruct (floor_bounds x) as [Hxlo Hxhi].
  destruct (floor_bounds y) as [Hylo Hyhi].
  assert (Hup : (round_half_even x <= Qfloor x + 1)%Z).
  { destruct (round_half_even_cases x) as [[_ E]|[[_ E]|[_ [[E|E] _]]]]; lia. }
  assert (Hdn : (Qfloor y <= round_half_even y)%Z).
  { destruct (round_half_even_cases y) as [[_ E]|[[_ E]|[_ [[E|E] _]]]]; lia. }
  destruct (Z.eq_dec (Qfloor x) (Qfloor y)) as [Heq|Hne]; [|lia].
  destruct (round_half_even_cases x) as [[Hx Ex]|[[Hx Ex]|[Hx [Ex Evx]]]];
    destruct (round_half_even_cases y) as [[Hy Ey]|[[Hy Ey]|[Hy [Ey Evy]]]];
    rewrite <- ?Heq in *; try lia; try (exfalso; lra).
  (* both on the tie: same fractional part and same parity choice *)
  destruct Ex as [Ex|Ex], Ey as [Ey|Ey]; try lia.
  rewrite Ex, Z.even_add in Evx. rewrite Ey in Evy.
  rewrite Evy in Evx. discriminate.
Qed.


Lemma nearest_tenth_mono (x y : Q) : x <= y -> nearest_tenth x <= nearest_tenth y.
Proof.
  intro H. unfold nearest_tenth, Qle; simpl.
  apply Z.mul_le_mono_nonneg_r; [lia|].
  apply round_half_even_mono. lra.
Qed.

Lemma nearest_tenth_zero (x : Q) : x == 0 -> nearest_tenth x == 0.
Proof.
  intro H. unfold nearest_tenth.
  assert (E : round_half_even (10 * x) = 0%Z).
  { pose proof (round_half_even_mono (10 * x) 0) as H1.
    pose proof (round_half_even_mono 0 (10 * x)) as H2.
    change (round_half_even 0) with 0%Z in H1, H2.
    assert (10 * x <= 0) by lra. assert (0 <= 10 * x) by lra.
    specialize (H1 H0). specialize (H2 H3). lia. }
  rewrite E. reflexivity.
Qed.

End Rounding.

(** ** Floats *)

Section Floats.

Local Open Scope Q_scope.




Lemma pow2_succ (k : Z) : 2 ^ (k + 1) == 2 * 2 ^ k.
Proof.
  rewrite Qpower_plus by discriminate. rewrite Qpower_1_r. ring.
Qed.




Lemma round_half_even_Qeq (x y : Q) :
  x == y -> round_half_even x = round_half_even y.
Proof.
  intro H. apply Z.le_antisymm; apply round_half_even_mono; lra.
Qed.

Lemma floor_log2_Qeq (x y : Q) : x == y -> floor_log2 x = floor_log2 y.
Proof.
  intro H. unfold floor_log2.
  assert (E : Qle_bool 1 x = Qle_bool 1 y).
  { destruct (Qle_bool 1 x) eqn:Ex, (Qle_bool 1 y) eqn:Ey; try reflexivity.
    - apply Qle_bool_iff in Ex. rewrite H in Ex. apply Qle_bool_iff in Ex.
      congruence.
    - apply Qle_bool_iff in Ey. rewrite <- H in Ey. apply Qle_bool_iff in Ey.
      congruence. }
  rewrite E. destruct (Qle_bool 1 y).
  - now rewrite H.
  - now rewrite H.
Qed.

Lemma nearest_double_Qeq (x y : Q) :
  x == y -> nearest_double x == nearest_double y.
Proof.
  intro H. unfold nearest_double, ulp_exponent.
  rewrite (floor_log2_Qeq x y H).
  rewrite (round_half_even_Qeq (x / _) (y / 2 ^ Z.max (floor_log2 y - 52) (-1074)))
    by (now rewrite H).
  reflexivity.
Qed.



Lemma to_double_Qeq (x y : Q) : x == y -> to_double x = to_double y.
Proof.
  intro H. unfold to_double.
  assert (E : (x ?= 0) = (y ?= 0)) by (now rewrite H).
  rewrite E. destruct (y ?= 0); [reflexivity| |].
  - assert (N : nearest_double (- x) == nearest_double (- y))
      by (apply nearest_double_Qeq; now rewrite H).
    assert (B : Qle_bool (2 ^ 1024) (nearest_double (- x))
                = Qle_bool (2 ^ 1024) (nearest_double (- y))).
    { destruct (Qle_bool _ (nearest_double (- x))) eqn:Ex,
               (Qle_bool _ (nearest_double (- y))) eqn:Ey; try reflexivity.
      - apply Qle_bool_iff in Ex. rewrite N in Ex. apply Qle_bool_iff in Ex.
        congruence.
      - apply Qle_bool_iff in Ey. rewrite <- N in Ey. apply Qle_bool_iff in Ey.
        congruence. }
    rewrite B. destruct (Qle_bool _ (nearest_double (- y))); [reflexivity|].
    f_equal. apply Qred_complete. now rewrite N.
  - assert (N : nearest_double x == nearest_double y)
      by (now apply nearest_double_Qeq).
    assert (B : Qle_bool (2 ^ 1024) (nearest_double x)
                = Qle_bool (2 ^ 1024) (nearest_double y)).
    { destruct (Qle_bool _ (nearest_double x)) eqn:Ex,
               (Qle_bool _ (nearest_double y)) eqn:Ey; try reflexivity.
      - apply Qle_bool_iff in Ex. rewrite N in Ex. apply Qle_bool_iff in Ex.
        congruence.
      - apply Qle_bool_iff in Ey. rewrite <- N in Ey. apply Qle_bool_iff in Ey.
        congruence. }
    rewrite B. destruct (Qle_bool _ (nearest_double y)); [reflexivity|].
    f_equal. now apply Qred_complete.
Qed.





End Floats.

(** ** ensure_config as the source defines it *)

Section SourceConfig.

Variable site : Site.
Variable env : Env.

Lemma on_site_runs_source_config :
  runs_source_config site (on_site site env).
Proof. intros c w. reflexivity. Qed.

Lemma cls_ensure_config_body (c : Cls) :
  cls_ensure_config env site c
  = ensure_config_body env site (config_class c) (mkdir_guarded c) c.
Proof. destruct c; reflexivity. Qed.

Lemma merged_config_no_config (c : Cls) (w : World) :
  no_config c w ->
  merged_config (class_name (config_class c)) (class_name c) w
  = (Return None, w).
Proof.
  intros [Hown Hdef]. unfold merged_config, bind, gets.
  rewrite Hown, Hdef. reflexivity.
Qed.

Lemma merged_config_own (c : Cls) (w : World) :
  config_class c = c ->
  merged_config (class_name (config_class c)) (class_name c) w
  = (Return (configured_data c w), w).
Proof.
  intro Hc. rewrite Hc. unfold merged_config, configured_data, bind, gets.
  destruct (CONFIG w (class_name c)) as [[v|]|]; try reflexivity.
  rewrite String.eqb_refl. reflexivity.
Qed.

Lemma merged_config_at_rest (c : Cls) (w : World) :
  config_class c = c \/ CONFIG w (class_name c) = None ->
  exists data,
    merged_config (class_name (config_class c)) (class_name c) w
    = (Return data, w).
Proof.
  intros [Hc|Hnone].
  - eexists. now apply merged_config_own.
  - unfold merged_config, bind, gets. rewrite Hnone.
    destruct (CONFIG w (class_name (config_class c)));
      eexists; reflexivity.
Qed.

(** A data root that is in place is left as it is. *)
Lemma cls_ensure_config_settled (c : Cls) (w : World) :
  settled site env c w -> cls_ensure_config env site c w = (Return tt, w).
Proof.
  intros (root & e & Hroot & Hhost & Hentry & Hdir & Hrest).
  destruct (merged_config_at_rest c w Hrest) as [data Hdata].
  rewrite cls_ensure_config_body. unfold ensure_config_body.
  rewrite (bind_Return _ _ _ _ _ Hdata).
  unfold bind at 1, gets at 1. rewrite Hroot.
  unfold data_root_unset. rewrite Hhost. cbn [negb].
  unfold bind at 1, ret at 1. unfold bind at 1, gets at 1. rewrite Hroot.
  cbn [mkdir_parents]. unfold os_mkdir, bind at 1, gets at 1.
  rewrite Hentry. cbn.
  unfold unless_is_dir, is_dir, bind, gets, ret. rewrite Hentry, Hdir.
  reflexivity.
Qed.

(** Without a data root and without an entry in [CONFIG], the last
    statement of [ensure_config] meets [None]. *)
Lemma cls_ensure_config_no_root (c : Cls) (w : World) :
  data_root w = None ->
  no_config c w ->
  cls_ensure_config env site c w
  = if mkdir_guarded c then (Return tt, w)
    else (Raise (mkExc AttributeError
                   "'NoneType' object has no attribute 'mkdir'"), w).
Proof.
  intros Hroot Hcfg.
  rewrite cls_ensure_config_body. unfold ensure_config_body.
  rewrite (bind_Return _ _ _ _ _ (merged_config_no_config c w Hcfg)).
  unfold bind at 1, gets at 1. rewrite Hroot. cbn [data_root_unset].
  unfold bind at 1, ret at 1. unfold bind at 1, gets at 1. rewrite Hroot.
  destruct (mkdir_guarded c); reflexivity.
Qed.

(** A configured data path on which [exists()] raises an [OSError]. *)
Lemma cls_ensure_config_inaccessible (c : Cls) (w : World) (rel : string)
  (cl : ExcClass) :
  config_class c = c ->
  data_root w = None ->
  configured_data c w = Some rel ->
  rel <> ""%string ->
  exists_raises site (unc_root site (cls_host site c) rel) = Some cl ->
  issubclass cl OSError = true ->
  cls_ensure_config env site c w
  = (Raise (mkExc FileNotFoundError "data path is not accessible"),
     with_log (log w ++ [(ERROR, "Error accessing data path")])
       (with_exc (Some (mkExc cl "exists")) w)).
Proof.
  intros Hc Hroot Hdata Hrel Hex Hos.
  rewrite cls_ensure_config_body. unfold ensure_config_body.
  rewrite (bind_Return _ _ _ _ _ (merged_config_own c w Hc)), Hdata.
  unfold bind at 1, gets at 1. rewrite Hroot. cbn [data_root_unset].
  destruct (String.eqb rel "") eqn:E;
    [apply String.eqb_eq in E; contradiction|].
  rewrite Hex, Hos. reflexivity.
Qed.

(** A data root that is missing from an existing directory is made. *)
Lemma cls_ensure_config_makes_root (c : Cls) (w : World) (root : Path)
  (d : DirEntry) :
  data_root w = Some root ->
  existsb (String.eqb (cls_host site c)) root = true ->
  config_class c = c \/ CONFIG w (class_name c) = None ->
  entry_at root (snapshot env w) = None ->
  entry_at (PurePath.parent root) (snapshot env w) = Some d ->
  e_is_dir d = true ->
  mkdir_raises site root = None ->
  cls_ensure_config env site c w
  = (Return tt,
     with_made_dirs
       (made_dirs w ++ [mkEntry root true (clock w) (clock w) (dir_size site)])
       w).
Proof.
  intros Hroot Hhost Hrest Hfree Hparent Hdir Hmk.
  destruct (merged_config_at_rest c w Hrest) as [data Hdata].
  rewrite cls_ensure_config_body. unfold ensure_config_body.
  rewrite (bind_Return _ _ _ _ _ Hdata).
  unfold bind at 1, gets at 1. rewrite Hroot.
  unfold data_root_unset. rewrite Hhost. cbn [negb].
  unfold bind at 1, ret at 1. unfold bind at 1, gets at 1. rewrite Hroot.
  cbn [mkdir_parents]. unfold os_mkdir, bind at 1, gets at 1.
  rewrite Hfree, Hparent, Hdir, Hmk. reflexivity.
Qed.

End SourceConfig.

(** ** The disk preflight *)

Section DiskPreflight.

Variable env : Env.

Local Open Scope Q_scope.

Lemma nearest_tenth_Qeq (x y : Q) : x == y -> nearest_tenth x == nearest_tenth y.
Proof.
  intro H. apply Qle_antisym; apply nearest_tenth_mono; lra.
Qed.



Lemma get_required_disk_gb_eq (c : Cls) (w w1 : World) :
  ensure_config env c w = (Return tt, w1) ->
  get_required_disk_gb env c w
  = (Return (if Startable c
             then float_round1 (float_mul (min_rec_hr w1) (gb_per_hr w1))
             else Finite 0),
     w1).
Proof.
  intro H. unfold get_required_disk_gb.
  rewrite (bind_Return _ _ _ _ _ H).
  destruct (Startable c); reflexivity.
Qed.

Lemma get_required_disk_gb_zero_rate (c : Cls) (w w1 : World) :
  ensure_config env c w = (Return tt, w1) ->
  gb_per_hr w1 == 0 ->
  get_required_disk_gb env c w = (Return (Finite 0), w1).
Proof.
  intros Hcfg Hz. rewrite (get_required_disk_gb_eq c w w1 Hcfg).
  destruct (Startable c); [|reflexivity].
  unfold float_mul.
  rewrite (to_double_Qeq (min_rec_hr w1 * gb_per_hr w1) 0)
    by (rewrite Hz; ring).
  reflexivity.
Qed.


Lemma is_disk_space_ok_unfold (c : Cls) (w w1 : World) (r : Float)
  (root : Path) :
  get_required_disk_gb env c w = (Return r, w1) ->
  float_is_zero r = false ->
  data_root w1 = Some root ->
  let w2 :=
    with_disk_usage_calls
      (disk_usage_calls w1 ++ [unc_to_local env root]) w1 in
  is_disk_space_ok env c w =
  match disk_free env (unc_to_local env root) with
  | inl cl =>
      if issubclass cl FileNotFoundError then
        (Return false,
         with_log (log w1 ++ [(ERROR, "data path not accessible")])
           (with_exc (Some (mkExc cl "disk_usage")) w2))
      else (Raise (mkExc cl "disk_usage"), w2)
  | inr free =>
      match to_double (inject_Z free) with
      | Finite x =>
          (Return (float_gt (float_round1 (float_div x 1000000000)) r),
           with_log (log w1 ++ [(DEBUG, "free disk space")]) w2)
      | Infinite _ =>
          (Raise (mkExc OverflowError "int too large to convert to float"),
           w2)
      end
  end.
Proof.
  intros Hr Hnz Hroot w2.
  unfold is_disk_space_ok. rewrite (bind_Return _ _ _ _ _ Hr), Hnz.
  unfold bind at 1, gets at 1. rewrite Hroot.
  unfold free_gb, disk_usage_free, float_of_int, bind, modify. fold w2.
  destruct (disk_free env (unc_to_local env root)) as [cl|free]; simpl.
  - destruct (issubclass cl FileNotFoundError); reflexivity.
  - destruct (to_double (inject_Z free)); reflexivity.
Qed.

(** Where [get_required_disk_gb()] has returned: when the required space
    is 0.0, [is_disk_space_ok()] returns [True] in the world it left, with
    no [disk_usage] call.  When [disk_usage] on the data root raises
    [FileNotFoundError] it returns [False], with the error stored in
    [cls.exc] and nothing raised.  With 6.0 GB required it returns
    [free > required]: [False] at 5.9 GB free and [True] at 6.1 GB
    free. *)
Lemma is_disk_space_ok_after_config (c : Cls) (w w1 : World) (r : Float) :
  get_required_disk_gb env c w = (Return r, w1) ->
  (float_is_zero r = true ->
   is_disk_space_ok env c w = (Return true, w1)) /\
  (forall root : Path,
      float_is_zero r = false ->
      data_root w1 = Some root ->
      disk_free env (unc_to_local env root) = inl FileNotFoundError ->
      exists w2,
        is_disk_space_ok env c w = (Return false, w2) /\
        exc w2 = Some (mkExc FileNotFoundError "disk_usage") /\
        sent w2 = sent w1) /\
  (forall root : Path,
      r = Finite 6 ->
      data_root w1 = Some root ->
      (disk_free env (unc_to_local env root) = inr 5900000000%Z ->
       exists w2, is_disk_space_ok env c w = (Return false, w2)) /\
      (disk_free env (unc_to_local env root) = inr 6100000000%Z ->
       exists w2, is_disk_space_ok env c w = (Return true, w2))).
Proof.
  intro Hr. split; [|split].
  - intro Hz. unfold is_disk_space_ok. rewrite (bind_Return _ _ _ _ _ Hr).
    rewrite Hz. reflexivity.
  - intros root Hb Hroot Hdisk.
    rewrite (is_disk_space_ok_unfold c w w1 r root Hr Hb Hroot), Hdisk.
    simpl. eexists. split; [reflexivity|]. split; reflexivity.
  - intros root H6 Hroot. subst r.
    rewrite (is_disk_space_ok_unfold c w w1 _ root Hr eq_refl Hroot).
    split; intro Hdisk; rewrite Hdisk.
    + assert (E : to_double (inject_Z 5900000000) = Finite 5900000000)
        by (vm_compute; reflexivity).
      rewrite E. eexists.
      apply (f_equal2 pair);
        [apply f_equal; vm_compute; reflexivity | reflexivity].
    + assert (E : to_double (inject_Z 6100000000) = Finite 6100000000)
        by (vm_compute; reflexivity).
      rewrite E. eexists.
      apply (f_equal2 pair);
        [apply f_equal; vm_compute; reflexivity | reflexivity].
Qed.

End DiskPreflight.

Section DiskPreflightOnSite.

Variable site : Site.
Variable env : Env.
Hypothesis Hsource : runs_source_config site env.

Local Open Scope Q_scope.

Lemma is_disk_space_ok_config_raises (c : Cls) (w w1 : World) (e : Exc) :
  cls_ensure_config env site c w = (Raise e, w1) ->
  is_disk_space_ok env c w = (Raise e, w1).
Proof.
  intro H. rewrite <- Hsource in H.
  unfold is_disk_space_ok, get_required_disk_gb.
  rewrite (bind_Raise _ _ _ _ _ (bind_Raise _ _ _ _ _ H)). reflexivity.
Qed.

(** C7. On a machine that runs the [ensure_config] of the source,
    [is_disk_space_ok()] raises where its data root is inaccessible: when
    [exists()] on the configured data path raises an [OSError],
    [ensure_config()] stores that error in [cls.exc] and raises
    [FileNotFoundError] outside the [try] of [is_disk_space_ok()], which
    passes it on without a [disk_usage] call.  Without a data root and
    without a configured path, a class whose [ensure_config] calls [mkdir]
    unguarded raises [AttributeError], whatever space it requires.  And
    when 0.0 is required and the data root is missing from an existing
    directory, it returns [True] after it has made the directory. *)
Theorem is_disk_space_ok_raises_from_ensure_config (c : Cls) (w : World) :
  (forall (rel : string) (cl : ExcClass),
      config_class c = c ->
      data_root w = None ->
      configured_data c w = Some rel ->
      rel <> ""%string ->
      exists_raises site (unc_root site (cls_host site c) rel) = Some cl ->
      issubclass cl OSError = true ->
      exists w1,
        is_disk_space_ok env c w
        = (Raise (mkExc FileNotFoundError "data path is not accessible"),
           w1) /\
        exc w1 = Some (mkExc cl "exists") /\
        disk_usage_calls w1 = disk_usage_calls w) /\
  (data_root w = None ->
   no_config c w ->
   mkdir_guarded c = false ->
   is_disk_space_ok env c w
   = (Raise (mkExc AttributeError
               "'NoneType' object has no attribute 'mkdir'"), w)) /\
  (forall (root : Path) (d : DirEntry),
      gb_per_hr w == 0 ->
      data_root w = Some root ->
      existsb (String.eqb (cls_host site c)) root = true ->
      config_class c = c \/ CONFIG w (class_name c) = None ->
      entry_at root (snapshot env w) = None ->
      entry_at (PurePath.parent root) (snapshot env w) = Some d ->
      e_is_dir d = true ->
      mkdir_raises site root = None ->
      is_disk_space_ok env c w
      = (Return true,
         with_made_dirs
           (made_dirs w
            ++ [mkEntry root true (clock w) (clock w) (dir_size site)])
           w)).
Proof.
  split; [|split].
  - intros rel cl Hc Hroot Hdata Hrel Hex Hos.
    eexists. split.
    + apply is_disk_space_ok_config_raises.
      now apply (cls_ensure_config_inaccessible site env c w rel cl).
    + split; reflexivity.
  - intros Hroot Hcfg Hg.
    apply is_disk_space_ok_config_raises.
    rewrite (cls_ensure_config_no_root site env c w Hroot Hcfg), Hg.
    reflexivity.
  - intros root d Hz Hroot Hhost Hrest Hfree Hparent Hdir Hmk.
    set (w1 := with_made_dirs _ w).
    assert (Hcfg : ensure_config env c w = (Return tt, w1)).
    { rewrite Hsource.
      now apply (cls_ensure_config_makes_root site env c w root d). }
    destruct (is_disk_space_ok_after_config env c w w1 (Finite 0)
                (get_required_disk_gb_zero_rate env c w w1 Hcfg Hz))
      as (Htrue & _).
    now apply Htrue.
Qed.

End DiskPreflightOnSite.

(** A product below a decimal tie: 0.7 GB per hour for half an hour is
    the float just under 0.35, which [round(x, 1)] takes to 0.3, while the
    exact product of seven tenths and a half is the tie that rounds to
    0.4. *)
Example float_product_below_tie :
  (forall q : Q,
      to_double (7 # 10) = Finite q ->
      float_round1 (float_mul q (1 # 2)) = to_double (3 # 10)) /\
  (nearest_tenth ((7 # 10) * (1 # 2)) == 4 # 10)%Q.
Proof.
  split; [|reflexivity].
  intros q E. vm_compute in E. injection E as <-.
  vm_compute. reflexivity.
Qed.


Lemma is_disk_space_ok_raises_from_ensure_config_witness :
  (exists w1,
      is_disk_space_ok (on_site (shut_site "w10dt") (disk_env (inr 0%Z)))
        Sync
        (with_CONFIG
           (fun name =>
              if String.eqb name "Sync" then Some (Some "data"%string)
              else None)
           (class_defaults 0 None))
      = (Raise (mkExc FileNotFoundError "data path is not accessible"), w1) /\
      exc w1 = Some (mkExc PermissionError "exists") /\
      disk_usage_calls w1 = []) /\
  is_disk_space_ok (on_site (plain_site "w10dt") (disk_env (inr 0%Z)))
    MouseDirector (with_profile 0 3 (class_defaults 0 None))
  = (Raise (mkExc AttributeError
              "'NoneType' object has no attribute 'mkdir'"),
     with_profile 0 3 (class_defaults 0 None)) /\
  is_disk_space_ok
    (on_site (plain_site "w10dt")
       (device_env (fun _ _ => StateTuple "READY" "")
          (fun _ _ => [mkEntry ["//"; "w10dt"]%string true 0 0 0])))
    Sync
    (with_profile 0 3
       (class_defaults 5 (Some ["//"; "w10dt"; "sync"]%string)))
  = (Return true,
     with_made_dirs
       [mkEntry ["//"; "w10dt"; "sync"]%string true 5 5 4096]
       (with_profile 0 3
          (class_defaults 5 (Some ["//"; "w10dt"; "sync"]%string)))).
Proof.
  split; [|split].
  - destruct (is_disk_space_ok_raises_from_ensure_config
                (shut_site "w10dt")
                (on_site (shut_site "w10dt") (disk_env (inr 0%Z)))
                (fun c w => eq_refl) Sync
                (with_CONFIG
                   (fun name =>
                      if String.eqb name "Sync" then Some (Some "data"%string)
                      else None)
                   (class_defaults 0 None)))
      as (Hraise & _).
    apply (Hraise "data"%string PermissionError);
      try reflexivity; discriminate.
  - destruct (is_disk_space_ok_raises_from_ensure_config
                (plain_site "w10dt")
                (on_site (plain_site "w10dt") (disk_env (inr 0%Z)))
                (fun c w => eq_refl) MouseDirector
                (with_profile 0 3 (class_defaults 0 None)))
      as (_ & Hattr & _).
    apply Hattr; [reflexivity | split; reflexivity | reflexivity].
  - destruct (is_disk_space_ok_raises_from_ensure_config
                (plain_site "w10dt")
                (on_site (plain_site "w10dt")
                   (device_env (fun _ _ => StateTuple "READY" "")
                      (fun _ _ => [mkEntry ["//"; "w10dt"]%string true 0 0 0])))
                (fun c w => eq_refl) Sync
                (with_profile 0 3
                   (class_defaults 5 (Some ["//"; "w10dt"; "sync"]%string))))
      as (_ & _ & Hmake).
    apply (Hmake ["//"; "w10dt"; "sync"]%string
             (mkEntry ["//"; "w10dt"]%string true 0 0 0));
      try reflexivity.
    now left.
Defined.

(** ** Sorting by a key *)

Section SortedBy.

Context {A : Type} (key : A -> Q).

Local Open Scope Q_scope.

Lemma insert_by_perm (x : A) (l : list A) :
  Permutation (insert_by key x l) (x :: l).
Proof.
  induction l as [|y l IH]; simpl.
  - apply Permutation_refl.
  - destruct (Qle_bool (key x) (key y)).
    + apply Permutation_refl.
    + eapply perm_trans; [apply perm_skip, IH | apply perm_swap].
Qed.

Lemma sorted_by_perm (l : list A) : Permutation (sorted_by key l) l.
Proof.
  induction l as [|x l IH]; simpl.
  - constructor.
  - eapply perm_trans; [apply insert_by_perm | apply perm_skip, IH].
Qed.

Lemma insert_by_sorted (x : A) (l : list A) :
  StronglySorted (key_le key) l ->
  StronglySorted (key_le key) (insert_by key x l).
Proof.
  induction l as [|y l IH]; intro Hs; simpl.
  - constructor; constructor.
  - inversion Hs as [|? ? Hl Hy]; subst.
    destruct (Qle_bool (key x) (key y)) eqn:E.
    + apply Qle_bool_iff in E.
      constructor; [exact Hs|].
      constructor; [exact E|].
      eapply Forall_impl; [|exact Hy].
      intros z Hz. unfold key_le in *. lra.
    + assert (Hyx : key y <= key x).
      { destruct (Qlt_le_dec (key y) (key x)) as [Hlt|Hle].
        - lra.
        - apply Qle_bool_iff in Hle. congruence. }
      constructor; [apply IH, Hl|].
      eapply Permutation_Forall;
        [apply Permutation_sym, insert_by_perm|].
      constructor; [exact Hyx | exact Hy].
Qed.

Lemma sorted_by_sorted (l : list A) :
  StronglySorted (key_le key) (sorted_by key l).
Proof.
  induction l as [|x l IH]; simpl.
  - constructor.
  - apply insert_by_sorted, IH.
Qed.

Lemma sorted_by_keyed (l : list A) :
  sorted_by snd (map (fun a => (a, key a)) l)
  = map (fun a => (a, key a)) (sorted_by key l).
Proof.
  induction l as [|x l IH]; simpl; [reflexivity|].
  rewrite IH. generalize (sorted_by key l) as s.
  induction s as [|y s IHs]; simpl; [reflexivity|].
  destruct (Qle_bool (key x) (key y)); [reflexivity|].
  now rewrite IHs.
Qed.

End SortedBy.

(** ** Reading the file system *)

Section Discovery.

Variable env : Env.

Local Open Scope Q_scope.

Lemma mapM_pure {A B} (f : A -> M B) (g : A -> B) (l : list A) (w : World) :
  (forall x, In x l -> f x w = (Return (g x), w)) ->
  mapM f l w = (Return (map g l), w).
Proof.
  induction l as [|x l IH]; intro H; simpl; [reflexivity|].
  unfold bind at 1. rewrite (H x (or_introl eq_refl)).
  unfold bind at 1. rewrite IH by (intros y Hy; apply H; now right).
  reflexivity.
Qed.

Lemma filterM_pure {A} (f : A -> M bool) (g : A -> bool) (l : list A)
  (w : World) :
  (forall x, In x l -> f x w = (Return (g x), w)) ->
  filterM f l w = (Return (filter g l), w).
Proof.
  induction l as [|x l IH]; intro H; simpl; [reflexivity|].
  unfold bind at 1. rewrite (H x (or_introl eq_refl)).
  unfold bind at 1. rewrite IH by (intros y Hy; apply H; now right).
  unfold ret. destruct (g x); reflexivity.
Qed.

Lemma path_eqb_refl (p : Path) : PurePath.path_eqb p p = true.
Proof.
  unfold PurePath.path_eqb. destruct (list_eq_dec string_dec p p); congruence.
Qed.

Lemma entry_at_listed (fs : list DirEntry) (e : DirEntry) :
  In e fs -> exists e', entry_at (e_path e) fs = Some e'.
Proof.
  intro H. unfold entry_at.
  destruct (find _ fs) as [e'|] eqn:E; [now exists e'|].
  pose proof (find_none _ _ E e H) as Hn. simpl in Hn.
  now rewrite path_eqb_refl in Hn.
Qed.

Lemma entry_at_glob (fs : list DirEntry) (dir : Path) (pattern : string)
  (f : Path) :
  In f (glob_in dir pattern fs) -> exists e, entry_at f fs = Some e.
Proof.
  unfold glob_in. rewrite in_map_iff.
  intros (e & <- & He). apply filter_In in He as [He _].
  now apply entry_at_listed.
Qed.

Lemma ctime_listed (f : Path) (w : World) :
  (exists e, entry_at f (snapshot env w) = Some e) ->
  ctime env f w = (Return (ctime_at (snapshot env w) f), w).
Proof.
  intros [e He]. unfold ctime, stat, bind, gets, ctime_at.
  rewrite He. reflexivity.
Qed.

Lemma get_files_created_between_eq (path : Path) (glob : string)
  (start : Q) (end_ : option Q) (w : World) :
  let fs := snapshot env w in
  get_files_created_between env path glob start end_ w
  = (Return
       (sorted_by (ctime_at fs)
          (filter
             (fun f => in_window start (window_end end_ (clock w))
                         (ctime_at fs f))
             (glob_in (searched path fs) glob fs))),
     w).
Proof.
  intro fs. unfold get_files_created_between.
  unfold bind at 1, is_dir at 1, bind at 1, gets at 1, ret at 1.
  fold fs.
  replace (if match entry_at path fs with
              | Some e => e_is_dir e
              | None => false
              end then path else PurePath.parent path)
    with (searched path fs)
    by (unfold searched; destruct (entry_at path fs) as [e|];
        [destruct (e_is_dir e)|]; reflexivity).
  unfold bind at 1, time_time at 1, gets at 1.
  replace (if falsy end_ then clock w
           else match end_ with Some v => v | None => clock w end)
    with (window_end end_ (clock w))
    by (unfold window_end, falsy; destruct end_ as [v|];
        [destruct (Qeq_bool v 0)|]; reflexivity).
  unfold bind at 1, path_glob at 1, bind at 1, gets at 1, ret at 1.
  fold fs.
  set (found := glob_in (searched path fs) glob fs).
  set (hi := window_end end_ (clock w)).
  unfold bind at 1.
  rewrite (filterM_pure _ (fun f => in_window start hi (ctime_at fs f))).
  2:{ intros f Hf. unfold bind.
      rewrite ctime_listed by (eapply entry_at_glob; exact Hf).
      reflexivity. }
  set (kept := filter _ found).
  unfold sorted_key, bind at 1.
  rewrite (mapM_pure _ (fun f => (f, ctime_at fs f))).
  2:{ intros f Hf. unfold bind.
      rewrite ctime_listed.
      - reflexivity.
      - apply filter_In in Hf as [Hf _]. eapply entry_at_glob; exact Hf. }
  unfold ret. rewrite sorted_by_keyed, map_map. simpl.
  now rewrite map_id.
Qed.

Lemma in_window_iff (start hi c : Q) :
  in_window start hi c = true <-> inject_Z (py_int start) <= c /\ c <= hi.
Proof.
  unfold in_window. rewrite andb_true_iff, !Qle_bool_iff. reflexivity.
Qed.

(** C2 (amended). [get_files_created_between] always returns a list: the
    entries of the searched directory that match the pattern and whose
    creation time lies between [int(start)] (the start truncated to whole
    seconds) and the end of the window (the current time when [end] is
    absent or 0), both bounds included; no other path; ascending by
    creation time; and the empty list when no creation time lies there. *)
Theorem get_files_created_between_window (path : Path) (glob : string)
  (start : Q) (end_ : option Q) (w : World) :
  exists files : list Path,
    get_files_created_between env path glob start end_ w
    = (Return files, w) /\
    (forall f : Path,
        In f files <->
        In f (glob_in (searched path (snapshot env w)) glob (snapshot env w)) /\
        inject_Z (py_int start) <= ctime_at (snapshot env w) f /\
        ctime_at (snapshot env w) f <= window_end end_ (clock w)) /\
    Permutation files
      (filter
         (fun f => in_window start (window_end end_ (clock w))
                     (ctime_at (snapshot env w) f))
         (glob_in (searched path (snapshot env w)) glob (snapshot env w))) /\
    StronglySorted
      (fun a b => ctime_at (snapshot env w) a <= ctime_at (snapshot env w) b)
      files /\
    ((forall f : Path,
         In f (glob_in (searched path (snapshot env w)) glob
                 (snapshot env w)) ->
         ~ (inject_Z (py_int start) <= ctime_at (snapshot env w) f /\
            ctime_at (snapshot env w) f <= window_end end_ (clock w))) ->
     files = []).
Proof.
  eexists. split; [apply get_files_created_between_eq|].
  set (fs := snapshot env w).
  set (hi := window_end end_ (clock w)).
  set (found := glob_in (searched path fs) glob fs).
  pose proof (sorted_by_perm (ctime_at fs)
                (filter (fun f => in_window start hi (ctime_at fs f)) found))
    as Hperm.
  split; [|split; [|split]].
  - intro f. split.
    + intro Hf. apply (Permutation_in _ Hperm) in Hf.
      apply filter_In in Hf as [Hin Hw]. apply in_window_iff in Hw.
      tauto.
    + intros (Hin & Hlo & Hhi).
      apply (Permutation_in _ (Permutation_sym Hperm)).
      apply filter_In. split; [exact Hin|]. apply in_window_iff. tauto.
  - exact Hperm.
  - apply (sorted_by_sorted (ctime_at fs)).
  - intro Hnone.
    assert (E : filter (fun f => in_window start hi (ctime_at fs f)) found
                = []).
    { destruct (filter _ found) as [|f rest] eqn:Ef; [reflexivity|].
      assert (Hf : In f (filter
                           (fun f => in_window start hi (ctime_at fs f))
                           found)) by (rewrite Ef; now left).
      apply filter_In in Hf as [Hin Hw]. apply in_window_iff in Hw.
      exfalso. exact (Hnone f Hin Hw). }
    rewrite E. reflexivity.
Qed.

End Discovery.

(** C2 (as stated, refuted). Asked for the window that starts at 1000.5, the
    locator returns [old.h5], created at 1000.25: a file created strictly
    before the start of the window. *)
Lemma get_files_created_between_before_start :
  exists files : list Path,
    get_files_created_between two_files_env ["srv"; "sync"] "*.h5"
      (2001 # 2) None (class_defaults 2000 None)
    = (Return files, class_defaults 2000 None) /\
    In ["srv"; "sync"; "old.h5"] files /\
    (ctime_at two_files ["srv"; "sync"; "old.h5"] < 2001 # 2)%Q.
Proof.
  exists [["srv"; "sync"; "old.h5"]; ["srv"; "sync"; "new.h5"]].
  split; [vm_compute; reflexivity|].
  split; [now left|].
  vm_compute. reflexivity.
Qed.

Lemma get_files_created_between_window_witness :
  exists files : list Path,
    get_files_created_between two_files_env ["srv"; "sync"] "*.h5"
      1001 (Some 1500%Q) (class_defaults 2000 None)
    = (Return files, class_defaults 2000 None) /\
    (In ["srv"; "sync"; "new.h5"] files /\
     ~ In ["srv"; "sync"; "old.h5"] files).
Proof.
  destruct (get_files_created_between_window two_files_env
              ["srv"; "sync"] "*.h5" 1001 (Some 1500%Q)
              (class_defaults 2000 None))
    as (files & E & Hin & _).
  exists files. split; [exact E|]. split.
  - apply Hin. split; [|split].
    + vm_compute. tauto.
    + vm_compute. discriminate.
    + vm_compute. discriminate.
  - intro H. apply Hin in H as (_ & Hlo & _).
    vm_compute in Hlo. apply Hlo. reflexivity.
Defined.

(** ** The context managers of utils.py *)

Section ContextManagers.

(** C9. Whatever the body raises, and whatever classes [suppress] was
    given, the [with] block ends normally: the [finally] clause returns,
    so a class that the [except] clause does not name is swallowed too
    (without the log entry). *)
Theorem suppress_swallows_everything (exceptions : list ExcClass)
  (body : M unit) (w w1 : World) (e : Exc) :
  body w = (Raise e, w1) ->
  exists w2 : World,
    suppress exceptions body w = (Return tt, w2) /\
    sent w2 = sent w1 /\ exc w2 = exc w1 /\
    (isinstance_any e exceptions = false -> exceptions <> [] -> w2 = w1).
Proof.
  intro Hbody. unfold suppress. rewrite Hbody.
  destruct (isinstance_any e
              match exceptions with
              | [] => [Exception]
              | _ :: _ => exceptions
              end)
    eqn:Hcaught.
  - eexists. split; [reflexivity|]. split; [reflexivity|].
    split; [reflexivity|].
    intros Hno Hne. destruct exceptions; [contradiction|congruence].
  - exists w1. repeat split; reflexivity.
Qed.

Lemma suppress_swallows_everything_witness :
  exists w2 : World,
    suppress [AttributeError; OSError]
      (raise KeyboardInterrupt "interrupted") (class_defaults 0 None)
    = (Return tt, w2) /\ w2 = class_defaults 0 None.
Proof.
  destruct (suppress_swallows_everything [AttributeError; OSError]
              (raise KeyboardInterrupt "interrupted")
              (class_defaults 0 None) (class_defaults 0 None)
              (mkExc KeyboardInterrupt "interrupted") eq_refl)
    as (w2 & E & _ & _ & Hsame).
  exists w2. split; [exact E|]. apply Hsame; [reflexivity | discriminate].
Defined.

Lemma suppress_normal_exit (exceptions : list ExcClass) (body : M unit)
  (w w1 : World) :
  body w = (Return tt, w1) -> suppress exceptions body w = (Return tt, w1).
Proof. intro H. unfold suppress. now rewrite H. Qed.

(** [stop_on_error] on a body that raises an [Exception]: [cls.exc] is
    set, [stop()] is called and the same exception is raised again. *)
Lemma stop_on_error_reraises (obj : Cls) (body : M unit) (w w1 : World)
  (e : Exc) :
  Stoppable obj = true ->
  obj <> ImageMVR -> obj <> VideoMVR ->
  body w = (Raise e, w1) ->
  issubclass (exc_class e) Exception = true ->
  exists w2 : World,
    stop_on_error stop obj true body w = (Raise e, w2) /\
    sent w2 = sent w1 ++ [proxy_stop] /\
    exc w2 = Some e.
Proof.
  intros Hs Hi Hv Hbody Hexc. unfold stop_on_error.
  rewrite Hs. cbn [negb]. rewrite Hbody, Hexc.
  destruct obj; try discriminate; try contradiction;
    (eexists; split; [reflexivity|]; split; reflexivity).
Qed.

(** When the body ends normally, [stop_on_error] ends normally in the
    world the body reached: the context manager does not call [stop()].
    (In [CamstimSyncShared.pretest()] it is the [finalize()] after the
    block that sends the stop, when the device is still started.) *)
Lemma stop_on_error_skips_stop_on_success (obj : Cls) (reraise_ : bool)
  (body : M unit) (w w1 : World) :
  Stoppable obj = true ->
  body w = (Return tt, w1) ->
  stop_on_error stop obj reraise_ body w = (Return tt, w1).
Proof.
  intros Hs Hbody. unfold stop_on_error. rewrite Hs. cbn [negb].
  rewrite Hbody. reflexivity.
Qed.

(** [CamstimSyncShared.pretest()] on a sync box that starts, records and
    verifies: the guarded block ends with the start sent and no stop, and
    the [finalize()] that follows finds the box started and sends the
    stop. *)
Example Sync_pretest_stops_in_finalize :
  exists w1 w2 : World,
    pretest_recording (on_site (plain_site "srv") sync_box) log10_by_log2
      Sync (class_defaults 1000 (Some ["srv"; "sync"]))
    = (Return tt, w1) /\
    sent w1 = [proxy_start] /\
    finalize (on_site (plain_site "srv") sync_box) Sync 5 w1
    = (Return tt, w2) /\
    sent w2 = [proxy_start; proxy_stop].
Proof.
  do 2 eexists. split; [vm_compute; reflexivity|].
  split; [reflexivity|]. split; [vm_compute; reflexivity | reflexivity].
Qed.

(** C5 (the code at the input where the claim fails).
    [ScriptCamstim.pretest()] calls [start()] inside no guard, and no
    handler stands around the statements that follow it.  Take a stim
    agent that answers and runs the script to its end, and a class that
    requires no disk space and has neither a data root nor an entry in
    [CONFIG].  Then [test()] passes, the script is started, and once it
    has ended [finalize()] raises [TypeError]: it extends [data_files] by
    the [None] that [get_latest_data] returns.  The error leaves
    [pretest()] as it is, after one command, the start of the script:
    [stop()] has not run, and [cls.exc] was not set. *)
Theorem ScriptCamstim_pretest_raises_without_stop :
  exists w1 : World,
    ScriptCamstim_pretest (on_site (plain_site "srv") scripted_agent) online
      10 (with_profile 0 3 (class_defaults 1000 None))
    = (Raise (mkExc TypeError "'NoneType' object is not iterable"), w1) /\
    sent w1 = [proxy_start_script] /\
    exc w1 = None.
Proof.
  eexists. split; [vm_compute; reflexivity | split; reflexivity].
Qed.

(** With its data root in place the same run ends normally, as far as the
    second [initialize()] of [ScriptCamstim.pretest()]: the script ends by
    itself and [finalize()] finds nothing to stop, so here too the start
    of the script is the only command sent. *)
Example ScriptCamstim_pretest_run_never_stops :
  exists w1 : World,
    ScriptCamstim_pretest
      (on_site (plain_site "srv") scripted_agent_with_root) online 10
      (with_profile 0 3 (class_defaults 1000 (Some ["srv"; "stim"])))
    = (Return tt, w1) /\ sent w1 = [proxy_start_script].
Proof.
  eexists. split; [vm_compute; reflexivity | reflexivity].
Qed.

End ContextManagers.

(** ** Data discovery before the first start *)

Section LatestData.

Variable env : Env.

(** With a data root and the attribute [latest_start] present,
    [get_latest_data] is the windowed search from [latest_start]. *)
Lemma get_latest_data_windowed (c : Cls) (glob : option string)
  (subfolders : string) (w w1 : World) (root : Path) (t : Q) :
  ensure_config env c w = (Return tt, w1) ->
  data_root w1 = Some root ->
  latest_start w1 = Some t ->
  exists (dir : Path) (pattern : string),
    get_latest_data env c glob subfolders w
    = (Return
         (Some
            (sorted_by (ctime_at (snapshot env w1))
               (filter
                  (fun f => in_window t (clock w1)
                              (ctime_at (snapshot env w1) f))
                  (glob_in (searched dir (snapshot env w1)) pattern
                     (snapshot env w1))))),
       w1).
Proof.
  intros Hcfg Hroot Hstart. do 2 eexists.
  unfold get_latest_data.
  rewrite (bind_Return _ _ _ _ _ Hcfg).
  rewrite (bind_Return _ _ w1 w1 (Some root))
    by (unfold gets; now rewrite Hroot).
  rewrite (bind_Return _ _ w1 w1 (Some t))
    by (unfold gets; now rewrite Hstart).
  erewrite bind_Return by apply get_files_created_between_eq.
  reflexivity.
Qed.

End LatestData.

(** C8 (the code at the input where the claim fails). On a class whose
    [start()] was never called, [latest_start] is the class default 0, the
    attribute exists, and [get_latest_data] returns every matching file
    created since the epoch, here the two of them, where the claim has the
    one modified last ([new.h5]). *)
Theorem get_latest_data_before_first_start :
  latest_start (class_defaults 2000 (Some ["srv"; "sync"])) = Some 0%Q /\
  get_latest_data two_files_env Sync (Some "*.h5") ""
    (class_defaults 2000 (Some ["srv"; "sync"]))
  = (Return (Some [["srv"; "sync"; "old.h5"]; ["srv"; "sync"; "new.h5"]]),
     class_defaults 2000 (Some ["srv"; "sync"])) /\
  max_mtime two_files_env
    [["srv"; "sync"; "old.h5"]; ["srv"; "sync"; "new.h5"]]
    (class_defaults 2000 (Some ["srv"; "sync"]))
  = (Return ["srv"; "sync"; "new.h5"],
     class_defaults 2000 (Some ["srv"; "sync"])).
Proof.
  split; [reflexivity|]. split; vm_compute; reflexivity.
Qed.

(** ** Growth of the latest file *)

Section Growth.

Variable env : Env.
Variable log10 : Z -> Q.

Lemma is_file_growing_empty (path : Path) (w : World) (e : DirEntry) :
  entry_at path (snapshot env w) = Some e ->
  st_size e = 0%Z ->
  is_file_growing env log10 path w
  = (Raise (mkExc ValueError "math domain error"), w).
Proof.
  intros He Hsize. unfold is_file_growing.
  rewrite (bind_Return _ _ w w e)
    by (unfold stat, bind, gets; now rewrite He).
  rewrite Hsize.
  destruct (String.eqb ".sync" (PurePath.suffix path)); reflexivity.
Qed.

(** C10. On an empty file [is_file_growing] raises [ValueError] (the
    logarithm of 0) and returns nothing; so [Sync.verify()], on a started
    device whose latest data file is empty, ends with that [ValueError]
    and not with an [AssertionError]. *)
Theorem Sync_verify_empty_file_ValueError (w : World) (files : list Path)
  (latest : Path) (e : DirEntry) :
  is_started env Sync w = (Return true, w) ->
  data_root w <> None ->
  get_latest_data env Sync None "" w = (Return (Some files), w) ->
  last_item (Some files) w = (Return latest, w) ->
  entry_at latest (snapshot env w) = Some e ->
  st_size e = 0%Z ->
  is_file_growing env log10 latest w
  = (Raise (mkExc ValueError "math domain error"), w) /\
  Sync_verify env log10 w
  = (Raise (mkExc ValueError "math domain error"), w).
Proof.
  intros Hstarted Hroot Hdata Hlast He Hsize.
  pose proof (is_file_growing_empty latest w e He Hsize) as Hgrow.
  split; [exact Hgrow|].
  unfold Sync_verify.
  rewrite (bind_Return _ _ w w tt).
  2:{ unfold CamstimSyncShared_verify.
      rewrite (bind_Return _ _ w w true) by exact Hstarted. reflexivity. }
  rewrite (bind_Return _ _ w w (data_root w)) by reflexivity.
  destruct (data_root w) as [root|]; [|contradiction].
  apply bind_Raise.
  rewrite (bind_Return _ _ w w (Some files)) by exact Hdata.
  rewrite (bind_Return _ _ w w latest) by exact Hlast.
  exact Hgrow.
Qed.

End Growth.

Lemma Sync_verify_empty_file_ValueError_witness :
  Sync_verify empty_recording log10_by_log2
    (with_latest_start (Some 1000%Q)
       (class_defaults 1001 (Some ["srv"; "sync"])))
  = (Raise (mkExc ValueError "math domain error"),
     with_latest_start (Some 1000%Q)
       (class_defaults 1001 (Some ["srv"; "sync"]))).
Proof.
  apply (Sync_verify_empty_file_ValueError empty_recording log10_by_log2 _
           [["srv"; "sync"; "rec.sync"]] ["srv"; "sync"; "rec.sync"]
           (mkEntry ["srv"; "sync"; "rec.sync"] false 1000 1000 0));
    try (vm_compute; reflexivity).
  discriminate.
Defined.

(** ** start() *)

Section Start.

Variable env : Env.

Lemma shared_start_zro (c : Cls) : shared_start c = true -> zro_class c = true.
Proof. destruct c; simpl; congruence. Qed.

Lemma shared_is_started (c : Cls) (w : World) (msgs : list string) :
  zro_class c = true ->
  started_state c = Some msgs ->
  is_started env c w
  = (Return (shows_started msgs (proxy_state env (clock w) (sent w))), w).
Proof.
  intros Hc Hs.
  assert (E : is_started env c = CamstimSyncShared_is_started env c)
    by (destruct c; try discriminate; reflexivity).
  rewrite E. unfold CamstimSyncShared_is_started.
  assert (G : get_state env c w
              = (Return (proxy_state env (clock w) (sent w)), w))
    by (destruct c; try discriminate; reflexivity).
  rewrite (bind_Return _ _ _ _ _ G), Hs. unfold shows_started.
  destruct (Nat.eqb (state_len (proxy_state env (clock w) (sent w))) 0);
    reflexivity.
Qed.

(** [CamstimSyncShared.start()] on a device that reports it is started:
    one warning, no command, [latest_start] as it was. *)
Lemma CamstimSyncShared_start_already_started (c : Cls) (w : World)
  (msgs : list string) :
  shared_start c = true ->
  started_state c = Some msgs ->
  shows_started msgs (proxy_state env (clock w) (sent w)) = true ->
  start env c w
  = (Return tt,
     with_log
       (log w ++ [(DEBUG, "Starting");
                  (WARNING, "already started - should be stopped manually")])
       w).
Proof.
  intros Hc Hs Hall.
  assert (E : start env c = CamstimSyncShared_start env c)
    by (destruct c; try discriminate; reflexivity).
  rewrite E. unfold CamstimSyncShared_start.
  rewrite (bind_Return _ _ w (starting w) tt) by reflexivity.
  rewrite (bind_Return _ _ _ _ _
             (shared_is_started c (starting w) msgs
                (shared_start_zro c Hc) Hs)).
  change (clock (starting w)) with (clock w).
  change (sent (starting w)) with (sent w).
  rewrite Hall. unfold logger, modify, starting, with_log. simpl.
  now rewrite <- app_assoc.
Qed.

Lemma shared_is_ready_to_start (c : Cls) (w : World) (msgs : list string) :
  zro_class c = true ->
  started_state c = Some msgs ->
  is_ready_to_start env c w
  = (Return
       (negb (shows_started msgs (proxy_state env (clock w) (sent w))) &&
        shows_ready (proxy_state env (clock w) (sent w))),
     w).
Proof.
  intros Hz Hs.
  assert (E : is_ready_to_start env c
              = CamstimSyncShared_is_ready_to_start env c)
    by (destruct c; try discriminate; reflexivity).
  rewrite E. unfold CamstimSyncShared_is_ready_to_start.
  rewrite (bind_Return _ _ _ _ _ (shared_is_started c w msgs Hz Hs)).
  destruct (shows_started msgs _); [reflexivity|].
  assert (G : get_state env c w
              = (Return (proxy_state env (clock w) (sent w)), w))
    by (destruct c; try discriminate; reflexivity).
  rewrite (bind_Return _ _ _ _ _ G).
  destruct (proxy_state env (clock w) (sent w)); reflexivity.
Qed.

(** [CamstimSyncShared.start()] on a device that is neither started nor
    ready: an [AssertionError], and no command. *)
Lemma CamstimSyncShared_start_not_ready (c : Cls) (w : World)
  (msgs : list string) :
  shared_start c = true ->
  started_state c = Some msgs ->
  shows_started msgs (proxy_state env (clock w) (sent w)) = false ->
  shows_ready (proxy_state env (clock w) (sent w)) = false ->
  start env c w
  = (Raise (mkExc AssertionError "not ready to start"),
     with_log
       (log w ++ [(DEBUG, "Starting"); (ERROR, "not ready to start")]) w).
Proof.
  intros Hc Hs Hst Hrd.
  pose proof (shared_start_zro c Hc) as Hz.
  assert (E : start env c = CamstimSyncShared_start env c)
    by (destruct c; try discriminate; reflexivity).
  rewrite E. unfold CamstimSyncShared_start.
  rewrite (bind_Return _ _ w (starting w) tt) by reflexivity.
  rewrite (bind_Return _ _ _ _ _ (shared_is_started c (starting w) msgs Hz Hs)).
  change (clock (starting w)) with (clock w).
  change (sent (starting w)) with (sent w).
  rewrite Hst.
  rewrite (bind_Return _ _ _ _ _
             (shared_is_ready_to_start c (starting w) msgs Hz Hs)).
  change (clock (starting w)) with (clock w).
  change (sent (starting w)) with (sent w).
  rewrite Hst, Hrd. cbn [negb andb].
  assert (G : forall w0, get_state env c w0
                         = (Return (proxy_state env (clock w0) (sent w0)), w0))
    by (intro w0; destruct c; try discriminate; reflexivity).
  rewrite (bind_Return _ _ _ _ _ (G _)).
  unfold bind at 1, logger at 1, modify at 1.
  rewrite (bind_Return _ _ _ _ _ (G _)).
  unfold raise, starting, with_log. simpl. now rewrite <- app_assoc.
Qed.

(** [CamstimSyncShared.start()] on a ready device: [latest_start] takes the
    current time and the start command is sent. *)
Lemma CamstimSyncShared_start_ready (c : Cls) (w : World)
  (msgs : list string) :
  shared_start c = true ->
  started_state c = Some msgs ->
  shows_started msgs (proxy_state env (clock w) (sent w)) = false ->
  shows_ready (proxy_state env (clock w) (sent w)) = true ->
  start env c w
  = (Return tt,
     with_sent (sent w ++ [proxy_start])
       (with_latest_start (Some (clock w)) (starting w))).
Proof.
  intros Hc Hs Hst Hrd.
  pose proof (shared_start_zro c Hc) as Hz.
  assert (E : start env c = CamstimSyncShared_start env c)
    by (destruct c; try discriminate; reflexivity).
  rewrite E. unfold CamstimSyncShared_start.
  rewrite (bind_Return _ _ w (starting w) tt) by reflexivity.
  rewrite (bind_Return _ _ _ _ _ (shared_is_started c (starting w) msgs Hz Hs)).
  change (clock (starting w)) with (clock w).
  change (sent (starting w)) with (sent w).
  rewrite Hst.
  rewrite (bind_Return _ _ _ _ _
             (shared_is_ready_to_start c (starting w) msgs Hz Hs)).
  change (clock (starting w)) with (clock w).
  change (sent (starting w)) with (sent w).
  rewrite Hst, Hrd. reflexivity.
Qed.

(** [VideoMVR.start()] asks nothing. *)
Lemma VideoMVR_start_unconditional (w : World) :
  start env VideoMVR w
  = (Return tt,
     with_sent (sent w ++ [mvr_start_record])
       (with_latest_start (Some (clock w)) w)).
Proof. reflexivity. Qed.

(** [ScriptCamstim.start()] and [SessionCamstim.start()] ask nothing. *)
Lemma ScriptCamstim_start_unconditional (w : World) :
  start env ScriptCamstim w
  = (Return tt,
     with_sent (sent w ++ [proxy_start_script])
       (with_latest_start (Some (clock w)) w)) /\
  start env SessionCamstim w
  = (Return tt,
     with_sent (sent w ++ [proxy_start_session])
       (with_latest_start (Some (clock w)) w)).
Proof. split; reflexivity. Qed.

End Start.

(** C3 (the code at the input where the claim fails). [VideoMVR] reports
    that it is started (its camera is recording), and [start()] sends
    [start_record] again and overwrites [latest_start], without a warning. *)
Theorem VideoMVR_start_while_recording :
  fst (is_started recording_mvr VideoMVR video_started) = Return true /\
  exists w1 : World,
    start recording_mvr VideoMVR video_started = (Return tt, w1) /\
    sent w1 = [mvr_start_record; mvr_start_record] /\
    latest_start video_started = Some 1000%Q /\
    latest_start w1 = Some 1010%Q /\
    log w1 = [].
Proof.
  split; [vm_compute; reflexivity|].
  eexists. split; [apply VideoMVR_start_unconditional|].
  repeat split.
Qed.

(** C4 (the code at the input where the claim fails). The agent is neither
    started nor ready to start, and [ScriptCamstim.start()] returns
    normally after it has sent [start_script]. *)
Theorem ScriptCamstim_start_when_not_ready :
  is_started busy_agent ScriptCamstim (class_defaults 1010 None)
  = (Return false, class_defaults 1010 None) /\
  is_ready_to_start busy_agent ScriptCamstim (class_defaults 1010 None)
  = (Return false, class_defaults 1010 None) /\
  exists w1 : World,
    start busy_agent ScriptCamstim (class_defaults 1010 None)
    = (Return tt, w1) /\
    sent w1 = [proxy_start_script].
Proof.
  split; [vm_compute; reflexivity|].
  split; [vm_compute; reflexivity|].
  eexists. split; [apply ScriptCamstim_start_unconditional|].
  reflexivity.
Qed.

(** ** Probes neither hang nor move the clock *)

Section Steady.

Variable env : Env.

Lemma steady_ret {A} (a : A) : steady (ret a).
Proof. intro w. split; [discriminate | reflexivity]. Qed.

Lemma steady_raise {A} (c : ExcClass) (msg : string) : steady (@raise A c msg).
Proof. intro w. split; [discriminate | reflexivity]. Qed.

Lemma steady_gets {A} (f : World -> A) : steady (gets f).
Proof. intro w. split; [discriminate | reflexivity]. Qed.

Lemma steady_modify (f : World -> World) :
  (forall w, clock (f w) = clock w) -> steady (modify f).
Proof. intros H w. split; [discriminate | apply H]. Qed.

Lemma steady_logger (lvl : Level) (msg : string) : steady (logger lvl msg).
Proof. apply steady_modify. reflexivity. Qed.

Lemma steady_send (c : Cmd) : steady (send c).
Proof. apply steady_modify. reflexivity. Qed.

Lemma steady_bind {A B} (m : M A) (k : A -> M B) :
  steady m -> (forall a, steady (k a)) -> steady (bind m k).
Proof.
  intros Hm Hk w. unfold bind.
  destruct (Hm w) as [Hh Hc].
  destruct (m w) as [[a| e |] w1]; simpl in *.
  - destruct (Hk a w1) as [Hh' Hc']. split; [exact Hh' | congruence].
  - split; [discriminate | exact Hc].
  - contradiction.
Qed.

Lemma steady_mvr_read : steady (mvr_read env).
Proof. intro w. split; [discriminate | reflexivity]. Qed.

Ltac steady_step :=
  first
    [ apply steady_ret | apply steady_raise | apply steady_gets
    | apply steady_logger | apply steady_send | apply steady_mvr_read
    | apply steady_modify; reflexivity
    | solve [auto]
    | apply steady_bind; [| intro]
    | match goal with
      | |- steady (if ?b then _ else _) => destruct b
      | |- steady (match ?x with _ => _ end) => destruct x
      end ].

Ltac steady_auto := repeat steady_step.

Lemma steady_get_camera_status (c : Cls) : steady (get_camera_status env c).
Proof. unfold get_camera_status. steady_auto. Qed.

Lemma steady_MVR_is_connected (c : Cls) : steady (MVR_is_connected env c).
Proof.
  unfold MVR_is_connected. apply steady_bind; [apply steady_gets|].
  intro link. destruct (negb (host_online link)); [steady_auto|].
  destruct (negb (mvr_connected link)); [steady_auto|].
  intro w. destruct (steady_get_camera_status c w) as [Hh Hc].
  destruct (get_camera_status env c w) as [[a| e |] w1]; simpl in *.
  - split; [discriminate | exact Hc].
  - destruct (issubclass (exc_class e) ConnectionError); simpl;
      (split; [discriminate | exact Hc]).
  - contradiction.
Qed.

Lemma steady_get_cameras_recording (c : Cls) (status : option (list Camera)) :
  steady (get_cameras_recording env c status).
Proof.
  pose proof (steady_get_camera_status c).
  unfold get_cameras_recording. steady_auto.
Qed.

Lemma steady_get_state (c : Cls) : steady (get_state env c).
Proof.
  pose proof (steady_get_camera_status c).
  pose proof (steady_MVR_is_connected c).
  pose proof (steady_get_cameras_recording c).
  unfold get_state, MVR_get_state.
  destruct (is_mvr c); [|apply steady_gets].
  apply steady_bind; [assumption|]. intro connected.
  destruct (negb connected); [apply steady_ret|].
  apply steady_bind; [assumption|]. intro status.
  destruct (existsb _ status); [apply steady_ret|].
  destruct (existsb _ status); [apply steady_ret|].
  apply steady_bind; [auto|]. intro rec.
  destruct rec; apply steady_ret.
Qed.

Lemma steady_is_started (c : Cls) : steady (is_started env c).
Proof.
  pose proof steady_get_state as Hs.
  unfold is_started, CamstimSyncShared_is_started, ImageMVR_is_started,
    VideoMVR_is_started.
  destruct c; cbv iota; steady_auto.
Qed.

Lemma steady_is_ready_to_start (c : Cls) : steady (is_ready_to_start env c).
Proof.
  pose proof steady_get_state as Hs.
  pose proof steady_is_started as Hi.
  pose proof steady_get_camera_status as Hc.
  unfold is_ready_to_start, CamstimSyncShared_is_ready_to_start,
    MVR_is_ready_to_start.
  destruct c; cbv iota; steady_auto.
Qed.

Lemma steady_stop (c : Cls) : steady (stop c).
Proof. destruct c; simpl; steady_auto. Qed.

Lemma steady_timedout (t0 limit : Q) : steady (timedout t0 limit).
Proof. unfold timedout, time_time. steady_auto. Qed.

Lemma steady_stat (p : Path) : steady (stat env p).
Proof. unfold stat. steady_auto. Qed.

Lemma steady_mapM {A B} (f : A -> M B) (l : list A) :
  (forall x, steady (f x)) -> steady (mapM f l).
Proof.
  intro H. induction l as [|x l IH]; simpl; steady_auto.
Qed.

Lemma steady_get_latest_data (c : Cls) (glob : option string)
  (subfolders : string) :
  steady (ensure_config env c) ->
  steady (get_latest_data env c glob subfolders).
Proof.
  intro Hcfg.
  assert (Hf : forall p g s e, steady (get_files_created_between env p g s e)).
  { intros p g s e w. rewrite get_files_created_between_eq.
    split; [discriminate | reflexivity]. }
  unfold get_latest_data.
  apply steady_bind; [exact Hcfg|]. intros _.
  apply steady_bind; [apply steady_gets|]. intros [root|]; [|apply steady_ret].
  apply steady_bind; [apply steady_gets|]. intros [t|].
  - apply steady_bind; [apply Hf|]. intro files. apply steady_ret.
  - apply steady_bind; [apply Hf|]. intro files.
    apply steady_bind; [|intro; apply steady_ret].
    unfold max_mtime. apply steady_bind.
    + apply steady_mapM. intro x.
      apply steady_bind; [apply steady_stat | intro; apply steady_ret].
    + intro keyed. destruct (max_by snd keyed); steady_auto.
Qed.

(** ** finalize() *)

Lemma busy_is_not_ready (c : Cls) (w : World) :
  waits_without_deadline c = true ->
  never_leaves_busy env ->
  is_ready_to_start env c w = (Return false, w).
Proof.
  intros Hc Hbusy.
  assert (Hz : zro_class c = true)
    by (destruct c; try discriminate; reflexivity).
  assert (Hs : exists msgs, started_state c = Some msgs)
    by (destruct c; try discriminate; eexists; reflexivity).
  destruct Hs as [msgs Hs].
  assert (E : is_ready_to_start env c
              = CamstimSyncShared_is_ready_to_start env c)
    by (destruct c; try discriminate; reflexivity).
  rewrite E. unfold CamstimSyncShared_is_ready_to_start.
  rewrite (bind_Return _ _ _ _ _ (shared_is_started env c w msgs Hz Hs)).
  destruct (shows_started msgs _); [reflexivity|].
  assert (G : get_state env c w
              = (Return (proxy_state env (clock w) (sent w)), w))
    by (destruct c; try discriminate; reflexivity).
  rewrite (bind_Return _ _ _ _ _ G).
  destruct (Hbusy (clock w) (sent w)) as (detail & -> & Hd).
  unfold ret. cbn [state_has]. rewrite Hd. reflexivity.
Qed.

Lemma wait_for_ready_hangs (c : Cls) (fuel : nat) (w : World) :
  waits_without_deadline c = true ->
  never_leaves_busy env ->
  fst (while fuel
         (ready <- is_ready_to_start env c ;; ret (negb ready))
         (logger DEBUG "Waiting to finish processing" ;; time_sleep 1) w)
  = Hang.
Proof.
  intros Hc Hbusy. revert w.
  induction fuel as [|n IH]; intro w; [reflexivity|].
  cbn [while].
  rewrite (bind_Return _ _ w w true)
    by (rewrite (bind_Return _ _ _ _ _ (busy_is_not_ready c w Hc Hbusy));
        reflexivity).
  cbv iota.
  match goal with
  | |- fst (bind ?m ?k w) = Hang =>
      destruct (m w) as [[[]| e |] w1] eqn:Hbody
  end.
  - rewrite (bind_Return _ _ _ _ _ Hbody). apply IH.
  - vm_compute in Hbody. discriminate.
  - vm_compute in Hbody. discriminate.
Qed.

(** C1 (the code where the claim fails). [Sync.finalize()] and
    [Camstim.finalize()] wait without a deadline: while the device stays
    busy the loop never ends, whatever the fuel. *)
Theorem finalize_without_deadline_hangs (c : Cls) (fuel : nat) (w : World) :
  waits_without_deadline c = true ->
  never_leaves_busy env ->
  fst (finalize env c fuel w) = Hang.
Proof.
  intros Hc Hbusy.
  assert (E : exists lvl pattern,
             finalize env c fuel = shared_finalize env c lvl pattern fuel)
    by (destruct c; try discriminate; do 2 eexists; reflexivity).
  destruct E as (lvl & pattern & ->).
  unfold shared_finalize.
  rewrite (bind_Return _ _ w (with_log (log w ++ [(lvl, "Finalizing")]) w) tt)
    by reflexivity.
  set (w0 := with_log _ w).
  destruct (steady_is_started c w0) as [Hh _].
  destruct (is_started env c w0) as [[started| e |] w1] eqn:Hst;
    [|exfalso|contradiction].
  2:{ (* the inherited is_started returns *)
      assert (Hz : zro_class c = true)
        by (destruct c; try discriminate; reflexivity).
      assert (Hs : exists msgs, started_state c = Some msgs)
        by (destruct c; try discriminate; eexists; reflexivity).
      destruct Hs as [msgs Hs].
      rewrite (shared_is_started env c w0 msgs Hz Hs) in Hst. discriminate. }
  rewrite (bind_Return _ _ _ _ _ Hst).
  assert (Hstop : exists w2,
             (if started then stop c else ret tt) w1 = (Return tt, w2)).
  { destruct started; [|eexists; reflexivity].
    destruct c; try discriminate; eexists; reflexivity. }
  destruct Hstop as [w2 Hstop].
  rewrite (bind_Return _ _ _ _ _ Hstop).
  pose proof (wait_for_ready_hangs c fuel w2 Hc Hbusy) as Hloop.
  destruct (while fuel _ _ w2) as [o w3] eqn:Hw. simpl in Hloop. subst o.
  rewrite (bind_Hang _ _ _ _ Hw). reflexivity.
Qed.

(** ** finalize() with a deadline *)

Lemma steady_halts {A} (m : M A) : steady m -> halts m.
Proof. intros H w. apply (H w). Qed.

Lemma halts_bind {A B} (m : M A) (k : A -> M B) :
  halts m -> (forall a, halts (k a)) -> halts (bind m k).
Proof.
  intros Hm Hk w. unfold bind. specialize (Hm w).
  destruct (m w) as [[a| e |] w1]; simpl in *.
  - apply Hk.
  - discriminate.
  - contradiction.
Qed.

Lemma waiting_step (w : World) :
  exists w1 : World,
    (logger DEBUG "Waiting to finish processing" ;; time_sleep 1) w
    = (Return tt, w1) /\
    clock w1 = (clock w + 1)%Q.
Proof. eexists. split; reflexivity. Qed.

Lemma while_gives_up (deadline : Q) (cond : M bool) :
  gives_up_after deadline cond ->
  forall (k fuel : nat) (w : World),
    (k < fuel)%nat ->
    (deadline + 1 - inject_Z (Z.of_nat k) <= clock w)%Q ->
    fst (while fuel cond
           (logger DEBUG "Waiting to finish processing" ;; time_sleep 1) w)
    <> Hang.
Proof.
  intros Hcond k. induction k as [|k IH]; intros fuel w Hfuel Hclock;
    (destruct fuel as [|n]; [lia|]); cbn [while];
    destruct (Hcond w) as (Hh & Hc & Hlate);
    destruct (cond w) as [[[]| e |] w1] eqn:Ew; simpl in Hh, Hc, Hlate;
    try contradiction;
    try (rewrite (bind_Return _ _ _ _ _ Ew); discriminate);
    try (rewrite (bind_Raise _ _ _ _ _ Ew); discriminate).
  - exfalso. apply Hlate; [|reflexivity].
    change (inject_Z (Z.of_nat 0)) with 0%Q in Hclock. lra.
  - rewrite (bind_Return _ _ _ _ _ Ew). cbv iota.
    destruct (waiting_step w1) as (w2 & Ebody & Hc2).
    rewrite (bind_Return _ _ _ _ _ Ebody).
    apply IH; [lia|].
    rewrite Hc2, Hc.
    rewrite Nat2Z.inj_succ in Hclock. unfold Z.succ in Hclock.
    rewrite inject_Z_plus in Hclock.
    change (inject_Z 1) with 1%Q in Hclock. lra.
Qed.

Lemma timedout_eq (t0 limit : Q) (w : World) :
  timedout t0 limit w = (Return (negb (Qle_bool (clock w) (t0 + limit))), w).
Proof. reflexivity. Qed.

Lemma VideoMVR_wait_gives_up (t0 : Q) :
  gives_up_after (t0 + 30)
    (ready <- is_ready_to_start env VideoMVR ;;
     if negb ready then (late <- timedout t0 30 ;; ret (negb late))
     else ret false).
Proof.
  intro w. destruct (steady_is_ready_to_start VideoMVR w) as [Hh Hc].
  destruct (is_ready_to_start env VideoMVR w) as [[ready| e |] w1] eqn:Er;
    simpl in Hh, Hc; [| |contradiction].
  - rewrite (bind_Return _ _ _ _ _ Er).
    destruct ready; cbn [negb].
    + repeat split; try discriminate. exact Hc.
    + rewrite (bind_Return _ _ _ _ _ (timedout_eq t0 30 w1)).
      unfold ret. cbn [fst snd].
      split; [discriminate|]. split; [exact Hc|].
      intros Hlate Htrue. rewrite negb_involutive in Htrue.
      injection Htrue as Htrue. apply Qle_bool_iff in Htrue.
      rewrite Hc in Htrue. lra.
  - rewrite (bind_Raise _ _ _ _ _ Er).
    repeat split; try discriminate. exact Hc.
Qed.

(** [VideoMVR.finalize()] ends whatever the device does: 31 rounds of the
    loop put the clock past the deadline of 30 seconds. *)
Lemma VideoMVR_finalize_halts (fuel : nat) :
  (32 <= fuel)%nat ->
  steady (ensure_config env VideoMVR) ->
  halts (finalize env VideoMVR fuel).
Proof.
  intros Hfuel Hcfg. cbn [finalize]. unfold VideoMVR_finalize.
  apply halts_bind; [apply steady_halts, steady_logger|]. intros _.
  apply halts_bind; [apply steady_halts, steady_is_started|]. intro started.
  apply halts_bind.
  { destruct started; apply steady_halts;
      [apply steady_stop | apply steady_ret]. }
  intros _ w.
  rewrite (bind_Return _ _ w w (clock w)) by reflexivity.
  pose proof (while_gives_up _ _ (VideoMVR_wait_gives_up (clock w))
                31 fuel w) as Hloop.
  destruct (while fuel _ _ w) as [[[]| e |] w1] eqn:Ew.
  - rewrite (bind_Return _ _ _ _ _ Ew).
    clear Hloop Ew. generalize (clock w) as t0. intro t0. revert w1.
    apply (halts_bind (timedout t0 30));
      [apply steady_halts, steady_timedout|]. intro late.
    destruct late; [apply steady_halts, steady_logger|].
    apply halts_bind; [apply steady_halts, steady_gets|]. intros [old|];
      [|apply steady_halts, steady_raise].
    apply halts_bind;
      [apply steady_halts, steady_get_latest_data, Hcfg|]. intro mp4.
    apply halts_bind;
      [apply steady_halts, steady_get_latest_data, Hcfg|]. intro json.
    destruct mp4, json; apply steady_halts;
      try apply steady_raise.
    apply steady_bind; [apply steady_modify; reflexivity|].
    intro. apply steady_logger.
  - rewrite (bind_Raise _ _ _ _ _ Ew). discriminate.
  - exfalso. apply Hloop; [lia | | reflexivity].
    change (inject_Z (Z.of_nat 31)) with 31%Q. lra.
Qed.

Lemma gives_up_bind {A} (deadline : Q) (m : M A) (k : A -> M bool) :
  steady m ->
  (forall a, gives_up_after deadline (k a)) ->
  gives_up_after deadline (bind m k).
Proof.
  intros Hm Hk w. destruct (Hm w) as [Hh Hc].
  destruct (m w) as [[a| e |] w1] eqn:Em; simpl in Hh, Hc; [| |contradiction].
  - rewrite (bind_Return _ _ _ _ _ Em).
    destruct (Hk a w1) as (Hh1 & Hc1 & Hl1).
    split; [exact Hh1|]. split; [congruence|].
    intro Hlate. apply Hl1. now rewrite Hc.
  - rewrite (bind_Raise _ _ _ _ _ Em).
    repeat split; try discriminate. exact Hc.
Qed.

Lemma gives_up_deadline (t0 limit : Q) (busy : bool) :
  gives_up_after (t0 + limit)
    (if busy then (late <- timedout t0 limit ;; ret (negb late))
     else ret false).
Proof.
  intro w. destruct busy.
  - rewrite (bind_Return _ _ _ _ _ (timedout_eq t0 limit w)).
    unfold ret. cbn [fst snd].
    split; [discriminate|]. split; [reflexivity|].
    intros Hlate Htrue. rewrite negb_involutive in Htrue.
    injection Htrue as Htrue. apply Qle_bool_iff in Htrue. lra.
  - repeat split; discriminate.
Qed.

(** [ImageMVR.finalize()] ends whatever the device does: 11 rounds of the
    loop put the clock past the deadline of 10 seconds. *)
Lemma ImageMVR_finalize_halts (fuel : nat) :
  (12 <= fuel)%nat ->
  steady (ensure_config env ImageMVR) ->
  halts (finalize env ImageMVR fuel).
Proof.
  intros Hfuel Hcfg. cbn [finalize]. unfold ImageMVR_finalize.
  pose proof (fun g s => steady_get_latest_data ImageMVR g s Hcfg) as Hdata.
  pose proof (steady_is_ready_to_start ImageMVR) as Hready.
  apply halts_bind; [apply steady_halts, steady_logger|]. intros _ w.
  rewrite (bind_Return _ _ w w (clock w)) by reflexivity.
  match goal with
  | |- fst (bind (while fuel ?cond ?body) ?k w) <> Hang =>
      assert (Hcond : gives_up_after (clock w + 10) cond)
  end.
  { apply gives_up_bind; [apply steady_is_started|]. intro started.
    apply gives_up_bind; [|intro busy; apply gives_up_deadline].
    destruct started; [apply steady_ret|].
    apply steady_bind; [exact Hready|]. intro ready.
    destruct (negb ready); [apply steady_ret|].
    apply steady_bind; [apply Hdata|]. intro any.
    destruct (negb (truthy any)); [apply steady_ret|].
    apply steady_bind; [apply Hdata | intro; apply steady_ret]. }
  pose proof (while_gives_up _ _ Hcond 11 fuel w) as Hloop.
  destruct (while fuel _ _ w) as [[[]| e |] w1] eqn:Ew.
  - rewrite (bind_Return _ _ _ _ _ Ew).
    clear Hloop Ew Hcond. generalize (clock w) as t0. intro t0. revert w1.
    apply (halts_bind (timedout t0 10));
      [apply steady_halts, steady_timedout|]. intro late.
    destruct late; [apply steady_halts, steady_logger|].
    apply steady_halts.
    apply steady_bind; [apply steady_modify; intro w0|].
    { destruct (data_files w0) as [[|]|]; reflexivity. }
    intros _. apply steady_bind; [apply Hdata|]. intro new.
    apply steady_bind; [|intro; apply steady_logger].
    unfold data_files_extend.
    apply steady_bind; [apply steady_gets|]. intros [old|];
      [destruct new|]; try apply steady_raise.
    apply steady_modify. reflexivity.
  - rewrite (bind_Raise _ _ _ _ _ Ew). discriminate.
  - exfalso. apply Hloop; [lia | | reflexivity].
    change (inject_Z (Z.of_nat 11)) with 11%Q. lra.
Qed.

(** The classes with a [finalize] are the five that wait without a
    deadline and the two that carry one. *)
Lemma Finalizable_split (c : Cls) :
  Finalizable c = true ->
  waits_without_deadline c = true \/ c = ImageMVR \/ c = VideoMVR.
Proof. destruct c; simpl; intro H; try discriminate; auto. Qed.

Lemma finalize_with_deadline_halts (c : Cls) (fuel : nat) :
  c = ImageMVR \/ c = VideoMVR ->
  (32 <= fuel)%nat ->
  steady (ensure_config env c) ->
  halts (finalize env c fuel).
Proof.
  intros [-> | ->] Hfuel Hcfg.
  - apply ImageMVR_finalize_halts; [lia | exact Hcfg].
  - apply VideoMVR_finalize_halts; [lia | exact Hcfg].
Qed.

End Steady.

Lemma finalize_without_deadline_hangs_witness :
  fst (finalize stuck_recording Sync 1000
         (class_defaults 0 (Some ["srv"; "sync"]))) = Hang.
Proof.
  apply finalize_without_deadline_hangs; [reflexivity|].
  intros t cmds. exists "RECORDING". split; reflexivity.
Defined.

(** [VideoMVR.finalize()] on a camera that never stops recording: after 31
    seconds it returns with one warning and [data_files] as they were. *)
Example VideoMVR_finalize_times_out :
  exists w1 : World,
    finalize recording_mvr VideoMVR 32 video_started = (Return tt, w1) /\
    data_files w1 = data_files video_started /\
    (clock w1 == clock video_started + 31)%Q /\
    sent w1 = [mvr_start_record; mvr_stop_record] /\
    last (log w1) (DEBUG, "")
    = (WARNING, "Timed out waiting to finish processing").
Proof.
  eexists. split; [vm_compute; reflexivity|].
  repeat split.
Qed.

(** ** Status probes are read-only *)

Section ReadOnly.

Variable env : Env.

Lemma kept_refl (w : World) : kept w w.
Proof. repeat split. Qed.

Lemma kept_trans (w1 w2 w3 : World) : kept w1 w2 -> kept w2 w3 -> kept w1 w3.
Proof.
  unfold kept. intros (A1 & A2 & A3 & A4 & A5 & A6 & A7 & A8)
    (B1 & B2 & B3 & B4 & B5 & B6 & B7 & B8).
  repeat split; congruence.
Qed.

Lemma readonly_ret {A} (a : A) : readonly (ret a).
Proof. intro w. apply kept_refl. Qed.

Lemma readonly_raise {A} (c : ExcClass) (msg : string) :
  readonly (@raise A c msg).
Proof. intro w. apply kept_refl. Qed.

Lemma readonly_gets {A} (f : World -> A) : readonly (gets f).
Proof. intro w. apply kept_refl. Qed.

Lemma readonly_modify (f : World -> World) :
  (forall w, kept w (f w)) -> readonly (modify f).
Proof. intros H w. apply H. Qed.

Lemma readonly_logger (lvl : Level) (msg : string) : readonly (logger lvl msg).
Proof. intro w. repeat split. Qed.

Lemma readonly_time_sleep (secs : Q) : readonly (time_sleep secs).
Proof.
  unfold time_sleep. destruct (Qle_bool 0 secs); intro w; repeat split.
Qed.

Lemma readonly_bind {A B} (m : M A) (k : A -> M B) :
  readonly m -> (forall a, readonly (k a)) -> readonly (bind m k).
Proof.
  intros Hm Hk w. unfold bind. specialize (Hm w).
  destruct (m w) as [[a| e |] w1]; simpl in *; try exact Hm.
  eapply kept_trans; [exact Hm | apply Hk].
Qed.

Lemma readonly_mvr_read : readonly (mvr_read env).
Proof. intro w. repeat split. Qed.

Ltac readonly_step :=
  first
    [ apply readonly_ret | apply readonly_raise | apply readonly_gets
    | apply readonly_logger | apply readonly_mvr_read
    | apply readonly_time_sleep
    | match goal with
      | |- readonly (modify _) =>
          solve [apply readonly_modify; intro; repeat split]
      end
    | solve [auto]
    | apply readonly_bind; [| intro]
    | match goal with
      | |- readonly (if ?b then _ else _) => destruct b
      | |- readonly (match ?x with _ => _ end) => destruct x
      end ].

Ltac readonly_auto := repeat readonly_step.

Lemma readonly_get_camera_status (c : Cls) :
  readonly (get_camera_status env c).
Proof. unfold get_camera_status. readonly_auto. Qed.

Lemma readonly_MVR_is_connected (c : Cls) : readonly (MVR_is_connected env c).
Proof.
  unfold MVR_is_connected. apply readonly_bind; [apply readonly_gets|].
  intro link. destruct (negb (host_online link)); [readonly_auto|].
  destruct (negb (mvr_connected link)); [readonly_auto|].
  intro w. pose proof (readonly_get_camera_status c w) as H.
  destruct (get_camera_status env c w) as [[a| e |] w1]; simpl in *;
    try exact H.
  destruct (issubclass (exc_class e) ConnectionError); exact H.
Qed.

Lemma readonly_get_cameras_recording (c : Cls)
  (status : option (list Camera)) :
  readonly (get_cameras_recording env c status).
Proof.
  pose proof (readonly_get_camera_status c).
  unfold get_cameras_recording. readonly_auto.
Qed.

Lemma readonly_get_state (c : Cls) : readonly (get_state env c).
Proof.
  pose proof (readonly_get_camera_status c).
  pose proof (readonly_MVR_is_connected c).
  pose proof (readonly_get_cameras_recording c).
  unfold get_state, MVR_get_state.
  destruct (is_mvr c); [|apply readonly_gets].
  apply readonly_bind; [assumption|]. intro connected.
  destruct (negb connected); [apply readonly_ret|].
  apply readonly_bind; [assumption|]. intro status.
  destruct (existsb _ status); [apply readonly_ret|].
  destruct (existsb _ status); [apply readonly_ret|].
  apply readonly_bind; [auto|]. intro rec.
  destruct rec; apply readonly_ret.
Qed.

Lemma readonly_is_started (c : Cls) : readonly (is_started env c).
Proof.
  pose proof readonly_get_state as Hs.
  unfold is_started, CamstimSyncShared_is_started, ImageMVR_is_started,
    VideoMVR_is_started.
  destruct c; cbv iota; readonly_auto.
Qed.

Lemma readonly_is_ready_to_start (c : Cls) :
  readonly (is_ready_to_start env c).
Proof.
  pose proof readonly_get_state as Hs.
  pose proof readonly_is_started as Hi.
  pose proof readonly_get_camera_status as Hc.
  unfold is_ready_to_start, CamstimSyncShared_is_ready_to_start,
    MVR_is_ready_to_start.
  destruct c; cbv iota; readonly_auto.
Qed.

(** X1. Asking a device for its state never commands it: [get_state()],
    [is_started()] and [is_ready_to_start()], of every class and on every
    device, end (with a value or an exception), leave the clock where it
    was, send nothing, and leave [latest_start], [data_files], the data root
    and the recording profile as they were. *)
Theorem probes_are_read_only (c : Cls) :
  (steady (get_state env c) /\ readonly (get_state env c)) /\
  (steady (is_started env c) /\ readonly (is_started env c)) /\
  (steady (is_ready_to_start env c) /\ readonly (is_ready_to_start env c)).
Proof.
  repeat split;
    first [ apply steady_get_state | apply readonly_get_state
          | apply steady_is_started | apply readonly_is_started
          | apply steady_is_ready_to_start
          | apply readonly_is_ready_to_start ].
Qed.

End ReadOnly.

(** ** How long finalize() with a deadline can take *)

Section Deadlines.

Variable env : Env.

Local Open Scope Q_scope.

Lemma steady_within {A} (m : M A) : steady m -> within 0 m.
Proof.
  intros H w. destruct (H w) as [Hh Hc]. split; [exact Hh|].
  rewrite Hc. split; lra.
Qed.

Lemma within_bind {A B} (a b d : Q) (m : M A) (k : A -> M B) :
  within a m -> (forall x, within b (k x)) -> 0 <= b -> a + b <= d ->
  within d (bind m k).
Proof.
  intros Hm Hk Hb Hd w. unfold bind. destruct (Hm w) as (Hh & Hlo & Hhi).
  destruct (m w) as [[x| e |] w1]; simpl in *.
  - destruct (Hk x w1) as (Hh1 & Hlo1 & Hhi1).
    split; [exact Hh1|]. split; lra.
  - split; [discriminate|]. split; lra.
  - contradiction.
Qed.

Lemma while_gives_up_by (deadline : Q) (cond : M bool) :
  gives_up_after deadline cond ->
  forall (k fuel : nat) (w : World),
    (k < fuel)%nat ->
    deadline + 1 - inject_Z (Z.of_nat k) <= clock w ->
    clock w <= deadline + 1 ->
    fst (while fuel cond
           (logger DEBUG "Waiting to finish processing" ;; time_sleep 1) w)
    <> Hang /\
    clock w
    <= clock (snd (while fuel cond
                     (logger DEBUG "Waiting to finish processing" ;;
                      time_sleep 1) w)) /\
    clock (snd (while fuel cond
                  (logger DEBUG "Waiting to finish processing" ;;
                   time_sleep 1) w))
    <= deadline + 1.
Proof.
  intros Hcond k. induction k as [|k IH]; intros fuel w Hfuel Hclock Hup;
    (destruct fuel as [|n]; [lia|]); cbn [while];
    destruct (Hcond w) as (Hh & Hc & Hlate);
    destruct (cond w) as [[[]| e |] w1] eqn:Ew; simpl in Hh, Hc, Hlate;
    try contradiction;
    try (rewrite (bind_Return _ _ _ _ _ Ew); cbn [fst snd ret];
         rewrite Hc; split; [discriminate | split; lra]);
    try (rewrite (bind_Raise _ _ _ _ _ Ew); cbn [fst snd];
         rewrite Hc; split; [discriminate | split; lra]).
  - exfalso. apply Hlate; [|reflexivity].
    change (inject_Z (Z.of_nat 0)) with 0 in Hclock. lra.
  - rewrite (bind_Return _ _ _ _ _ Ew). cbv iota.
    destruct (waiting_step w1) as (w2 & Ebody & Hc2).
    rewrite (bind_Return _ _ _ _ _ Ebody).
    assert (Hle : clock w <= deadline).
    { apply Qnot_lt_le. intro Hlt. now apply Hlate. }
    rewrite Nat2Z.inj_succ in Hclock. unfold Z.succ in Hclock.
    rewrite inject_Z_plus in Hclock.
    change (inject_Z 1) with 1 in Hclock.
    destruct (IH n w2) as (Hh2 & Hlo2 & Hhi2);
      [lia | rewrite Hc2, Hc; lra | rewrite Hc2, Hc; lra|].
    split; [exact Hh2|]. rewrite Hc2, Hc in Hlo2. split; lra.
Qed.

Lemma VideoMVR_finalize_within (fuel : nat) :
  (32 <= fuel)%nat ->
  steady (ensure_config env VideoMVR) ->
  within 31 (finalize env VideoMVR fuel).
Proof.
  intros Hfuel Hcfg. cbn [finalize]. unfold VideoMVR_finalize.
  apply (within_bind 0 31); [apply steady_within, steady_logger| |lra|lra].
  intros _.
  apply (within_bind 0 31);
    [apply steady_within, steady_is_started| |lra|lra].
  intro started.
  apply (within_bind 0 31); [| |lra|lra].
  { destruct started; apply steady_within;
      [apply steady_stop | apply steady_ret]. }
  intros _ w.
  rewrite (bind_Return _ _ w w (clock w)) by reflexivity.
  destruct (while_gives_up_by _ _ (VideoMVR_wait_gives_up env (clock w))
              31 fuel w) as (Hh & Hlo & Hhi);
    [lia | change (inject_Z (Z.of_nat 31)) with 31; lra | lra |].
  destruct (while fuel _ _ w) as [[[]| e |] w1] eqn:Ew;
    cbn [fst snd] in Hh, Hlo, Hhi; [| |contradiction].
  - rewrite (bind_Return _ _ _ _ _ Ew).
    match goal with
    | |- fst (?r w1) <> Hang /\ _ => assert (Hrest : steady r)
    end.
    { apply steady_bind; [apply steady_timedout|]. intro late.
      destruct late; [apply steady_logger|].
      apply steady_bind; [apply steady_gets|]. intros [old|];
        [|apply steady_raise].
      apply steady_bind; [apply steady_get_latest_data, Hcfg|]. intro mp4.
      apply steady_bind; [apply steady_get_latest_data, Hcfg|]. intro json.
      destruct mp4, json; try apply steady_raise.
      apply steady_bind; [apply steady_modify; reflexivity|].
      intro. apply steady_logger. }
    destruct (Hrest w1) as [Hh1 Hc1].
    split; [exact Hh1|]. rewrite Hc1. split; lra.
  - rewrite (bind_Raise _ _ _ _ _ Ew). cbn [fst snd].
    split; [discriminate|]. split; lra.
Qed.

Lemma ImageMVR_finalize_within (fuel : nat) :
  (12 <= fuel)%nat ->
  steady (ensure_config env ImageMVR) ->
  within 11 (finalize env ImageMVR fuel).
Proof.
  intros Hfuel Hcfg. cbn [finalize]. unfold ImageMVR_finalize.
  pose proof (fun g s => steady_get_latest_data env ImageMVR g s Hcfg)
    as Hdata.
  pose proof (steady_is_ready_to_start env ImageMVR) as Hready.
  apply (within_bind 0 11); [apply steady_within, steady_logger| |lra|lra].
  intros _ w.
  rewrite (bind_Return _ _ w w (clock w)) by reflexivity.
  match goal with
  | |- fst (bind (while fuel ?cond ?body) ?k w) <> Hang /\ _ =>
      assert (Hcond : gives_up_after (clock w + 10) cond)
  end.
  { apply gives_up_bind; [apply steady_is_started|]. intro started.
    apply gives_up_bind; [|intro busy; apply gives_up_deadline].
    destruct started; [apply steady_ret|].
    apply steady_bind; [exact Hready|]. intro ready.
    destruct (negb ready); [apply steady_ret|].
    apply steady_bind; [apply Hdata|]. intro any.
    destruct (negb (truthy any)); [apply steady_ret|].
    apply steady_bind; [apply Hdata | intro; apply steady_ret]. }
  destruct (while_gives_up_by _ _ Hcond 11 fuel w) as (Hh & Hlo & Hhi);
    [lia | change (inject_Z (Z.of_nat 11)) with 11; lra | lra |].
  destruct (while fuel _ _ w) as [[[]| e |] w1] eqn:Ew;
    cbn [fst snd] in Hh, Hlo, Hhi; [| |contradiction].
  - rewrite (bind_Return _ _ _ _ _ Ew).
    match goal with
    | |- fst (?r w1) <> Hang /\ _ => assert (Hrest : steady r)
    end.
    { apply steady_bind; [apply steady_timedout|]. intro late.
      destruct late; [apply steady_logger|].
      apply steady_bind; [apply steady_modify; intro w0|].
      { destruct (data_files w0) as [[|]|]; reflexivity. }
      intros _. apply steady_bind; [apply Hdata|]. intro new.
      apply steady_bind; [|intro; apply steady_logger].
      unfold data_files_extend.
      apply steady_bind; [apply steady_gets|]. intros [old|];
        [destruct new|]; try apply steady_raise.
      apply steady_modify. reflexivity. }
    destruct (Hrest w1) as [Hh1 Hc1].
    split; [exact Hh1|]. rewrite Hc1. split; lra.
  - rewrite (bind_Raise _ _ _ _ _ Ew). cbn [fst snd].
    split; [discriminate|]. split; lra.
Qed.

(** X2. [VideoMVR.finalize()] and [ImageMVR.finalize()] always come back,
    with a value or an exception, whatever the device does: the wait loop
    makes at most 31 rounds (11 for [ImageMVR]), so the call sleeps for at
    most 31 seconds (11 seconds) in all. *)
Theorem finalize_with_deadline_bounded (fuel : nat) (w : World) :
  (32 <= fuel)%nat ->
  steady (ensure_config env VideoMVR) ->
  steady (ensure_config env ImageMVR) ->
  (fst (finalize env VideoMVR fuel w) <> Hang /\
   clock w <= clock (snd (finalize env VideoMVR fuel w)) /\
   clock (snd (finalize env VideoMVR fuel w)) <= clock w + 31) /\
  (fst (finalize env ImageMVR fuel w) <> Hang /\
   clock w <= clock (snd (finalize env ImageMVR fuel w)) /\
   clock (snd (finalize env ImageMVR fuel w)) <= clock w + 11).
Proof.
  intros Hfuel Hv Hi. split.
  - apply VideoMVR_finalize_within; [exact Hfuel | exact Hv].
  - apply ImageMVR_finalize_within; [lia | exact Hi].
Qed.

End Deadlines.

Lemma steady_configured (c : Cls) :
  steady (ensure_config recording_mvr c).
Proof. intro w. split; [discriminate | reflexivity]. Qed.

Lemma finalize_with_deadline_bounded_witness :
  (clock (snd (finalize recording_mvr VideoMVR 32 video_started))
   <= clock video_started + 31)%Q /\
  (clock (snd (finalize recording_mvr ImageMVR 32 video_started))
   <= clock video_started + 11)%Q.
Proof.
  destruct (finalize_with_deadline_bounded recording_mvr 32 video_started
              (Nat.le_refl 32) (steady_configured VideoMVR)
              (steady_configured ImageMVR))
    as ((_ & _ & Hv) & (_ & _ & Hi)).
  split; [exact Hv | exact Hi].
Defined.

(** ** finalize() on a recorder that never gets ready *)

Section TimedOut.

Variable env : Env.

Local Open Scope Q_scope.

Lemma readonly_waiting :
  readonly (logger DEBUG "Waiting to finish processing" ;; time_sleep 1).
Proof.
  apply readonly_bind; [apply readonly_logger|].
  intro. apply readonly_time_sleep.
Qed.

Lemma wait_out (deadline : Q) (cond : M bool) :
  (forall w, exists w',
      cond w = (Return (Qle_bool (clock w) deadline), w') /\
      clock w' = clock w /\ kept w w') ->
  forall (k fuel : nat) (w : World),
    (k < fuel)%nat ->
    deadline + 1 - inject_Z (Z.of_nat k) <= clock w ->
    clock w <= deadline + 1 ->
    exists w1 : World,
      while fuel cond
        (logger DEBUG "Waiting to finish processing" ;; time_sleep 1) w
      = (Return tt, w1) /\
      kept w w1 /\ deadline < clock w1 /\ clock w1 <= deadline + 1.
Proof.
  intros Hcond k. induction k as [|k IH]; intros fuel w Hfuel Hclock Hup;
    (destruct fuel as [|n]; [lia|]); cbn [while];
    destruct (Hcond w) as (w' & Ew & Hc & Hk);
    rewrite (bind_Return _ _ _ _ _ Ew);
    destruct (Qle_bool (clock w) deadline) eqn:Hle.
  - apply Qle_bool_iff in Hle.
    change (inject_Z (Z.of_nat 0)) with 0 in Hclock. lra.
  - exists w'. split; [reflexivity|]. split; [exact Hk|].
    rewrite Hc. change (inject_Z (Z.of_nat 0)) with 0 in Hclock.
    split; lra.
  - apply Qle_bool_iff in Hle.
    destruct (waiting_step w') as (w2 & Ebody & Hc2).
    rewrite (bind_Return _ _ _ _ _ Ebody).
    pose proof (readonly_waiting w') as Hk2. rewrite Ebody in Hk2.
    rewrite Nat2Z.inj_succ in Hclock. unfold Z.succ in Hclock.
    rewrite inject_Z_plus in Hclock.
    change (inject_Z 1) with 1 in Hclock.
    destruct (IH n w2) as (w1 & E1 & Hk1 & Hlo & Hhi);
      [lia | rewrite Hc2, Hc; lra | rewrite Hc2, Hc; lra|].
    exists w1. split; [exact E1|]. split; [|split; assumption].
    eapply kept_trans; [exact Hk|]. eapply kept_trans; [exact Hk2|exact Hk1].
  - exists w'. split; [reflexivity|]. split; [exact Hk|].
    rewrite Hc. split; [|exact Hup].
    apply Qnot_le_lt. intro H. apply Qle_bool_iff in H. congruence.
Qed.

(** X3. When the cameras never get ready to start, [VideoMVR.finalize()]
    gives up instead of raising: it returns normally, its last log entry is
    the time-out warning, [data_files] and [latest_start] are as before,
    and the only command it may have sent is [stop_record]. *)
Theorem VideoMVR_finalize_timeout (fuel : nat) (w : World) :
  (32 <= fuel)%nat ->
  (forall w', fst (is_ready_to_start env VideoMVR w') = Return false) ->
  exists w1 : World,
    finalize env VideoMVR fuel w = (Return tt, w1) /\
    data_files w1 = data_files w /\
    latest_start w1 = latest_start w /\
    last (log w1) (DEBUG, ""%string)
    = (WARNING, "Timed out waiting to finish processing"%string) /\
    (sent w1 = sent w \/ sent w1 = (sent w ++ [mvr_stop_record])%list).
Proof.
  intros Hfuel Hnever. cbn [finalize]. unfold VideoMVR_finalize.
  set (w0 := with_log (log w ++ [(DEBUG, "Finalizing"%string)]) w).
  rewrite (bind_Return _ _ w w0 tt) by reflexivity.
  (* is_started answers, since is_ready_to_start does *)
  destruct (steady_is_started env VideoMVR w0) as [_ Hca].
  pose proof (readonly_is_started env VideoMVR w0) as Hka.
  destruct (is_started env VideoMVR w0) as [[started| e |] wa] eqn:Est;
    cbn [snd] in Hca, Hka.
  2,3: exfalso; specialize (Hnever w0); cbn [is_ready_to_start] in Hnever;
       unfold MVR_is_ready_to_start in Hnever;
       first [ rewrite (bind_Raise _ _ _ _ _ Est) in Hnever
             | rewrite (bind_Hang _ _ _ _ Est) in Hnever ];
       discriminate.
  rewrite (bind_Return _ _ _ _ _ Est).
  set (wb := if started then with_sent (sent wa ++ [mvr_stop_record]) wa
             else wa).
  rewrite (bind_Return _ _ wa wb tt) by (destruct started; reflexivity).
  assert (Hb : clock wb = clock w /\ data_files wb = data_files w /\
               latest_start wb = latest_start w /\
               (sent wb = sent w \/ sent wb = (sent w ++ [mvr_stop_record])%list)).
  { destruct Hka as (Hs & Hl & Hd & _).
    unfold wb. destruct started; cbn; rewrite ?Hca, ?Hs, ?Hl, ?Hd;
      (split; [reflexivity|]); (split; [reflexivity|]);
      (split; [reflexivity|]); [right | left]; reflexivity. }
  destruct Hb as (Hcb & Hdb & Hlb & Hsb).
  rewrite (bind_Return _ _ wb wb (clock wb)) by reflexivity.
  destruct (wait_out (clock wb + 30)
              (ready <- is_ready_to_start env VideoMVR ;;
               if negb ready
               then (late <- timedout (clock wb) 30 ;; ret (negb late))
               else ret false)
              ) with (k := 31%nat) (fuel := fuel) (w := wb)
    as (w1 & Eloop & Hk1 & Hlo & Hhi).
  { intro w'. destruct (steady_is_ready_to_start env VideoMVR w') as [_ Hc'].
    pose proof (readonly_is_ready_to_start env VideoMVR w') as Hk'.
    specialize (Hnever w').
    destruct (is_ready_to_start env VideoMVR w') as [o w''] eqn:Er.
    cbn [fst snd] in *. subst o.
    exists w''. rewrite (bind_Return _ _ _ _ _ Er). cbn [negb].
    rewrite (bind_Return _ _ _ _ _ (timedout_eq (clock wb) 30 w'')).
    unfold ret. rewrite negb_involutive, Hc'.
    split; [reflexivity|]. split; [reflexivity | exact Hk']. }
  { lia. }
  { change (inject_Z (Z.of_nat 31)) with 31. lra. }
  { lra. }
  rewrite (bind_Return _ _ _ _ _ Eloop).
  rewrite (bind_Return _ _ _ _ _ (timedout_eq (clock wb) 30 w1)).
  assert (Hlate : Qle_bool (clock w1) (clock wb + 30) = false).
  { destruct (Qle_bool (clock w1) (clock wb + 30)) eqn:E; [|reflexivity].
    apply Qle_bool_iff in E. lra. }
  rewrite Hlate. cbn [negb].
  destruct Hk1 as (Hs1 & Hl1 & Hd1 & _).
  eexists. split; [reflexivity|]. cbn.
  rewrite Hd1, Hl1, Hs1, last_last.
  repeat split; assumption.
Qed.

End TimedOut.

Lemma VideoMVR_finalize_timeout_witness :
  exists w1 : World,
    finalize recording_mvr VideoMVR 40 video_started = (Return tt, w1) /\
    data_files w1 = data_files video_started /\
    last (log w1) (DEBUG, ""%string)
    = (WARNING, "Timed out waiting to finish processing"%string).
Proof.
  destruct (VideoMVR_finalize_timeout recording_mvr 40 video_started)
    as (w1 & E & Hd & _ & Hlog & _).
  - lia.
  - intro w'. reflexivity.
  - exists w1. repeat split; assumption.
Defined.

(** ** stop_on_error when the body raises *)

(** X4. [stop_on_error] refuses an object without [stop()] with a
    [TypeError] before the body runs.  For an object with [stop()], when the
    body raises an [Exception] it stores the exception in [obj.exc], sends
    the stop command of the class, and then raises the same exception again
    if [reraise] is true and ends normally if it is false; an exception
    outside [Exception] (a [KeyboardInterrupt]) passes through with no
    [stop()] at all. *)
Theorem stop_on_error_on_exception (obj : Cls) (reraise_ : bool)
  (body : M unit) (w : World) :
  (Stoppable obj = false ->
   stop_on_error stop obj reraise_ body w
   = (Raise (mkExc TypeError "does not support stop()"), w)) /\
  (Stoppable obj = true ->
   forall (e : Exc) (w1 : World),
     body w = (Raise e, w1) ->
     (issubclass (exc_class e) Exception = false ->
      stop_on_error stop obj reraise_ body w = (Raise e, w1)) /\
     (issubclass (exc_class e) Exception = true ->
      exists w2 : World,
        stop_on_error stop obj reraise_ body w
        = ((if reraise_ then Raise e else Return tt), w2) /\
        exc w2 = Some e /\
        sent w2 = sent w1 ++ stop_commands obj /\
        clock w2 = clock w1 /\
        latest_start w2 = latest_start w1)).
Proof.
  split.
  - intro Hs. unfold stop_on_error. rewrite Hs. reflexivity.
  - intros Hs e w1 Hbody. unfold stop_on_error. rewrite Hs. cbn [negb].
    rewrite Hbody. split; intro Hexc; rewrite Hexc; [reflexivity|].
    destruct obj; try discriminate; destruct reraise_;
      (eexists; split; [reflexivity|]; cbn; rewrite ?app_nil_r;
       repeat split).
Qed.

Lemma stop_on_error_on_exception_witness :
  exists w2 : World,
    stop_on_error stop VideoMVR false
      (raise AssertionError "not started") video_started
    = (Return tt, w2) /\
    exc w2 = Some (mkExc AssertionError "not started") /\
    sent w2 = [mvr_start_record; mvr_stop_record].
Proof.
  destruct (stop_on_error_on_exception VideoMVR false
              (raise AssertionError "not started") video_started)
    as [_ H].
  destruct (H eq_refl (mkExc AssertionError "not started") video_started
              eq_refl) as [_ Hexc].
  destruct (Hexc eq_refl) as (w2 & E & He & Hs & _).
  exists w2. repeat split; assumption.
Defined.

(** ** The inherited start() *)

Section InheritedStart.

Variable env : Env.

(** X5. [CamstimSyncShared.start()], for the classes that inherit it with a
    [started_state] ([Sync], [Camstim], [Cam3d]), does one of three things,
    by what the device reports.  Already started: one warning, nothing sent,
    [latest_start] kept.  Neither started nor ready: an [AssertionError],
    nothing sent, [latest_start] kept.  Ready: [latest_start] becomes the
    current time and exactly one [start] is sent. *)
Theorem CamstimSyncShared_start_cases (c : Cls) (w : World)
  (msgs : list string) :
  shared_start c = true ->
  started_state c = Some msgs ->
  exists (o : Outcome unit) (w1 : World),
    start env c w = (o, w1) /\ clock w1 = clock w /\
    (shows_started msgs (proxy_state env (clock w) (sent w)) = true ->
     o = Return tt /\ sent w1 = sent w /\ latest_start w1 = latest_start w /\
     last (log w1) (DEBUG, ""%string)
     = (WARNING, "already started - should be stopped manually"%string)) /\
    (shows_started msgs (proxy_state env (clock w) (sent w)) = false ->
     shows_ready (proxy_state env (clock w) (sent w)) = false ->
     o = Raise (mkExc AssertionError "not ready to start") /\
     sent w1 = sent w /\ latest_start w1 = latest_start w) /\
    (shows_started msgs (proxy_state env (clock w) (sent w)) = false ->
     shows_ready (proxy_state env (clock w) (sent w)) = true ->
     o = Return tt /\ sent w1 = sent w ++ [proxy_start] /\
     latest_start w1 = Some (clock w)).
Proof.
  intros Hc Hs.
  destruct (shows_started msgs (proxy_state env (clock w) (sent w))) eqn:Hst;
    [|destruct (shows_ready (proxy_state env (clock w) (sent w))) eqn:Hrd].
  - rewrite (CamstimSyncShared_start_already_started env c w msgs Hc Hs Hst).
    do 2 eexists. split; [reflexivity|]. split; [reflexivity|].
    split; [|split; intros; discriminate].
    intros _. cbn.
    change [(DEBUG, "Starting"%string);
            (WARNING, "already started - should be stopped manually"%string)]
      with ([(DEBUG, "Starting"%string)]
            ++ [(WARNING,
                 "already started - should be stopped manually"%string)]).
    rewrite app_assoc, last_last. repeat split.
  - rewrite (CamstimSyncShared_start_ready env c w msgs Hc Hs Hst Hrd).
    do 2 eexists. split; [reflexivity|]. split; [reflexivity|].
    split; [intros; discriminate|]. split; [intros; discriminate|].
    intros _ _. repeat split.
  - rewrite (CamstimSyncShared_start_not_ready env c w msgs Hc Hs Hst Hrd).
    do 2 eexists. split; [reflexivity|]. split; [reflexivity|].
    split; [intros; discriminate|]. split; [|intros; discriminate].
    intros _ _. repeat split.
Qed.

(** X6. A class that inherits [is_started()] but declares no
    [started_state] ([CamstimSyncShared] itself, [Phidget],
    [MouseDirector]) cannot be asked whether it is started: whenever the
    device reports a state that is not empty, [is_started()] and
    [is_ready_to_start()] raise [AttributeError], and so does [start()],
    which sends nothing. *)
Theorem missing_started_state_AttributeError (c : Cls) (w : World) :
  zro_class c = true ->
  started_state c = None ->
  state_len (proxy_state env (clock w) (sent w)) <> 0%nat ->
  is_started env c w = (Raise (mkExc AttributeError "started_state"), w) /\
  is_ready_to_start env c w
  = (Raise (mkExc AttributeError "started_state"), w) /\
  exists w1 : World,
    start env c w = (Raise (mkExc AttributeError "started_state"), w1) /\
    sent w1 = sent w /\ latest_start w1 = latest_start w.
Proof.
  intros Hz Hs Hlen.
  assert (G : forall w0, get_state env c w0
                         = (Return (proxy_state env (clock w0) (sent w0)), w0))
    by (intro w0; destruct c; try discriminate; reflexivity).
  assert (Hst : forall w0,
             clock w0 = clock w -> sent w0 = sent w ->
             is_started env c w0
             = (Raise (mkExc AttributeError "started_state"), w0)).
  { intros w0 Hc0 Hs0.
    assert (E : is_started env c = CamstimSyncShared_is_started env c)
      by (destruct c; try discriminate; reflexivity).
    rewrite E. unfold CamstimSyncShared_is_started.
    rewrite (bind_Return _ _ _ _ _ (G w0)), Hs, Hc0, Hs0.
    apply Nat.eqb_neq in Hlen. rewrite Hlen. reflexivity. }
  split; [apply Hst; reflexivity|]. split.
  - assert (E : is_ready_to_start env c
                = CamstimSyncShared_is_ready_to_start env c)
      by (destruct c; try discriminate; reflexivity).
    rewrite E. unfold CamstimSyncShared_is_ready_to_start.
    apply bind_Raise. apply Hst; reflexivity.
  - assert (E : start env c = CamstimSyncShared_start env c)
      by (destruct c; try discriminate; reflexivity).
    rewrite E. unfold CamstimSyncShared_start.
    rewrite (bind_Return _ _ w (starting w) tt) by reflexivity.
    rewrite (bind_Raise _ _ _ _ _ (Hst (starting w) eq_refl eq_refl)).
    eexists. split; [reflexivity|]. split; reflexivity.
Qed.

End InheritedStart.

Lemma CamstimSyncShared_start_cases_witness :
  exists w1 : World,
    start sync_box Sync (class_defaults 1000 (Some ["srv"; "sync"]))
    = (Return tt, w1) /\
    sent w1 = [proxy_start] /\ latest_start w1 = Some 1000%Q.
Proof.
  destruct (CamstimSyncShared_start_cases sync_box Sync
              (class_defaults 1000 (Some ["srv"; "sync"]))
              ["BUSY"; "RECORDING"]%string eq_refl eq_refl)
    as (o & w1 & E & _ & _ & _ & Hready).
  destruct (Hready eq_refl eq_refl) as (-> & Hs & Hl).
  exists w1. repeat split; assumption.
Defined.

Lemma missing_started_state_AttributeError_witness :
  exists w1 : World,
    start ready_device Phidget (class_defaults 1000 None)
    = (Raise (mkExc AttributeError "started_state"), w1) /\
    sent w1 = [].
Proof.
  destruct (missing_started_state_AttributeError ready_device Phidget
              (class_defaults 1000 None) eq_refl eq_refl)
    as (_ & _ & w1 & E & Hs & _).
  - discriminate.
  - exists w1. split; assumption.
Defined.

(** ** Patterns without wildcards *)

Section Literal.

Variable env : Env.

Lemma glob_chars_literal (pat s : list ascii) :
  (forall ch, In ch pat ->
              Ascii.eqb ch "*" = false /\ Ascii.eqb ch "?" = false) ->
  Str.glob_chars pat s = true <-> s = pat.
Proof.
  revert s. induction pat as [|c pat IH]; intros s Hlit.
  - destruct s; simpl; split; congruence.
  - destruct (Hlit c (or_introl eq_refl)) as [Hstar Hq].
    cbn [Str.glob_chars]. rewrite Hstar, Hq.
    destruct s as [|d s]; [split; discriminate|].
    rewrite andb_true_iff, Ascii.eqb_eq, IH
      by (intros ch Hch; apply Hlit; now right).
    split; [intros [-> ->]; reflexivity | intro H; injection H; auto].
Qed.

Lemma fnmatch_literal (name pattern : string) :
  literal pattern -> Str.fnmatch name pattern = true <-> name = pattern.
Proof.
  intro Hlit. unfold Str.fnmatch.
  rewrite glob_chars_literal.
  2:{ intros ch Hch. specialize (Hlit ch Hch). cbn [existsb] in Hlit.
      apply orb_false_iff in Hlit as [Hstar Hlit].
      apply orb_false_iff in Hlit as [Hq _]. now split. }
  unfold Str.chars. split; [|congruence].
  intro H. rewrite <- (string_of_list_ascii_of_string name),
             <- (string_of_list_ascii_of_string pattern).
  now rewrite H.
Qed.

Lemma glob_in_literal (dir : Path) (pattern : string) (fs : list DirEntry)
  (f : Path) :
  literal pattern -> In f (glob_in dir pattern fs) -> PurePath.name f = pattern.
Proof.
  intros Hlit Hin. unfold glob_in in Hin. apply in_map_iff in Hin.
  destruct Hin as (e & <- & He). apply filter_In in He as [_ He].
  apply andb_true_iff in He as [_ He]. now apply fnmatch_literal.
Qed.

Lemma max_by_In {A} (key : A -> Q) (l : list A) (x : A) :
  max_by key l = Some x -> In x l.
Proof.
  revert x. induction l as [|y l IH]; intros x H; [discriminate|].
  simpl in H. destruct (max_by key l) as [z|].
  - destruct (Qle_bool (key z) (key y)); injection H as <-;
      [now left | right; now apply IH].
  - injection H as <-. now left.
Qed.

Lemma mapM_fst {A B} (g : A -> M (A * B)) (l : list A)
  (keyed : list (A * B)) (w w1 : World) :
  (forall x wa y wb, g x wa = (Return y, wb) -> fst y = x) ->
  mapM g l w = (Return keyed, w1) ->
  map fst keyed = l.
Proof.
  intro Hg. revert keyed w w1.
  induction l as [|x l IH]; intros keyed w w1 H.
  - injection H as <- _. reflexivity.
  - simpl in H. unfold bind at 1 in H.
    destruct (g x w) as [[y| e |] wa] eqn:Ey; try discriminate.
    unfold bind at 1 in H.
    destruct (mapM g l wa) as [[ys| e |] wb] eqn:E; try discriminate.
    injection H as <- _. simpl. f_equal.
    + eapply Hg. exact Ey.
    + eapply IH. exact E.
Qed.

Lemma max_mtime_In (files : list Path) (w w1 : World) (p : Path) :
  max_mtime env files w = (Return p, w1) -> In p files.
Proof.
  unfold max_mtime. intro H. unfold bind at 1 in H.
  destruct (mapM _ files w) as [[keyed| e |] wa] eqn:E; try discriminate.
  destruct (max_by snd keyed) as [fk|] eqn:Emax; [|discriminate].
  injection H as <- _.
  apply mapM_fst in E.
  - rewrite <- E. apply in_map. now apply max_by_In in Emax.
  - intros x wb y wc Hy. unfold bind in Hy.
    destruct (stat env x wb) as [[e0| e0 |] wd]; try discriminate.
    injection Hy as <- _. reflexivity.
Qed.

(** X7. A pattern that is one plain name (not empty, without the wildcard
    characters "*", "?" and "[", and without a path separator) matches
    that name only: every path that [get_latest_data] returns for such a
    pattern has that very name.  So the call [get_latest_data(".bmp")] of
    [ImageMVR.finalize] can only see a file whose whole name is ".bmp",
    never a snapshot such as "snap.bmp". *)
Theorem get_latest_data_literal_pattern (c : Cls) (pattern : string)
  (subfolders : string) (w w1 : World) (files : list Path) :
  literal pattern ->
  pattern <> ""%string ->
  get_latest_data env c (Some pattern) subfolders w
  = (Return (Some files), w1) ->
  forall f : Path, In f files -> PurePath.name f = pattern.
Proof.
  intros Hlit Hne H f Hf. unfold get_latest_data in H.
  unfold bind at 1 in H.
  destruct (ensure_config env c w) as [[[]| e |] wa]; try discriminate.
  unfold bind at 1, gets at 1 in H.
  destruct (data_root wa) as [root|]; [|discriminate].
  destruct pattern as [|a pattern]; [contradiction|].
  unfold bind at 1, gets at 1 in H.
  destruct (latest_start wa) as [t|].
  - rewrite (bind_Return _ _ _ _ _ (get_files_created_between_eq env _ _ _ _ wa))
      in H.
    injection H as <- _.
    apply (Permutation_in _ (sorted_by_perm _ _)) in Hf.
    apply filter_In in Hf as [Hf _].
    eapply glob_in_literal; [exact Hlit | exact Hf].
  - rewrite (bind_Return _ _ _ _ _ (get_files_created_between_eq env _ _ _ _ wa))
      in H.
    unfold bind at 1 in H.
    destruct (max_mtime env _ wa) as [[newest| e |] wb] eqn:Em;
      try discriminate.
    injection H as <- _. destruct Hf as [<-|[]].
    apply max_mtime_In in Em.
    apply (Permutation_in _ (sorted_by_perm _ _)) in Em.
    apply filter_In in Em as [Em _].
    eapply glob_in_literal; [exact Hlit | exact Em].
Qed.

End Literal.

Lemma literal_bmp : literal ".bmp".
Proof.
  intros ch [<-|[<-|[<-|[<-|[]]]]]; reflexivity.
Qed.

Lemma get_latest_data_literal_pattern_witness :
  get_latest_data bmp_files ImageMVR (Some ".bmp"%string) ""
    (class_defaults 2000 (Some ["srv"; "mvr"]))
  = (Return (Some [["srv"; "mvr"; ".bmp"]%string]),
     class_defaults 2000 (Some ["srv"; "mvr"])) /\
  PurePath.name ["srv"; "mvr"; ".bmp"]%string = ".bmp"%string.
Proof.
  split; [reflexivity|].
  apply (get_latest_data_literal_pattern bmp_files ImageMVR ".bmp" ""
           (class_defaults 2000 (Some ["srv"; "mvr"]))
           (class_defaults 2000 (Some ["srv"; "mvr"]))
           [["srv"; "mvr"; ".bmp"]%string] literal_bmp).
  - discriminate.
  - reflexivity.
  - now left.
Defined.

(** ** What the disk preflight does not catch *)

Section DiskErrors.

Variable site : Site.
Variable env : Env.
Hypothesis Hsource : runs_source_config site env.

(** X8. On a machine that runs the [ensure_config] of the source,
    [is_disk_space_ok()] fails closed on the [FileNotFoundError] of
    [disk_usage] only.  When space is required, a class of the Camstim
    family (whose [ensure_config] passes over a missing data root) with
    no data root and no entry in [CONFIG] raises the [TypeError] of
    [free_gb(None)]; and for a class whose data root is in place, another
    error of [disk_usage] (a [PermissionError], say) is raised to the
    caller and [cls.exc] is left as it was. *)
Theorem is_disk_space_ok_other_errors (c : Cls) (w : World) :
  Startable c = true ->
  float_is_zero (float_round1 (float_mul (min_rec_hr w) (gb_per_hr w)))
  = false ->
  (mkdir_guarded c = true ->
   data_root w = None ->
   no_config c w ->
   is_disk_space_ok env c w
   = (Raise (mkExc TypeError "expected str, bytes or os.PathLike object"),
      w)) /\
  (forall (root : Path) (cl : ExcClass),
      settled site env c w ->
      data_root w = Some root ->
      disk_free env (unc_to_local env root) = inl cl ->
      issubclass cl FileNotFoundError = false ->
      exists w2 : World,
        is_disk_space_ok env c w = (Raise (mkExc cl "disk_usage"), w2) /\
        exc w2 = exc w).
Proof.
  intros Hs Hnz.
  assert (Hr : ensure_config env c w = (Return tt, w) ->
               get_required_disk_gb env c w
               = (Return (float_round1
                            (float_mul (min_rec_hr w) (gb_per_hr w))), w)).
  { intro Hcfg. rewrite (get_required_disk_gb_eq env c w w Hcfg), Hs.
    reflexivity. }
  split.
  - intros Hg Hroot Hcfg.
    assert (E : ensure_config env c w = (Return tt, w)).
    { rewrite Hsource, (cls_ensure_config_no_root site env c w Hroot Hcfg), Hg.
      reflexivity. }
    unfold is_disk_space_ok.
    rewrite (bind_Return _ _ _ _ _ (Hr E)), Hnz.
    unfold bind at 1, gets at 1. rewrite Hroot. reflexivity.
  - intros root cl Hset Hroot Hdisk Hcl.
    assert (E : ensure_config env c w = (Return tt, w)).
    { rewrite Hsource. now apply cls_ensure_config_settled. }
    rewrite (is_disk_space_ok_unfold env c w w _ root (Hr E) Hnz Hroot).
    rewrite Hdisk, Hcl. eexists. split; reflexivity.
Qed.

End DiskErrors.

Lemma is_disk_space_ok_other_errors_witness :
  is_disk_space_ok (on_site (plain_site "w10dt") locked_disk) Camstim
    (class_defaults 0 None)
  = (Raise (mkExc TypeError "expected str, bytes or os.PathLike object"),
     class_defaults 0 None) /\
  exists w2 : World,
    is_disk_space_ok
      (on_site (plain_site "w10dt")
         (mkEnv (fun _ _ => StateTuple "READY" "") (fun _ _ => no_cameras)
            (fun _ _ => [])
            (fun _ _ => [mkEntry ["//"; "w10dt"; "sync"]%string true 0 0 0])
            (fun _ => inl PermissionError) "linux" (fun p => p)
            (fun _ => ret tt)))
      Sync (class_defaults 0 (Some ["//"; "w10dt"; "sync"]%string))
    = (Raise (mkExc PermissionError "disk_usage"), w2) /\
    exc w2 = None.
Proof.
  split.
  - destruct (is_disk_space_ok_other_errors (plain_site "w10dt")
                (on_site (plain_site "w10dt") locked_disk)
                (fun c w => eq_refl) Camstim (class_defaults 0 None)
                eq_refl) as [H _].
    + vm_compute. reflexivity.
    + apply H; [reflexivity | reflexivity | split; reflexivity].
  - destruct (is_disk_space_ok_other_errors (plain_site "w10dt")
                (on_site (plain_site "w10dt")
                   (mkEnv (fun _ _ => StateTuple "READY" "")
                      (fun _ _ => no_cameras) (fun _ _ => [])
                      (fun _ _ =>
                         [mkEntry ["//"; "w10dt"; "sync"]%string true 0 0 0])
                      (fun _ => inl PermissionError) "linux" (fun p => p)
                      (fun _ => ret tt)))
                (fun c w => eq_refl) Sync
                (class_defaults 0 (Some ["//"; "w10dt"; "sync"]%string))
                eq_refl) as [_ H].
    + vm_compute. reflexivity.
    + apply (H ["//"; "w10dt"; "sync"]%string PermissionError);
        try reflexivity.
      exists ["//"; "w10dt"; "sync"]%string,
             (mkEntry ["//"; "w10dt"; "sync"]%string true 0 0 0).
      repeat split; try reflexivity. now left.
Defined.

(** ** finalize() on a ready device *)

Section Collect.

Variable site : Site.
Variable env : Env.

Lemma snapshot_same (w w1 : World) :
  same_site w w1 -> snapshot env w1 = snapshot env w.
Proof. intros (Hc & Hs & Hm & _). unfold snapshot. now rewrite Hc, Hs, Hm. Qed.

Lemma window_files_same (dir : Path) (pattern : string) (t : Q)
  (w w1 : World) :
  same_site w w1 ->
  window_files env dir pattern t w1 = window_files env dir pattern t w.
Proof.
  intro H. unfold window_files.
  rewrite (snapshot_same w w1 H). destruct H as (Hc & _). now rewrite Hc.
Qed.

Lemma settled_same (c : Cls) (w w1 : World) :
  same_site w w1 -> settled site env c w -> settled site env c w1.
Proof.
  intros H (root & e & Hroot & Hhost & Hentry & Hdir & Hrest).
  exists root, e. rewrite (snapshot_same w w1 H).
  destruct H as (_ & _ & _ & Hcfg & Hr). rewrite Hcfg, Hr.
  repeat split; assumption.
Qed.

Lemma ensure_config_settled (c : Cls) (w : World) :
  runs_source_config site env ->
  settled site env c w -> ensure_config env c w = (Return tt, w).
Proof.
  intros Hsource Hset. rewrite Hsource.
  now apply cls_ensure_config_settled.
Qed.

Lemma joinpath_empty (p : Path) : PurePath.joinpath p "" = p.
Proof. unfold PurePath.joinpath. simpl. apply app_nil_r. Qed.

Lemma get_latest_data_exact (c : Cls) (pattern : string) (w : World)
  (root : Path) (t : Q) :
  ensure_config env c w = (Return tt, w) ->
  pattern <> ""%string ->
  data_root w = Some root ->
  latest_start w = Some t ->
  get_latest_data env c (Some pattern) "" w
  = (Return (Some (window_files env root pattern t w)), w).
Proof.
  intros Hcfg Hne Hroot Hls. unfold get_latest_data.
  rewrite (bind_Return _ _ _ _ _ Hcfg).
  rewrite (bind_Return _ _ w w (Some root))
    by (unfold gets; now rewrite Hroot).
  rewrite (bind_Return _ _ w w (Some t))
    by (unfold gets; now rewrite Hls).
  destruct pattern as [|a pattern]; [contradiction|].
  cbn [String.eqb]. rewrite joinpath_empty.
  rewrite (bind_Return _ _ _ _ _ (get_files_created_between_eq env _ _ _ _ w)).
  reflexivity.
Qed.

Lemma finalize_pattern_not_empty (c : Cls) : finalize_pattern c <> ""%string.
Proof. destruct c; discriminate. Qed.

Lemma shared_finalize_ready (c : Cls) (fuel : nat) (w : World)
  (msgs : list string) (root : Path) (t : Q) :
  waits_without_deadline c = true ->
  started_state c = Some msgs ->
  (1 <= fuel)%nat ->
  runs_source_config site env ->
  settled site env c w ->
  shows_started msgs (proxy_state env (clock w) (sent w)) = false ->
  shows_ready (proxy_state env (clock w) (sent w)) = true ->
  data_root w = Some root ->
  latest_start w = Some t ->
  exists w1 : World,
    finalize env c fuel w = (Return tt, w1) /\
    data_files w1
    = Some (files_so_far w
            ++ window_files env root (finalize_pattern c) t w) /\
    same_site w w1 /\ latest_start w1 = latest_start w.
Proof.
  intros Hc Hs Hfuel Hsource Hset Hst Hrd Hroot Hls.
  assert (Hz : zro_class c = true)
    by (destruct c; try discriminate; reflexivity).
  assert (E : exists lvl,
             finalize env c fuel
             = shared_finalize env c lvl (finalize_pattern c) fuel)
    by (destruct c; try discriminate; eexists; reflexivity).
  destruct E as (lvl & ->). unfold shared_finalize.
  set (w0 := with_log (log w ++ [(lvl, "Finalizing"%string)]) w).
  rewrite (bind_Return _ _ w w0 tt) by reflexivity.
  rewrite (bind_Return _ _ _ _ _ (shared_is_started env c w0 msgs Hz Hs)).
  change (clock w0) with (clock w). change (sent w0) with (sent w).
  rewrite Hst.
  rewrite (bind_Return _ _ w0 w0 tt) by reflexivity.
  destruct fuel as [|n]; [lia|]. cbn [while].
  assert (Hready : (ready <- is_ready_to_start env c ;; ret (negb ready)) w0
                   = (Return false, w0)).
  { rewrite (bind_Return _ _ _ _ _
               (shared_is_ready_to_start env c w0 msgs Hz Hs)).
    change (clock w0) with (clock w). change (sent w0) with (sent w).
    now rewrite Hst, Hrd. }
  rewrite (bind_Return _ _ w0 w0 tt)
    by (rewrite (bind_Return _ _ _ _ _ Hready); reflexivity).
  set (wr := match data_files w0 with
             | Some (_ :: _) => w0
             | _ => with_data_files (Some []) w0
             end).
  rewrite (bind_Return _ _ w0 wr tt) by reflexivity.
  assert (Hwr : data_files wr = Some (files_so_far w) /\
                same_site w wr /\
                latest_start wr = latest_start w).
  { unfold wr, files_so_far, same_site.
    change (data_files w0) with (data_files w).
    destruct (data_files w) as [[|x l]|] eqn:Ed; cbn; rewrite ?Ed;
      repeat split. }
  destruct Hwr as (Hdr & Hsame & Hlr).
  pose proof Hsame as (Hcr & Hsr & Hmr & Hgr & Hrr).
  rewrite (bind_Return _ _ _ _ _
             (get_latest_data_exact c (finalize_pattern c) wr root t
                (ensure_config_settled c wr Hsource
                   (settled_same c w wr Hsame Hset))
                (finalize_pattern_not_empty c)
                (eq_trans Hrr Hroot) (eq_trans Hlr Hls))).
  rewrite (window_files_same _ _ _ w wr Hsame).
  set (files := window_files env root (finalize_pattern c) t w).
  rewrite (bind_Return _ _ wr
             (with_data_files (Some (files_so_far w ++ files)) wr) tt)
    by (unfold data_files_extend, bind, gets; rewrite Hdr; reflexivity).
  eexists. split; [reflexivity|]. unfold same_site. cbn.
  rewrite Hcr, Hsr, Hmr, Hgr, Hrr, Hlr. repeat split.
Qed.

(** X9. On a machine that runs the [ensure_config] of the source, for a
    class whose data root is in place (set, on its host, and a directory
    on the disk) and whose device is ready: [Sync.finalize()] and
    [Camstim.finalize()] return at once, having sent nothing, and append to
    [data_files] every matching file created since [latest_start]; a
    second call appends the same files a second time, so they stand twice
    in [data_files]. *)
Theorem finalize_twice_appends_twice (c : Cls) (fuel : nat) (w : World)
  (msgs : list string) (root : Path) (t : Q) :
  waits_without_deadline c = true ->
  started_state c = Some msgs ->
  (1 <= fuel)%nat ->
  runs_source_config site env ->
  settled site env c w ->
  shows_started msgs (proxy_state env (clock w) (sent w)) = false ->
  shows_ready (proxy_state env (clock w) (sent w)) = true ->
  data_root w = Some root ->
  latest_start w = Some t ->
  exists w1 w2 : World,
    finalize env c fuel w = (Return tt, w1) /\
    sent w1 = sent w /\ clock w1 = clock w /\
    data_files w1
    = Some (files_so_far w
            ++ window_files env root (finalize_pattern c) t w) /\
    finalize env c fuel w1 = (Return tt, w2) /\
    data_files w2
    = Some (files_so_far w
            ++ window_files env root (finalize_pattern c) t w
            ++ window_files env root (finalize_pattern c) t w).
Proof.
  intros Hc Hs Hfuel Hsource Hset Hst Hrd Hroot Hls.
  destruct (shared_finalize_ready c fuel w msgs root t
              Hc Hs Hfuel Hsource Hset Hst Hrd Hroot Hls)
    as (w1 & E1 & Hd1 & Hsame & Hl1).
  pose proof Hsame as (Hc1 & Hs1 & _ & _ & Hr1).
  destruct (shared_finalize_ready c fuel w1 msgs root t Hc Hs Hfuel Hsource
              (settled_same c w w1 Hsame Hset))
    as (w2 & E2 & Hd2 & _); try congruence.
  exists w1, w2. repeat split; try assumption.
  rewrite Hd2. unfold files_so_far at 1. rewrite Hd1.
  rewrite (window_files_same _ _ _ w w1 Hsame).
  now rewrite <- app_assoc.
Qed.

End Collect.

Lemma finalize_twice_appends_twice_witness :
  exists w1 w2 : World,
    finalize (on_site (plain_site "srv") ready_with_files) Sync 1
      (class_defaults 2000 (Some ["srv"; "sync"]))
    = (Return tt, w1) /\
    finalize (on_site (plain_site "srv") ready_with_files) Sync 1 w1
    = (Return tt, w2) /\
    data_files w2
    = Some [["srv"; "sync"; "old.h5"]; ["srv"; "sync"; "new.h5"];
            ["srv"; "sync"; "old.h5"]; ["srv"; "sync"; "new.h5"]]%string.
Proof.
  destruct (finalize_twice_appends_twice (plain_site "srv")
              (on_site (plain_site "srv") ready_with_files) Sync 1
              (class_defaults 2000 (Some ["srv"; "sync"]))
              ["BUSY"; "RECORDING"]%string ["srv"; "sync"]%string 0
              eq_refl eq_refl (Nat.le_refl 1) (fun c w => eq_refl)
              (ex_intro _ ["srv"; "sync"]%string
                 (ex_intro _ (mkEntry ["srv"; "sync"] true 10 10 0)
                    (conj eq_refl
                       (conj eq_refl
                          (conj eq_refl
                             (conj eq_refl (or_introl eq_refl)))))))
              eq_refl eq_refl eq_refl eq_refl)
    as (w1 & w2 & E1 & _ & _ & _ & E2 & Hd).
  exists w1, w2. split; [exact E1|]. split; [exact E2|].
  rewrite Hd. reflexivity.
Defined.

(** ** test() *)

Section SelfTest.

Variable env : Env.
Variable zro_link : Q -> list Cmd -> ZroLink.











(** X11. [Proxy.test()] of a zro class gives up before it looks at the
    disk when the device cannot be reached.  It raises [TestError], with a
    [ConnectionError] stored in [cls.exc], when the host does not answer
    the ping; and with the [ZroError] stored in [cls.exc] when the proxy's
    [uptime] raises one.  No [disk_usage] call is made in either case. *)
Theorem Proxy_test_unreachable (c : Cls) (w : World) :
  is_mvr c = false ->
  (zro_online (zro_link (clock w) (sent w)) = false ->
   exists w1 : World,
     Proxy_test env zro_link c w
     = (Raise (mkExc TestError "not connected"), w1) /\
     exc w1 = Some (mkExc ConnectionError "No response") /\
     disk_usage_calls w1 = disk_usage_calls w) /\
  (forall cl : ExcClass,
      zro_online (zro_link (clock w) (sent w)) = true ->
      zro_uptime (zro_link (clock w) (sent w)) = Some cl ->
      issubclass cl ZroError = true ->
      exists w1 : World,
        Proxy_test env zro_link c w
        = (Raise (mkExc TestError "not connected"), w1) /\
        exc w1 = Some (mkExc cl "uptime") /\
        disk_usage_calls w1 = disk_usage_calls w).
Proof.
  intro Hc.
  assert (E : is_connected env zro_link c = Proxy_is_connected env zro_link c)
    by (destruct c; try discriminate; reflexivity).
  split.
  - intro Hoff. unfold Proxy_test.
    rewrite (bind_Return _ _ w (with_log (log w ++ [(DEBUG, "Testing proxy"%string)]) w) tt)
      by reflexivity.
    rewrite E. unfold Proxy_is_connected, bind, gets.
    change (clock (with_log _ w)) with (clock w).
    change (sent (with_log _ w)) with (sent w).
    rewrite Hoff. cbn. eexists. split; [reflexivity|]. split; reflexivity.
  - intros cl Hon Hup Hcl. unfold Proxy_test.
    rewrite (bind_Return _ _ w (with_log (log w ++ [(DEBUG, "Testing proxy"%string)]) w) tt)
      by reflexivity.
    rewrite E. unfold Proxy_is_connected, bind, gets.
    change (clock (with_log _ w)) with (clock w).
    change (sent (with_log _ w)) with (sent w).
    rewrite Hon, Hup, Hcl. cbn. eexists. split; [reflexivity|].
    split; reflexivity.
Qed.

End SelfTest.


Lemma Proxy_test_unreachable_witness :
  exists w1 : World,
    Proxy_test ready_device offline Sync (class_defaults 0 None)
    = (Raise (mkExc TestError "not connected"), w1) /\
    exc w1 = Some (mkExc ConnectionError "No response").
Proof.
  destruct (Proxy_test_unreachable ready_device offline Sync
              (class_defaults 0 None) eq_refl) as [H _].
  destruct (H eq_refl) as (w1 & E & He & _).
  exists w1. split; assumption.
Defined.

(** ** Sync.validate() *)

Section Validation.

Variable site : Site.
Variable env : Env.
Variable line_labels : M unit.
Hypothesis Hsource : runs_source_config site env.

Lemma same_site_with_log (l : list (Level * string)) (w : World) :
  same_site w (with_log l w).
Proof. repeat split. Qed.

(** X12. On a machine that runs the [ensure_config] of the source, with
    the data root of [Sync] in place (set, on its host, and a directory on
    the disk) and a [.h5] file in it created since [latest_start]:
    [Sync.validate()] called without a file while the device records
    validates nothing and still returns normally: it logs one warning and
    returns, whether or not [h5py] is installed, without a command sent, a
    wait, or a change of [data_files]. *)
Theorem Sync_validate_while_recording (h5py_installed : bool) (fuel : nat)
  (w : World) (root : Path) (t : Q) :
  settled site env Sync w ->
  data_root w = Some root ->
  latest_start w = Some t ->
  window_files env root "*.h5" t w <> [] ->
  shows_started ["BUSY"; "RECORDING"]%string
    (proxy_state env (clock w) (sent w)) = true ->
  exists w1 : World,
    Sync_validate env h5py_installed line_labels fuel None w
    = (Return tt, w1) /\
    last (log w1) (DEBUG, ""%string)
    = (WARNING,
       "Attempted to validate current data file while recording"%string) /\
    sent w1 = sent w /\ clock w1 = clock w /\
    data_files w1 = data_files w.
Proof.
  intros Hset Hroot Hls Hfiles Hst. unfold Sync_validate.
  set (w0 := with_log (log w ++ [(DEBUG, "Validating data"%string)]) w).
  assert (Hcfg : ensure_config env Sync w0 = (Return tt, w0)).
  { apply (ensure_config_settled site env Sync w0 Hsource).
    apply (settled_same site env Sync w w0); [|exact Hset].
    apply same_site_with_log. }
  rewrite (bind_Return _ _ w w0 tt) by reflexivity.
  rewrite (bind_Return _ _ w0
             (with_log
                ((log w0
                  ++ [(DEBUG,
                       "No data file provided: validating most-recent data"%string)])
                 ++ [(WARNING,
                      "Attempted to validate current data file while recording"%string)])
                w0)
             None).
  - eexists. split; [reflexivity|]. cbn [log with_log sent clock data_files].
    rewrite last_last. repeat split.
  - rewrite (bind_Return _ _ _ _ _
               (get_latest_data_exact env Sync "*.h5" w0 root t Hcfg
                  ltac:(discriminate) Hroot Hls)).
    rewrite (window_files_same env _ _ _ w w0 (same_site_with_log _ w)).
    destruct (window_files env root "*.h5" t w) as [|f fs];
      [contradiction|].
    set (w1 := with_log
                 (log w0
                  ++ [(DEBUG,
                       "No data file provided: validating most-recent data"%string)])
                 w0).
    rewrite (bind_Return _ _ w0 w1 tt) by reflexivity.
    rewrite (bind_Return _ _ _ _ _
               (shared_is_started env Sync w1 ["BUSY"; "RECORDING"]%string
                  eq_refl eq_refl)).
    change (clock w1) with (clock w). change (sent w1) with (sent w).
    rewrite Hst. reflexivity.
Qed.

(** X13. What [Sync.validate(data)] finds in an empty file depends on
    whether [h5py] is installed.  Without it the call raises
    [AssertionError] ("Empty file"), and does so before it looks at the
    suffix.  With it the file is never examined: the call returns normally
    as soon as the line labels can be read. *)
Theorem Sync_validate_empty_file (fuel : nat) (w : World) (p : Path)
  (e : DirEntry) :
  entry_at p (snapshot env w) = Some e ->
  st_size e = 0 ->
  fst (Sync_validate env false line_labels fuel (Some p) w)
  = Raise (mkExc AssertionError "Empty file") /\
  (forall w1 : World,
      line_labels (with_log (log w ++ [(DEBUG, "Validating data"%string)]) w)
      = (Return tt, w1) ->
      Sync_validate env true line_labels fuel (Some p) w = (Return tt, w1)).
Proof.
  intros He Hsize. split.
  - unfold Sync_validate, Sync_min_validation, stat, bind, logger, modify,
      gets, ret.
    cbn [fst snd].
    change (snapshot env (with_log ?l (with_log ?l' w)))
      with (snapshot env w).
    rewrite He. cbn. rewrite Hsize. reflexivity.
  - intros w1 Hll. unfold Sync_validate, Sync_full_validation.
    set (w0 := with_log (log w ++ [(DEBUG, "Validating data"%string)]) w)
      in *.
    rewrite (bind_Return _ _ w w0 tt) by reflexivity.
    rewrite (bind_Return _ _ w0 w0 (Some (Some p))) by reflexivity.
    rewrite (bind_Return _ _ _ _ _ Hll). reflexivity.
Qed.

(** X14. [Sync.validate()] with nothing to validate does not raise the
    [AssertionError] it documents.  On a machine that runs the
    [ensure_config] of the source: without a data root and without an
    entry in [CONFIG] it raises, with or without [h5py], the
    [AttributeError] that [ensure_config()] meets at [None.mkdir]; and
    with the data root in place, no [.h5] file created since
    [latest_start], and without [h5py], it passes [None] to
    [min_validation], which raises the [AttributeError] of
    [None.stat]. *)
Theorem Sync_validate_nothing_to_validate (fuel : nat) (w : World) :
  (forall h5py_installed : bool,
      data_root w = None ->
      no_config Sync w ->
      fst (Sync_validate env h5py_installed line_labels fuel None w)
      = Raise (mkExc AttributeError
                 "'NoneType' object has no attribute 'mkdir'")) /\
  (forall (root : Path) (t : Q),
      settled site env Sync w ->
      data_root w = Some root ->
      latest_start w = Some t ->
      window_files env root "*.h5" t w = [] ->
      fst (Sync_validate env false line_labels fuel None w)
      = Raise
          (mkExc AttributeError "'NoneType' object has no attribute 'stat'")).
Proof.
  set (w0 := with_log (log w ++ [(DEBUG, "Validating data"%string)]) w).
  split.
  - intros h5 Hroot Hcfg. unfold Sync_validate.
    rewrite (bind_Return _ _ w w0 tt) by reflexivity.
    set (e := mkExc AttributeError
                "'NoneType' object has no attribute 'mkdir'").
    rewrite (bind_Raise _ _ w0 w0 e); [reflexivity|].
    rewrite (bind_Raise _ _ w0 w0 e); [reflexivity|].
    unfold get_latest_data.
    rewrite (bind_Raise _ _ w0 w0 e); [reflexivity|].
    rewrite Hsource.
    now rewrite (cls_ensure_config_no_root site env Sync w0 Hroot Hcfg).
  - intros root t Hset Hroot Hls Hnone. unfold Sync_validate.
    rewrite (bind_Return _ _ w w0 tt) by reflexivity.
    rewrite (bind_Return _ _ w0 w0 (Some None)); [reflexivity|].
    assert (Hcfg : ensure_config env Sync w0 = (Return tt, w0)).
    { apply (ensure_config_settled site env Sync w0 Hsource).
      apply (settled_same site env Sync w w0); [|exact Hset].
      apply same_site_with_log. }
    rewrite (bind_Return _ _ _ _ _
               (get_latest_data_exact env Sync "*.h5" w0 root t Hcfg
                  ltac:(discriminate) Hroot Hls)).
    rewrite (window_files_same env _ _ _ w w0 (same_site_with_log _ w)), Hnone.
    reflexivity.
Qed.

End Validation.

Lemma Sync_validate_while_recording_witness :
  exists w1 : World,
    Sync_validate (on_site (plain_site "srv") recording_with_h5) false
      (ret tt) 5 None (class_defaults 2000 (Some ["srv"; "sync"]%string))
    = (Return tt, w1) /\
    sent w1 = [].
Proof.
  destruct (Sync_validate_while_recording (plain_site "srv")
              (on_site (plain_site "srv") recording_with_h5) (ret tt)
              (fun c w => eq_refl) false 5
              (class_defaults 2000 (Some ["srv"; "sync"]%string))
              ["srv"; "sync"]%string 0)
    as (w1 & E & _ & Hs & _).
  - exists ["srv"; "sync"]%string, (mkEntry ["srv"; "sync"] true 10 10 0).
    repeat split. now left.
  - reflexivity.
  - reflexivity.
  - vm_compute. discriminate.
  - reflexivity.
  - exists w1. split; assumption.
Defined.

Lemma Sync_validate_empty_file_witness :
  fst (Sync_validate unconverted false (ret tt) 5
         (Some ["srv"; "sync"; "rec.h5"]%string)
         (class_defaults 2000 (Some ["srv"; "sync"]%string)))
  = Raise (mkExc AssertionError "Empty file").
Proof.
  apply (Sync_validate_empty_file unconverted (ret tt) 5
           (class_defaults 2000 (Some ["srv"; "sync"]%string))
           ["srv"; "sync"; "rec.h5"]%string
           (mkEntry ["srv"; "sync"; "rec.h5"]%string false 1000 1000 0)
           eq_refl eq_refl).
Defined.

Lemma Sync_validate_nothing_to_validate_witness :
  fst (Sync_validate (on_site (plain_site "srv") ready_device) true (ret tt)
         5 None (class_defaults 0 None))
  = Raise (mkExc AttributeError "'NoneType' object has no attribute 'mkdir'")
  /\
  fst (Sync_validate (on_site (plain_site "srv") empty_sync_dir) false
         (ret tt) 5 None (class_defaults 2000 (Some ["srv"; "sync"]%string)))
  = Raise (mkExc AttributeError "'NoneType' object has no attribute 'stat'").
Proof.
  split.
  - destruct (Sync_validate_nothing_to_validate (plain_site "srv")
                (on_site (plain_site "srv") ready_device) (ret tt)
                (fun c w => eq_refl) 5 (class_defaults 0 None)) as [H _].
    apply H; [reflexivity | split; reflexivity].
  - destruct (Sync_validate_nothing_to_validate (plain_site "srv")
                (on_site (plain_site "srv") empty_sync_dir) (ret tt)
                (fun c w => eq_refl) 5
                (class_defaults 2000 (Some ["srv"; "sync"]%string)))
      as [_ H].
    apply (H ["srv"; "sync"]%string 0%Q); try reflexivity.
    exists ["srv"; "sync"]%string, (mkEntry ["srv"; "sync"] true 10 10 0).
    repeat split. now left.
Defined.

(** ** The name of the platform json *)

Lemma chars_app (a b : string) :
  Str.chars (a ++ b) = Str.chars a ++ Str.chars b.
Proof.
  unfold Str.chars. induction a as [|c a IH]; simpl; [reflexivity|].
  now rewrite IH.
Qed.

Lemma prefix_of_refl_app (p x : list ascii) : Str.prefix_of p (p ++ x) = true.
Proof.
  induction p as [|c p IH]; simpl; [reflexivity|].
  now rewrite Ascii.eqb_refl, IH.
Qed.

Lemma prefix_of_app_r (p s t : list ascii) :
  Str.prefix_of p s = true -> Str.prefix_of p (s ++ t) = true.
Proof.
  revert s. induction p as [|c p IH]; intros s H; [reflexivity|].
  destruct s as [|d s]; [discriminate|]. simpl in *.
  apply andb_true_iff in H as [H1 H2]. now rewrite H1, IH.
Qed.

Lemma contains_chars_app_r (sub s t : list ascii) :
  Str.contains_chars sub s = true -> Str.contains_chars sub (s ++ t) = true.
Proof.
  induction s as [|c s IH]; intro H.
  - simpl in H. rewrite orb_false_r in H.
    destruct sub; [|discriminate]. destruct t; reflexivity.
  - cbn [Str.contains_chars app] in *.
    apply orb_true_iff in H as [H|H]; apply orb_true_iff.
    + left. now apply (prefix_of_app_r sub (c :: s) t).
    + right. now apply IH.
Qed.

Lemma endswith_app (v sfx : string) : PlatformJson.endswith (v ++ sfx) sfx = true.
Proof.
  unfold PlatformJson.endswith. rewrite chars_app, rev_app_distr.
  apply prefix_of_refl_app.
Qed.

(** X15. The validator of the platform json's name makes the name end in
    "_platformD1.json" and changes nothing else: a name that has the
    suffix is returned as it is, so validating twice is validating once;
    and a doubled ".json.json" in the name is still there in the result,
    because the string [replace] builds is not kept. *)
Theorem log_name_suffix_appends_once (v : string) :
  PlatformJson.endswith (PlatformJson.log_name_suffix v) PlatformJson.suffix
  = true /\
  PlatformJson.log_name_suffix (PlatformJson.log_name_suffix v)
  = PlatformJson.log_name_suffix v /\
  Str.prefix_of (Str.chars v) (Str.chars (PlatformJson.log_name_suffix v))
  = true /\
  (Str.contains ".json.json" v = true ->
   Str.contains ".json.json" (PlatformJson.log_name_suffix v) = true).
Proof.
  unfold PlatformJson.log_name_suffix.
  destruct (PlatformJson.endswith v PlatformJson.suffix) eqn:E; cbn [negb].
  - rewrite E. cbn [negb]. repeat split; try assumption; [|auto].
    rewrite <- (app_nil_r (Str.chars v)) at 2. apply prefix_of_refl_app.
  - rewrite (endswith_app v PlatformJson.suffix). cbn [negb].
    repeat split.
    + rewrite chars_app. apply prefix_of_refl_app.
    + unfold Str.contains. rewrite chars_app. apply contains_chars_app_r.
Qed.

Lemma log_name_suffix_appends_once_witness :
  PlatformJson.log_name_suffix "s1.json.json"
  = "s1.json.json_platformD1.json"%string /\
  Str.contains ".json.json" (PlatformJson.log_name_suffix "s1.json.json")
  = true.
Proof.
  split; [reflexivity|].
  apply (log_name_suffix_appends_once "s1.json.json"). reflexivity.
Defined.

(** ** JsonRecorder: the log file *)

Lemma path_eqb_eq (p q : Path) : PurePath.path_eqb p q = true -> p = q.
Proof.
  unfold PurePath.path_eqb. destruct (list_eq_dec string_dec p q); congruence.
Qed.

Lemma path_eqb_neq (p q : Path) : p <> q -> PurePath.path_eqb p q = false.
Proof.
  intro H. unfold PurePath.path_eqb.
  destruct (list_eq_dec string_dec p q); [contradiction | reflexivity].
Qed.

Lemma content_at_put_same (p : Path) (c : Content) (d : list (Path * Content)) :
  JsonRecorder.content_at p (JsonRecorder.put p c d) = Some c.
Proof.
  induction d as [|[q c'] d IH]; simpl.
  - now rewrite path_eqb_refl.
  - destruct (PurePath.path_eqb q p) eqn:E; simpl; rewrite E;
      [reflexivity | exact IH].
Qed.

Lemma content_at_put_other (p q : Path) (c : Content)
  (d : list (Path * Content)) :
  q <> p ->
  JsonRecorder.content_at q (JsonRecorder.put p c d)
  = JsonRecorder.content_at q d.
Proof.
  intro Hne. induction d as [|[q' c'] d IH]; simpl.
  - rewrite path_eqb_neq; [reflexivity | congruence].
  - destruct (PurePath.path_eqb q' p) eqn:E; simpl.
    + apply path_eqb_eq in E. subst q'.
      rewrite path_eqb_neq by congruence. reflexivity.
    + destruct (PurePath.path_eqb q' q); [reflexivity | exact IH].
Qed.

Lemma get_current_log_same (s s' : Shelf) (p : Path) :
  all_files s' = all_files s ->
  JsonRecorder.get_current_log s = (inl p, s) ->
  JsonRecorder.get_current_log s' = (inl p, s').
Proof.
  unfold JsonRecorder.get_current_log. intros ->.
  destruct (all_files s); [discriminate|]. congruence.
Qed.

Lemma get_current_log_appended (s s' : Shelf) (p q : Path) :
  all_files s' = all_files s ++ [q] ->
  JsonRecorder.get_current_log s = (inl p, s) ->
  JsonRecorder.get_current_log s' = (inl q, s').
Proof.
  unfold JsonRecorder.get_current_log. intros ->.
  destruct (all_files s) as [|x l]; [discriminate|]. intros _.
  cbn [app]. now rewrite last_last.
Qed.

(** [read()] by what the current log holds. *)
Lemma read_at (s : Shelf) (p : Path) :
  JsonRecorder.get_current_log s = (inl p, s) ->
  JsonRecorder.read s
  = match JsonRecorder.content_at p (disk s) with
    | None =>
        (inr (Builtin (mkExc FileNotFoundError "No such file or directory")),
         s)
    | Some Blank => (inl (JObject []), s)
    | Some (Document j) =>
        (inl j,
         JsonRecorder.with_journal
           (journal s ++ [(DEBUG, "read from log"%string)]) s)
    | Some NotJson => (inr JSONDecodeError, s)
    | Some NotText => (inr UnicodeDecodeError, s)
    end.
Proof.
  intro Hp. unfold JsonRecorder.read, JsonRecorder.andthen.
  rewrite Hp. unfold JsonRecorder.read_bytes.
  destruct (JsonRecorder.content_at p (disk s)) as [[|j| |]|] eqn:E;
    cbn; rewrite ?Hp; cbn;
    unfold JsonRecorder.st_size_nonzero, JsonRecorder.andthen,
      JsonRecorder.read_bytes; rewrite ?E; reflexivity.
Qed.

(** Without a current log, [read()] raises [IndexError]. *)
Lemma read_without_log (s : Shelf) :
  all_files s = [] ->
  JsonRecorder.read s
  = (inr (Builtin (mkExc IndexError "list index out of range")), s).
Proof.
  intro H. unfold JsonRecorder.read, JsonRecorder.andthen,
             JsonRecorder.get_current_log.
  rewrite H. reflexivity.
Qed.

Lemma current_log_cases (s : Shelf) :
  all_files s = [] \/
  exists p : Path, JsonRecorder.get_current_log s = (inl p, s).
Proof.
  unfold JsonRecorder.get_current_log.
  destruct (all_files s) as [|x l]; [now left | right; eauto].
Qed.

(** A [read()] that returns leaves the files, the list of logs, the locks
    and [cls.exc] as they were. *)
Lemma read_returns_frame (s s1 : Shelf) (data : Json) :
  JsonRecorder.read s = (inl data, s1) ->
  all_files s1 = all_files s /\ disk s1 = disk s /\
  locked s1 = locked s /\ cls_exc s1 = cls_exc s.
Proof.
  intro Hread.
  destruct (current_log_cases s) as [Hnone|[p Hp]];
    [rewrite (read_without_log s Hnone) in Hread; discriminate|].
  rewrite (read_at s p Hp) in Hread.
  destruct (JsonRecorder.content_at p (disk s)) as [[|j| |]|];
    try discriminate; injection Hread as _ <-; repeat split.
Qed.

(** [write()] after a [read()] that returned. *)
Lemma write_after_read (value : list (string * Json)) (s s1 : Shelf)
  (p : Path) (data : Json) :
  JsonRecorder.get_current_log s = (inl p, s) ->
  JsonRecorder.read s = (inl data, s1) ->
  JsonRecorder.write value s
  = match data with
    | JObject d =>
        if JsonRecorder.is_locked p s then
          (inr (Builtin (mkExc PermissionError "Permission denied")), s1)
        else
          (inl tt,
           JsonRecorder.with_journal
             (journal s1 ++ [(DEBUG, "wrote to log"%string)])
             (JsonRecorder.with_disk
                (JsonRecorder.put p (Document (JObject (dict_update d value)))
                   (disk s))
                s1))
    | _ =>
        (inr (Builtin
                (mkExc AttributeError
                   ("'" ++ type_name data
                    ++ "' object has no attribute 'update'"))),
         s1)
    end.
Proof.
  intros Hp Hread.
  destruct (read_returns_frame s s1 data Hread) as (Ha & Hd & Hl & _).
  pose proof (get_current_log_same s s1 p Ha Hp) as Hp1.
  unfold JsonRecorder.write. rewrite Hread.
  unfold JsonRecorder.andthen at 1. rewrite Hp1.
  assert (Hlock : JsonRecorder.is_locked p s1 = JsonRecorder.is_locked p s)
    by (unfold JsonRecorder.is_locked; now rewrite Hl).
  destruct data; try reflexivity.
  unfold JsonRecorder.data_update, JsonRecorder.andthen, JsonRecorder.pure,
    JsonRecorder.write_text.
  rewrite Hlock, Hd. destruct (JsonRecorder.is_locked p s); reflexivity.
Qed.

(** X16. What [write(value)] does with a log that [json.loads] accepts.
    When the current log holds a JSON object, or no byte at all, and is
    not locked, [write(value)] succeeds: the log then holds the object (the
    empty one for an empty file) updated with [value], which the next
    [read()] returns; the list of log files is as before and no other file
    has changed.  When the log holds a JSON document that is not an object
    (a list, a number, a string, [true], [null]), [read()] succeeds and
    [write(value)] raises [AttributeError] at [data.update]: nothing is
    written. *)
Theorem write_then_read (value : list (string * Json)) (s : Shelf)
  (p : Path) :
  JsonRecorder.get_current_log s = (inl p, s) ->
  (forall data : list (string * Json),
      JsonRecorder.content_at p (disk s) = Some (Document (JObject data)) \/
      (JsonRecorder.content_at p (disk s) = Some Blank /\ data = []) ->
      JsonRecorder.is_locked p s = false ->
      exists s2 : Shelf,
        JsonRecorder.write value s = (inl tt, s2) /\
        JsonRecorder.content_at p (disk s2)
        = Some (Document (JObject (dict_update data value))) /\
        fst (JsonRecorder.read s2) = inl (JObject (dict_update data value)) /\
        all_files s2 = all_files s /\
        (forall q : Path,
            q <> p ->
            JsonRecorder.content_at q (disk s2)
            = JsonRecorder.content_at q (disk s))) /\
  (forall j : Json,
      JsonRecorder.content_at p (disk s) = Some (Document j) ->
      (forall d, j <> JObject d) ->
      exists (s1 s2 : Shelf),
        JsonRecorder.read s = (inl j, s1) /\
        JsonRecorder.write value s
        = (inr (Builtin
                  (mkExc AttributeError
                     ("'" ++ type_name j
                      ++ "' object has no attribute 'update'"))),
           s2) /\
        disk s2 = disk s /\ all_files s2 = all_files s).
Proof.
  intro Hp. split.
  - intros data Hc Hlock.
    assert (Hread : exists s1,
               JsonRecorder.read s = (inl (JObject data), s1)).
    { rewrite (read_at s p Hp).
      destruct Hc as [Hc|[Hc ->]]; rewrite Hc; eexists; reflexivity. }
    destruct Hread as (s1 & Hread).
    destruct (read_returns_frame s s1 _ Hread) as (Ha & Hd & Hl & _).
    rewrite (write_after_read value s s1 p _ Hp Hread), Hlock.
    eexists. split; [reflexivity|].
    cbn [disk JsonRecorder.with_journal JsonRecorder.with_disk all_files].
    split; [apply content_at_put_same|].
    split; [|split].
    + erewrite read_at.
      * cbn [disk JsonRecorder.with_journal JsonRecorder.with_disk].
        rewrite content_at_put_same. reflexivity.
      * apply (get_current_log_same s); [exact Ha | exact Hp].
    + exact Ha.
    + intros q Hq. now apply content_at_put_other.
  - intros j Hc Hno.
    assert (Hread : JsonRecorder.read s
                    = (inl j,
                       JsonRecorder.with_journal
                         (journal s ++ [(DEBUG, "read from log"%string)]) s))
      by (rewrite (read_at s p Hp), Hc; reflexivity).
    do 2 eexists. split; [exact Hread|].
    rewrite (write_after_read value s _ p _ Hp Hread).
    destruct j; try (split; [reflexivity | split; reflexivity]).
    exfalso. eapply Hno. reflexivity.
Qed.

Lemma write_then_read_witness :
  (exists s2 : Shelf,
      JsonRecorder.write [("b", JInt 2)]%string
        (mkShelf
           [(["logs"; "a.json"], Document (JObject [("a", JInt 1)]))]%string
           [] None [["logs"; "a.json"]]%string None [])
      = (inl tt, s2) /\
      fst (JsonRecorder.read s2)
      = inl (JObject [("a", JInt 1); ("b", JInt 2)]%string)) /\
  (exists s2 : Shelf,
      JsonRecorder.write [("b", JInt 2)]%string
        (mkShelf [(["logs"; "a.json"], Document (JArray [JInt 1]))]%string
           [] None [["logs"; "a.json"]]%string None [])
      = (inr (Builtin
                (mkExc AttributeError
                   "'list' object has no attribute 'update'")),
         s2) /\
      disk s2 = [(["logs"; "a.json"], Document (JArray [JInt 1]))]%string).
Proof.
  split.
  - destruct (write_then_read [("b", JInt 2)]%string
                (mkShelf
                   [(["logs"; "a.json"],
                     Document (JObject [("a", JInt 1)]))]%string
                   [] None [["logs"; "a.json"]]%string None [])
                ["logs"; "a.json"]%string eq_refl) as [H _].
    destruct (H [("a", JInt 1)]%string (or_introl eq_refl) eq_refl)
      as (s2 & E & _ & Hr & _).
    exists s2. split; [exact E | exact Hr].
  - destruct (write_then_read [("b", JInt 2)]%string
                (mkShelf
                   [(["logs"; "a.json"], Document (JArray [JInt 1]))]%string
                   [] None [["logs"; "a.json"]]%string None [])
                ["logs"; "a.json"]%string eq_refl) as [_ H].
    destruct (H (JArray [JInt 1]) eq_refl ltac:(discriminate))
      as (s1 & s2 & _ & E & Hd & _).
    exists s2. split; [exact E | exact Hd].
Defined.

Lemma rsplit_dot_None (s : list ascii) :
  Str.rsplit_dot s = None -> ~ In "."%char s.
Proof.
  induction s as [|c s IH]; intros H Hin; [exact Hin|].
  simpl in H. destruct (Str.rsplit_dot s) as [[st ext]|]; [discriminate|].
  destruct (Ascii.eqb c ".") eqn:Ec; [discriminate|].
  destruct Hin as [Hc|Hin]; [subst c; discriminate|].
  now apply IH.
Qed.

Lemma rsplit_dot_spec (s st ext : list ascii) :
  Str.rsplit_dot s = Some (st, ext) ->
  s = st ++ "."%char :: ext /\ ~ In "."%char ext.
Proof.
  revert st ext. induction s as [|c s IH]; intros st ext H; [discriminate|].
  simpl in H. destruct (Str.rsplit_dot s) as [[st' ext']|] eqn:E.
  - injection H as <- <-. destruct (IH st' ext' eq_refl) as [-> Hno].
    split; [reflexivity | exact Hno].
  - destruct (Ascii.eqb c ".") eqn:Ec; [|discriminate].
    injection H as <- <-. apply Ascii.eqb_eq in Ec. subst c.
    split; [reflexivity | now apply rsplit_dot_None].
Qed.

Lemma not_own_extension (a b : string) : b <> ""%string -> a <> (a ++ b)%string.
Proof.
  intros Hb H. apply (f_equal Str.chars) in H. rewrite chars_app in H.
  apply (f_equal (@List.length ascii)) in H. rewrite length_app in H.
  destruct b as [|c b]; [contradiction|]. simpl in H. lia.
Qed.

(** The file [write()] turns to is never the log it could not decode. *)
Lemma new_log_differs (p : Path) :
  p <> PurePath.parent p ++ [(JsonRecorder.stem p ++ ".new.json")%string].
Proof.
  intro H.
  assert (Hn : PurePath.name p = (JsonRecorder.stem p ++ ".new.json")%string).
  { unfold PurePath.name at 1. rewrite H at 1. apply last_last. }
  unfold JsonRecorder.stem in Hn.
  destruct (Str.rsplit_dot (Str.chars (PurePath.name p)))
    as [[[|a st] [|b ext]]|] eqn:E;
    try (revert Hn; apply not_own_extension; discriminate).
  apply rsplit_dot_spec in E as [E Hno].
  apply (f_equal Str.chars) in Hn. rewrite chars_app in Hn.
  unfold Str.chars at 2 in Hn.
  rewrite list_ascii_of_string_of_list_ascii, E in Hn.
  apply app_inv_head in Hn. injection Hn as -> ->.
  apply Hno. simpl. tauto.
Qed.

(** X17. A log that is text but no JSON document is set aside, not
    overwritten.  When the current log holds such text, [write(value)]
    turns to the sibling file with the suffix ".new.json": it appends that
    file to [all_files], writes [value] alone into it (whatever the
    sibling held before), and leaves the damaged log as it was; the next
    [read()] reads the new file.  A log whose bytes are no text at all is
    not set aside: [write(value)] raises the [UnicodeDecodeError] of
    [json.loads], which is no [JSONDecodeError], and changes nothing. *)
Theorem write_keeps_damaged_log (value : list (string * Json)) (s : Shelf)
  (p : Path) :
  JsonRecorder.get_current_log s = (inl p, s) ->
  (JsonRecorder.content_at p (disk s) = Some NotJson ->
   PurePath.name p <> ""%string ->
   JsonRecorder.is_locked
     (PurePath.parent p ++ [(JsonRecorder.stem p ++ ".new.json")%string]) s
   = false ->
   exists s2 : Shelf,
     JsonRecorder.write value s = (inl tt, s2) /\
     all_files s2
     = all_files s
       ++ [PurePath.parent p ++ [(JsonRecorder.stem p ++ ".new.json")%string]]
     /\
     JsonRecorder.content_at p (disk s2) = Some NotJson /\
     JsonRecorder.content_at
       (PurePath.parent p ++ [(JsonRecorder.stem p ++ ".new.json")%string])
       (disk s2)
     = Some (Document (JObject (dict_update [] value))) /\
     fst (JsonRecorder.read s2) = inl (JObject (dict_update [] value))) /\
  (JsonRecorder.content_at p (disk s) = Some NotText ->
   JsonRecorder.write value s = (inr UnicodeDecodeError, s)).
Proof.
  intro Hp. split.
  2:{ intro Hc. unfold JsonRecorder.write.
      rewrite (read_at s p Hp), Hc. reflexivity. }
  intros Hc Hname Hlock.
  set (q := PurePath.parent p ++ [(JsonRecorder.stem p ++ ".new.json")%string])
    in *.
  assert (Hpq : p <> q) by apply new_log_differs.
  unfold JsonRecorder.write. rewrite (read_at s p Hp), Hc.
  unfold JsonRecorder.andthen at 1. rewrite Hp.
  unfold JsonRecorder.andthen at 1, JsonRecorder.with_suffix.
  destruct (String.eqb (PurePath.name p) "") eqn:En;
    [apply String.eqb_eq in En; contradiction|].
  unfold JsonRecorder.pure at 1. fold q.
  unfold JsonRecorder.andthen at 1, JsonRecorder.touch. rewrite Hlock.
  set (s1 := match JsonRecorder.content_at q (disk s) with
             | Some _ => s
             | None =>
                 JsonRecorder.with_disk (JsonRecorder.put q Blank (disk s)) s
             end).
  assert (Hs1 : all_files s1 = all_files s /\ locked s1 = locked s /\
                JsonRecorder.content_at p (disk s1) = Some NotJson).
  { unfold s1. destruct (JsonRecorder.content_at q (disk s));
      repeat split; try assumption.
    cbn. now rewrite content_at_put_other. }
  destruct Hs1 as (Ha1 & Hl1 & Hc1).
  replace (match JsonRecorder.content_at q (disk s) with
           | Some _ => (inl tt, s)
           | None =>
               (inl tt,
                JsonRecorder.with_disk (JsonRecorder.put q Blank (disk s)) s)
           end) with (@inl unit Failure tt, s1)
    by (unfold s1; destruct (JsonRecorder.content_at q (disk s));
        reflexivity).
  unfold JsonRecorder.andthen, JsonRecorder.data_update, JsonRecorder.pure,
    JsonRecorder.write_text.
  match goal with
  | |- context [if ?b then _ else _] =>
      assert (Hlock1 : b = false)
        by (unfold JsonRecorder.is_locked in *; cbn; now rewrite Hl1);
      rewrite Hlock1
  end.
  cbn. eexists. split; [reflexivity|]. cbn.
  split; [now rewrite Ha1|].
  split; [now rewrite content_at_put_other|].
  split; [apply content_at_put_same|].
  erewrite read_at.
  - cbn. rewrite content_at_put_same. reflexivity.
  - eapply (get_current_log_appended s); [|exact Hp]. cbn. now rewrite Ha1.
Qed.

Lemma write_keeps_damaged_log_witness :
  (exists s2 : Shelf,
      JsonRecorder.write [("b", JInt 2)]%string
        (mkShelf [(["logs"; "a.json"], NotJson)]%string
           [] None [["logs"; "a.json"]]%string None [])
      = (inl tt, s2) /\
      all_files s2 = [["logs"; "a.json"]; ["logs"; "a.new.json"]]%string /\
      JsonRecorder.content_at ["logs"; "a.json"]%string (disk s2)
      = Some NotJson) /\
  JsonRecorder.write [("b", JInt 2)]%string
    (mkShelf [(["logs"; "a.json"], NotText)]%string
       [] None [["logs"; "a.json"]]%string None [])
  = (inr UnicodeDecodeError,
     mkShelf [(["logs"; "a.json"], NotText)]%string
       [] None [["logs"; "a.json"]]%string None []).
Proof.
  split.
  - destruct (write_keeps_damaged_log [("b", JInt 2)]%string
                (mkShelf [(["logs"; "a.json"], NotJson)]%string
                   [] None [["logs"; "a.json"]]%string None [])
                ["logs"; "a.json"]%string eq_refl) as [H _].
    destruct (H eq_refl ltac:(discriminate) eq_refl)
      as (s2 & E & Ha & Hc & _).
    exists s2. split; [exact E|]. split; [exact Ha | exact Hc].
  - destruct (write_keeps_damaged_log [("b", JInt 2)]%string
                (mkShelf [(["logs"; "a.json"], NotText)]%string
                   [] None [["logs"; "a.json"]]%string None [])
                ["logs"; "a.json"]%string eq_refl) as [_ H].
    apply H. reflexivity.
Defined.

(** [validate()] by what [read()] gives. *)
Lemma validate_after_read (s s1 : Shelf) (data : Json) :
  JsonRecorder.read s = (inl data, s1) ->
  exists s2 : Shelf,
    JsonRecorder.validate s = (inl tt, s2) /\
    disk s2 = disk s /\ all_files s2 = all_files s /\
    cls_exc s2
    = if json_truthy data then cls_exc s
      else Some (mkExc TestError "failed to validate because log is empty").
Proof.
  intro Hread.
  destruct (current_log_cases s) as [Hnone|[p Hp]];
    [rewrite (read_without_log s Hnone) in Hread; discriminate|].
  destruct (read_returns_frame s s1 data Hread) as (Ha & Hd & _ & He).
  pose proof (get_current_log_same s s1 p Ha Hp) as Hp1.
  unfold JsonRecorder.validate.
  unfold JsonRecorder.andthen at 1. unfold JsonRecorder.andthen at 1.
  rewrite Hread. destruct (json_truthy data); cbn [negb].
  - cbn. eexists. split; [reflexivity|]. cbn. repeat split; assumption.
  - unfold JsonRecorder.andthen at 1. rewrite Hp1. cbn.
    eexists. split; [reflexivity|]. cbn. repeat split; assumption.
Qed.

Lemma validate_when_read_raises (s s1 : Shelf) (f : Failure) :
  JsonRecorder.read s = (inr f, s1) ->
  JsonRecorder.validate s = (inr f, s1).
Proof.
  intro Hr. unfold JsonRecorder.validate.
  unfold JsonRecorder.andthen at 1. unfold JsonRecorder.andthen at 1.
  rewrite Hr. reflexivity.
Qed.

(** X18. [JsonRecorder.test()] empties the log it tests.  When the current
    log can be opened for writing, [test()] succeeds and leaves it with no
    content, whatever it held: the next [read()] returns the empty dict,
    and the next [validate()] records a [TestError] for an empty log in
    [cls.exc].  When the log is locked, [test()] raises [TestError] and
    the files are as they were. *)
Theorem test_truncates_log (s : Shelf) (p : Path) :
  JsonRecorder.get_current_log s = (inl p, s) ->
  (JsonRecorder.is_locked p s = false ->
   exists s1 s2 : Shelf,
     JsonRecorder.test s = (inl tt, s1) /\
     JsonRecorder.content_at p (disk s1) = Some Blank /\
     all_files s1 = all_files s /\
     JsonRecorder.read s1 = (inl (JObject []), s1) /\
     JsonRecorder.validate s1 = (inl tt, s2) /\
     cls_exc s2
     = Some (mkExc TestError "failed to validate because log is empty")) /\
  (JsonRecorder.is_locked p s = true ->
   exists s1 : Shelf,
     JsonRecorder.test s
     = (inr (Builtin (mkExc TestError "JsonRecorder failed to open log")),
        s1) /\
     disk s1 = disk s).
Proof.
  intro Hp.
  set (s0 := JsonRecorder.with_journal
               (journal s ++ [(DEBUG, "JsonRecorder testing"%string)]) s).
  assert (Hp0 : JsonRecorder.get_current_log s0 = (inl p, s0))
    by (apply (get_current_log_same s); [reflexivity | exact Hp]).
  assert (Et : JsonRecorder.test s
               = match JsonRecorder.open_w p s0 with
                 | (inr (Builtin e), s1) =>
                     if issubclass (exc_class e) OSError then
                       (inr (Builtin
                               (mkExc TestError
                                  "JsonRecorder failed to open log")),
                        s1)
                     else (inr (Builtin e), s1)
                 | r => r
                 end).
  { unfold JsonRecorder.test. unfold JsonRecorder.andthen at 1.
    change (JsonRecorder.logger DEBUG "JsonRecorder testing" s)
      with (@inl unit Failure tt, s0).
    cbv iota. unfold JsonRecorder.andthen. rewrite Hp0. reflexivity. }
  rewrite Et. unfold JsonRecorder.open_w.
  change (JsonRecorder.is_locked p s0) with (JsonRecorder.is_locked p s).
  split; intro Hlock; rewrite Hlock.
  - set (s1 := JsonRecorder.with_disk (JsonRecorder.put p Blank (disk s0)) s0).
    assert (Hp1 : JsonRecorder.get_current_log s1 = (inl p, s1))
      by (apply (get_current_log_same s); [reflexivity | exact Hp]).
    assert (Hc1 : JsonRecorder.content_at p (disk s1) = Some Blank)
      by apply content_at_put_same.
    assert (Hr1 : JsonRecorder.read s1 = (inl (JObject []), s1))
      by (rewrite (read_at s1 p Hp1), Hc1; reflexivity).
    destruct (validate_after_read s1 s1 _ Hr1) as (s2 & Ev & _ & _ & He).
    exists s1, s2. repeat split; assumption.
  - cbn. eexists. split; reflexivity.
Qed.

Lemma test_truncates_log_witness :
  exists s1 : Shelf,
    JsonRecorder.test
      (mkShelf
         [(["logs"; "a.json"], Document (JObject [("a", JInt 1)]))]%string
         [] None [["logs"; "a.json"]]%string None [])
    = (inl tt, s1) /\
    JsonRecorder.read s1 = (inl (JObject []), s1).
Proof.
  destruct (test_truncates_log
              (mkShelf
                 [(["logs"; "a.json"],
                   Document (JObject [("a", JInt 1)]))]%string
                 [] None [["logs"; "a.json"]]%string None [])
              ["logs"; "a.json"]%string eq_refl) as [H _].
  destruct (H eq_refl) as (s1 & s2 & E & _ & _ & Hr & _).
  exists s1. split; [exact E | exact Hr].
Defined.

(** X19. [JsonRecorder.validate()] raises no error of its own.  When
    [read()] returns a value that is false in a condition (the empty dict
    of an empty log, or an empty list, [null], [false], 0 or an empty
    string read from the file), it records a [TestError] in [cls.exc] and
    returns normally; when [read()] returns any other value it returns
    normally with [cls.exc] untouched.  In both cases the files are as
    they were.  It raises exactly when [read()] raises, and then the very
    error of [read()]. *)
Theorem validate_reports_without_raising (s : Shelf) :
  (forall (data : Json) (s1 : Shelf),
      JsonRecorder.read s = (inl data, s1) ->
      json_truthy data = false ->
      exists s2 : Shelf,
        JsonRecorder.validate s = (inl tt, s2) /\
        cls_exc s2
        = Some (mkExc TestError "failed to validate because log is empty") /\
        disk s2 = disk s) /\
  (forall (data : Json) (s1 : Shelf),
      JsonRecorder.read s = (inl data, s1) ->
      json_truthy data = true ->
      exists s2 : Shelf,
        JsonRecorder.validate s = (inl tt, s2) /\
        cls_exc s2 = cls_exc s /\ disk s2 = disk s) /\
  (forall (f : Failure) (s2 : Shelf),
      JsonRecorder.validate s = (inr f, s2) <->
      JsonRecorder.read s = (inr f, s2)).
Proof.
  split; [|split].
  - intros data s1 Hr Hf.
    destruct (validate_after_read s s1 data Hr) as (s2 & Ev & Hd & _ & He).
    rewrite Hf in He. exists s2. repeat split; assumption.
  - intros data s1 Hr Ht.
    destruct (validate_after_read s s1 data Hr) as (s2 & Ev & Hd & _ & He).
    rewrite Ht in He. exists s2. repeat split; assumption.
  - intros f s2. split.
    + intro Hv. destruct (JsonRecorder.read s) as [[data|f'] s1] eqn:Hr.
      * destruct (validate_after_read s s1 data Hr) as (s3 & Ev & _).
        rewrite Ev in Hv. discriminate.
      * rewrite (validate_when_read_raises s s1 f' Hr) in Hv.
        now injection Hv as -> ->.
    + apply validate_when_read_raises.
Qed.

Lemma validate_reports_without_raising_witness :
  (exists s2 : Shelf,
      JsonRecorder.validate
        (mkShelf [(["logs"; "a.json"], Blank)]%string
           [] None [["logs"; "a.json"]]%string None [])
      = (inl tt, s2) /\
      cls_exc s2
      = Some (mkExc TestError "failed to validate because log is empty")) /\
  (exists s2 : Shelf,
      JsonRecorder.validate
        (mkShelf [(["logs"; "a.json"], Document (JArray []))]%string
           [] None [["logs"; "a.json"]]%string None [])
      = (inl tt, s2) /\
      cls_exc s2
      = Some (mkExc TestError "failed to validate because log is empty")) /\
  (exists s2 : Shelf,
      JsonRecorder.validate
        (mkShelf
           [(["logs"; "a.json"], Document (JObject [("a", JInt 1)]))]%string
           [] None [["logs"; "a.json"]]%string None [])
      = (inl tt, s2) /\
      cls_exc s2 = None).
Proof.
  split; [|split].
  - destruct (validate_reports_without_raising
                (mkShelf [(["logs"; "a.json"], Blank)]%string
                   [] None [["logs"; "a.json"]]%string None []))
      as [H _].
    destruct (H _ _ eq_refl eq_refl) as (s2 & E & He & _).
    exists s2. split; [exact E | exact He].
  - destruct (validate_reports_without_raising
                (mkShelf [(["logs"; "a.json"], Document (JArray []))]%string
                   [] None [["logs"; "a.json"]]%string None []))
      as [H _].
    destruct (H _ _ eq_refl eq_refl) as (s2 & E & He & _).
    exists s2. split; [exact E | exact He].
  - destruct (validate_reports_without_raising
                (mkShelf
                   [(["logs"; "a.json"],
                     Document (JObject [("a", JInt 1)]))]%string
                   [] None [["logs"; "a.json"]]%string None []))
      as (_ & H & _).
    destruct (H _ _ eq_refl eq_refl) as (s2 & E & He & _).
    exists s2. split; [exact E | exact He].
Defined.

(** ** NewScaleCoordinateRecorder: the latest coordinates *)

Section Dicts.

Context {V : Type}.






End Dicts.

Section Coordinates.

Variable strip : string -> string.
Variable Float : Type.
Variable float : string -> option Float.
Variable label : string.
Variable num_probes : nat.

Local Abbreviation scan :=
  (NewScaleCoordinateRecorder.scan strip Float float num_probes).
Local Abbreviation fill := (NewScaleCoordinateRecorder.fill strip Float float).
Local Abbreviation Row := NewScaleCoordinateRecorder.Row.
Local Abbreviation Entry := (NewScaleCoordinateRecorder.Entry Float).
Local Abbreviation Value := (NewScaleCoordinateRecorder.Value Float).







End Coordinates.


Section LastRecord.

Variable strip : string -> string.
Variable Float : Type.
Variable float : string -> option Float.
Variable label : string.
Variable num_probes : nat.

(** The rows of a file that ends in a record with a field: the row of that
    record comes first in the reversed file. *)
Lemma last_record_first (older : list (list string)) (f : string)
  (fields : list string) :
  rev (NewScaleCoordinateRecorder.DictReader
         NewScaleCoordinateRecorder.data_fieldnames
         (older ++ [f :: fields]))
  = NewScaleCoordinateRecorder.DictReader_row
      NewScaleCoordinateRecorder.data_fieldnames (f :: fields)
    :: rev (NewScaleCoordinateRecorder.DictReader
              NewScaleCoordinateRecorder.data_fieldnames older).
Proof.
  unfold NewScaleCoordinateRecorder.DictReader.
  rewrite filter_app, map_app, rev_app_distr. reflexivity.
Qed.

(** X21. One malformed record at the end of the file makes
    [get_coordinates()] fail, whatever the records before it hold (for a
    class with [num_probes] above 0).  A last record of fewer than five
    fields raises [AttributeError], because a missing field is [None] and
    has no [strip]; a last record of more than eight fields raises
    [TypeError], because the surplus is stored under the key [None]. *)
Theorem get_coordinates_malformed_last_record (s : Shelf)
  (older : list (list string)) (fields : list string) :
  data_csv s = Some (older ++ [fields]) ->
  num_probes <> 0%nat ->
  ((1 <= List.length fields <= 4)%nat ->
   NewScaleCoordinateRecorder.get_coordinates strip Float float label
     num_probes s
   = (inr (Builtin
             (mkExc AttributeError
                "'NoneType' object has no attribute 'strip'")),
      s)) /\
  ((9 <= List.length fields)%nat ->
   NewScaleCoordinateRecorder.get_coordinates strip Float float label
     num_probes s
   = (inr (Builtin
             (mkExc TypeError
                "argument of type 'NoneType' is not iterable")),
      s)).
Proof.
  intros Hcsv Hn.
  assert (Hlen : Nat.eqb (@List.length
                            (string * NewScaleCoordinateRecorder.Entry Float)
                            [])
                   num_probes = false)
    by (apply Nat.eqb_neq; simpl; congruence).
  unfold NewScaleCoordinateRecorder.get_coordinates, JsonRecorder.andthen.
  rewrite Hcsv.
  split; intro Hfields.
  - destruct fields as [|f0 [|f1 [|f2 [|f3 [|f4 more]]]]];
      simpl in Hfields; try lia;
      rewrite last_record_first;
      cbn [NewScaleCoordinateRecorder.scan]; rewrite Hlen; reflexivity.
  - destruct fields
      as [|f0 [|f1 [|f2 [|f3 [|f4 [|f5 [|f6 [|f7 [|f8 more]]]]]]]]];
      simpl in Hfields; try lia.
    rewrite last_record_first.
    cbn [NewScaleCoordinateRecorder.scan]. rewrite Hlen. reflexivity.
Qed.

End LastRecord.

Lemma get_coordinates_malformed_last_record_witness :
  fst (NewScaleCoordinateRecorder.get_coordinates strip_blanks Z
         float_of_digits "lbl" 6 cut_short)
  = inr (Builtin
           (mkExc AttributeError
              "'NoneType' object has no attribute 'strip'")).
Proof.
  rewrite (proj1 (get_coordinates_malformed_last_record strip_blanks Z
                    float_of_digits "lbl"%string 6 cut_short
                    [["t1"; "A"; "1"; "2"; "3"; "4"; "5"; "6"]]%string
                    ["t2"; "B"; "7"]%string eq_refl ltac:(discriminate))
             ltac:(simpl; lia)).
  reflexivity.
Defined.

(** ** verify() *)

Section VerifyFrame.

Variable env : Env.
Variable log10 : Z -> Q.











End VerifyFrame.

